(** * crash-python: storage decoder registry, lazy decoders, chain walker,
      and the caches of kernel data

    A shallow embedding of [crash/subsystem/storage/decoders.py], of the
    caches of [crash/cache/syscache.py] and of the iterators and register
    callbacks of [crash/types/module.py], [crash/types/cpu.py] and
    [crash/arch/aarch64.py], together with the properties the
    specification states about them and further properties of the code.

    Python code is embedded as computations in a state-and-exception
    monad: a computation receives the current state and returns either a
    value or a raised exception, together with the state it leaves behind
    (side effects made before a [raise] persist, as in Python). The code
    is read as Python 3 (3.7 or later), which its annotations and
    f-strings require. *)

From Stdlib Require Import ZArith Ascii String.
From Stdlib Require DecimalString HexadecimalString.
From stdpp Require Import gmap strings list fin_maps.

Local Open Scope string_scope.
Local Open Scope Z_scope.

(** ** Exceptions and outcomes *)

Inductive exn :=
| KeyError
| NotAvailableError              (* gdb.NotAvailableError *)
| StopIteration
| AttributeError (msg : string)
| IndexError
| TypeError
| RecursionError
| MissingSymbolError (msg : string)
| IOError (msg : string)
| OtherError (msg : string).     (* any other exception of a collaborator *)

Inductive result (A : Type) :=
| Ok (a : A)
| Raise (e : exn).
Arguments Ok {A} a.
Arguments Raise {A} e.

(** ** The monad *)

Definition M (S A : Type) : Type := S -> result A * S.

Definition ret {S A} (a : A) : M S A := fun s => (Ok a, s).

Definition raise {S A} (e : exn) : M S A := fun s => (Raise e, s).

Definition bind {S A B} (c : M S A) (k : A -> M S B) : M S B :=
  fun s => match c s with
           | (Ok a, s') => k a s'
           | (Raise e, s') => (Raise e, s')
           end.

(** [try: c except: h] -- the handler sees the exception and the state at
    the point of the raise. *)
Definition try_except {S A} (c : M S A) (h : exn -> M S A) : M S A :=
  fun s => match c s with
           | (Ok a, s') => (Ok a, s')
           | (Raise e, s') => h e s'
           end.

Definition get {S} : M S S := fun s => (Ok s, s).
Definition modify {S} (f : S -> S) : M S unit := fun s => (Ok tt, f s).
Definition lift_result {S A} (r : result A) : M S A := fun s => (r, s).

Notation "'let*' x ':=' c 'in' k" := (bind c (fun x => k))
  (at level 10, x pattern, c at level 100, k at level 200).
Notation "c ';;' k" := (bind c (fun _ => k))
  (at level 100, k at level 200, right associativity).

(** [for x in l: body x] *)
Fixpoint for_each {S A} (l : list A) (body : A -> M S unit) : M S unit :=
  match l with
  | [] => ret tt
  | x :: l' => body x ;; for_each l' body
  end.

(** ** The debugger's objects, as far as this code looks at them *)

(** A [gdb.Value]: [int(v)], [int(v.address)] when [v] has an address
    ([v.address] is [None] for a value that is not an lvalue) and
    [str(v)]. *)
Record Value := mkValue {
  val_int : Z;
  val_address : option Z;
  val_str : string
}.

(** A [gdb.Symbol] with its [value()]. *)
Record Symbol := mkSymbol {
  sym_name : string;
  sym_value : Value
}.

(** [EndIOSpecifier = Union[int, str, List[str], gdb.Value, gdb.Symbol, None]] *)
Inductive EndIOSpecifier :=
| EndioInt (n : Z)
| EndioStr (name : string)
| EndioList (names : list string)
| EndioValue (v : Value)
| EndioSymbol (s : Symbol)
| EndioNone.

(** The decoder classes of decoders.py, and those defined elsewhere that
    derive from [Decoder] (numbered). *)
Inductive ClassId :=
| Decoder
| BadBHDecoder
| GenericBHDecoder
| BadBioDecoder
| GenericBioDecoder
| UserDecoder (n : nat).

(** Python values held in attributes or found by attribute lookup.
    [PyObject] is any other object -- a bound method, a class, the
    instance [__dict__] --: no number and without fields, it has a
    [str()] and a truth value. *)
Inductive PyVal :=
| PyNone
| PyBool (b : bool)
| PyInt (n : Z)
| PyStr (s : string)
| PyValue (v : Value)
| PyObject (repr : string) (truth : bool).

(** A decoder object: its class and its instance [__dict__]. *)
Record Instance := mkInstance {
  cls : ClassId;
  attrs : gmap string PyVal
}.

(** ** Program state *)

(** The module globals: [_decoders] (a [dict] keyed by [int]; the key
    [None] is what [register_decoder(None, ...)] stores under) and the
    subscriptions made through [SymbolCallback], each a symbol name with
    the decoder class captured by [lambda a: register_decoder(a, decoder)]. *)
Record Globals := mkGlobals {
  _decoders : gmap (option Z) ClassId;
  _callbacks : list (string * ClassId)
}.

(** Instrumentation: every read of the memory image issued by this file
    and every invocation of [interpret()] by [__getattr__]. *)
Inductive Event :=
| EvRead (v : Value) (field : string)
| EvInterpret (c : ClassId).

Record State := mkState {
  globals : Globals;
  trace : list Event
}.

Definition set_decoders (f : gmap (option Z) ClassId -> gmap (option Z) ClassId)
    (σ : State) : State :=
  mkState (mkGlobals (f (_decoders (globals σ))) (_callbacks (globals σ))) (trace σ).

Definition set_callbacks (f : list (string * ClassId) -> list (string * ClassId))
    (σ : State) : State :=
  mkState (mkGlobals (_decoders (globals σ)) (f (_callbacks (globals σ)))) (trace σ).

Definition log (e : Event) (σ : State) : State :=
  mkState (globals σ) (trace σ ++ [e])%list.

Definition is_read (e : Event) : bool :=
  match e with EvRead _ _ => true | EvInterpret _ => false end.

Definition is_interpret (e : Event) : bool :=
  match e with EvInterpret _ => true | EvRead _ _ => false end.

(** The memory reads, resp. the number of [interpret()] runs, recorded
    so far. *)
Definition reads (σ : State) : list Event := filter (fun e => is_read e = true) (trace σ).
Definition interpret_runs (σ : State) : nat :=
  length (filter (fun e => is_interpret e = true) (trace σ)).

(** ** Text *)

(** [format(n, 'x')]: lower-case hexadecimal, no prefix, a leading [-]
    for a negative number. *)
Definition format_x (n : Z) : string :=
  HexadecimalString.NilZero.string_of_int (Z.to_hex_int n).

(** [t in s] for strings. *)
Definition contains (t s : string) : Prop := exists pre post, s = pre +:+ (t +:+ post).

(** ** Registry *)

(** Modelled from the spec: [crash.infra.lookup.SymbolCallback] is not
    among the sources. [SymbolCallback(name, callback)] subscribes a
    one-shot callback that is invoked when the debug session resolves
    [name]; nothing is invoked at subscription time. *)
Definition SymbolCallback (name : string) (decoder : ClassId) : M State unit :=
  modify (set_callbacks (fun l => (l ++ [(name, decoder)])%list)).

Definition register_decoder (endio : EndIOSpecifier) (decoder : ClassId) : M State unit :=
  match endio with
  | EndioStr name => SymbolCallback name decoder
  | EndioList names =>
      match names with
      | [] => raise IndexError                       (* endio[0] *)
      | _ :: _ => for_each names (fun sym => SymbolCallback sym decoder)
      end
  | _ =>
      (* if isinstance(endio, gdb.Symbol): endio = endio.value() *)
      let endio := match endio with
                   | EndioSymbol s => EndioValue (sym_value s)
                   | _ => endio
                   end in
      (* if isinstance(endio, gdb.Value): endio = int(endio.address) *)
      let* key := match endio with
                  | EndioValue v =>
                      match val_address v with
                      | Some a => ret (Some a)
                      | None => raise TypeError      (* int(None) *)
                      end
                  | EndioInt n => ret (Some n)
                  | _ => ret None                    (* the key None *)
                  end in
      modify (set_decoders (insert key decoder))
  end.

(** Modelled from the spec: the symbol-resolution notification of the
    host (part of [crash.infra.lookup], not among the sources). When
    [name] resolves to [sym], every callback subscribed under [name] is
    taken off the pending list (one-shot) and invoked with the symbol, in
    subscription order; [register_decoder] then reads the concrete
    address off the symbol's value. *)
Definition symbol_resolved (name : string) (sym : Symbol) : M State unit :=
  let* σ := get in
  let due := filter (fun p => p.1 = name) (_callbacks (globals σ)) in
  modify (set_callbacks (filter (fun p => p.1 <> name))) ;;
  for_each due (fun p => register_decoder (EndioSymbol sym) p.2).

(** Table lookup as the callers do it: [_decoders[key]]. *)
Definition lookup_decoder (key : Z) (σ : State) : option ClassId :=
  _decoders (globals σ) !! Some key.

(** ** Collaborators *)

(** The body of a method of a decoder class defined outside
    decoders.py, as the steps it takes on its object: it returns or
    raises, reads and writes attributes of [self] (reading goes through
    [__getattr__] like any attribute access, and so may run
    [interpret()]), reads the memory image, asks for the name of a block
    device, reads and writes the module globals, and guards a block with
    [try]/[except]. The instrumentation is not the method's to write: a
    read of the image is recorded because the step is taken. *)
Inductive UserCode (A : Type) : Type :=
| Return (a : A)
| Throw (e : exn)                                                  (* raise e *)
| GetAttr (name : string) (k : PyVal -> UserCode A)                (* self.name *)
| SetAttr (name : string) (v : PyVal) (k : UserCode A)             (* self.name = v *)
| ReadField (v : Value) (field : string) (k : Value -> UserCode A) (* v[field] *)
| DeviceName (v : Value) (k : string -> UserCode A)         (* block_device_name(v) *)
| GetGlobals (k : Globals -> UserCode A)
| SetGlobals (g : Globals) (k : UserCode A)
| Try (body : UserCode PyVal) (handler : exn -> UserCode PyVal)
      (k : PyVal -> UserCode A).                        (* try: body except: handler *)
Arguments Return {A} a.
Arguments Throw {A} e.
Arguments GetAttr {A} name k.
Arguments SetAttr {A} name v k.
Arguments ReadField {A} v field k.
Arguments DeviceName {A} v k.
Arguments GetGlobals {A} k.
Arguments SetGlobals {A} g k.
Arguments Try {A} body handler k.

(** A class deriving from [Decoder] elsewhere: the methods it overrides
    ([None]: inherited from [Decoder]) and its other class attributes. *)
Record UserClass := mkUserClass {
  uc_attrs : gmap string PyVal;
  uc_init : option (Value -> UserCode unit);
  uc_interpret : option (UserCode unit);
  uc_str : option (UserCode PyVal);
  uc_next : option (UserCode (option Instance))
}.

(** What the code consumes from outside the file: the memory image
    ([v[field]], which fails when the memory behind it is unavailable),
    [crash.subsystem.storage.block_device_name] (not among the sources),
    the decoder classes defined by other modules, and of the
    interpreter: the [str()] of what the name [name] gives on an object
    of class [c] when that is an object of its own, such as a bound
    method; what a special name gives where it gives a plain value
    ([__doc__], [__module__], [__weakref__]) or where only some versions
    of the interpreter provide it ([__getstate__]); and what calling a
    value does that is neither [None], a [bool], an [int] nor a [str]. *)
Record World := mkWorld {
  mem_read : Value -> string -> result Value;
  block_device_name : Value -> result string;
  user : nat -> UserClass;
  object_str : ClassId -> string -> string;
  object_attr : ClassId -> string -> option PyVal;
  call_value : PyVal -> UserCode unit
}.

(** ** Methods *)

(** A method runs on [self] and the program state. *)
Definition Method (A : Type) : Type := M (Instance * State) A.

Definition lift {A} (c : M State A) : Method A :=
  fun s => match c s.2 with (r, σ') => (r, (s.1, σ')) end.

Definition get_self : Method Instance := fun s => (Ok s.1, s).

(** [self.name = v] *)
Definition set_attr (name : string) (v : PyVal) : Method unit :=
  modify (fun s => (mkInstance (cls s.1) (<[name := v]> (attrs s.1)), s.2)).

(** Run a method on an object; the caller goes on with its result and
    the state, and does not look at the object again. *)
Definition run_method {A} (m : Method A) (self : Instance) : M State A :=
  fun σ => match m (self, σ) with (r, s') => (r, s'.2) end.

Definition emit (e : Event) : M State unit := modify (log e).

(** [v[field]], read from the image. *)
Definition read_field (w : World) (v : Value) (field : string) : M State Value :=
  emit (EvRead v field) ;; lift_result (mem_read w v field).

(** [x[field]] for an attribute value; only a [gdb.Value] has fields. *)
Definition getitem (w : World) (x : PyVal) (field : string) : Method Value :=
  match x with
  | PyValue v => lift (read_field w v field)
  | _ => raise TypeError
  end.

(** [int(x)] for the values the decoders hold; the text of a string is
    not parsed. *)
Definition py_int (x : PyVal) : result Z :=
  match x with
  | PyValue v => Ok (val_int v)
  | PyInt n => Ok n
  | PyBool b => Ok (if b then 1 else 0)
  | PyStr _ => Raise (OtherError "ValueError")
  | PyNone | PyObject _ _ => Raise TypeError
  end.

(** [str(x)] *)
Definition py_str (x : PyVal) : string :=
  match x with
  | PyValue v => val_str v
  | PyInt n => DecimalString.NilZero.string_of_int (Z.to_int n)
  | PyBool b => if b then "True" else "False"
  | PyStr s => s
  | PyNone => "None"
  | PyObject repr _ => repr
  end.

(** Truth value of [x] in [if x:]. *)
Definition truthy (x : PyVal) : bool :=
  match x with
  | PyNone => false
  | PyBool b => b
  | PyInt n => negb (n =? 0)
  | PyStr s => negb (String.eqb s "")
  | PyValue v => negb (val_int v =? 0)
  | PyObject _ truth => truth
  end.

(** [template.format(args...)] for the replacement fields the class
    descriptions use: [{:x}] (an integer in hexadecimal) and [{}]; any
    other character is copied. *)
Fixpoint py_format (template : string) (args : list PyVal) : result string :=
  match template with
  | EmptyString => Ok EmptyString
  | String "{"%char (String ":"%char (String "x"%char (String "}"%char rest))) =>
      match args with
      | PyInt n :: args' =>
          match py_format rest args' with
          | Ok s => Ok (format_x n +:+ s)
          | Raise e => Raise e
          end
      | PyBool b :: args' =>
          match py_format rest args' with
          | Ok s => Ok (format_x (if b then 1 else 0) +:+ s)
          | Raise e => Raise e
          end
      | _ :: _ => Raise (OtherError "ValueError")
      | [] => Raise IndexError
      end
  | String "{"%char (String "}"%char rest) =>
      match args with
      | a :: args' =>
          match py_format rest args' with
          | Ok s => Ok (py_str a +:+ s)
          | Raise e => Raise e
          end
      | [] => Raise IndexError
      end
  | String c rest =>
      match py_format rest args with
      | Ok s => Ok (String c s)
      | Raise e => Raise e
      end
  end.

(** Class attributes declared in the class bodies. *)
Definition class_dict (w : World) (c : ClassId) : gmap string PyVal :=
  match c with
  | Decoder => {[ "__endio__" := PyNone ]}
  | BadBHDecoder => {[ "_description" := PyStr "{:x} bh: invalid buffer_head" ]}
  | GenericBHDecoder =>
      {[ "_description" :=
           PyStr "{:x} buffer_head: for dev {}, block {}, size {} (undecoded)" ]}
  | BadBioDecoder => {[ "_description" := PyStr "{:x} bio: invalid bio" ]}
  | GenericBioDecoder => {[ "_description" := PyStr "{:x} bio: undecoded bio on {} ({})" ]}
  | UserDecoder n => uc_attrs (user w n)
  end.

(** The methods every decoder class has, defined in [Decoder] or
    overridden. *)
Definition method_names : list string :=
  ["__init__"; "interpret"; "__getattr__"; "register"; "__str__"; "__next__"].

(** A special name: two underscores at either end. *)
Fixpoint ends_dunder (s : string) : bool :=
  match s with
  | EmptyString => false
  | String "_" (String "_" EmptyString) => true
  | String _ r => ends_dunder r
  end.

Definition is_dunder (name : string) : bool :=
  String.prefix "__" name && ends_dunder name.

(** The special names that [object] and the making of a class provide
    to every instance, in every version of Python 3. *)
Definition object_names : list string :=
  ["__class__"; "__delattr__"; "__dict__"; "__dir__"; "__doc__"; "__eq__"; "__format__";
   "__ge__"; "__getattribute__"; "__gt__"; "__hash__"; "__init__"; "__init_subclass__";
   "__le__"; "__lt__"; "__module__"; "__ne__"; "__new__"; "__reduce__"; "__reduce_ex__";
   "__repr__"; "__setattr__"; "__sizeof__"; "__str__"; "__subclasshook__"; "__weakref__"].

(** Ordinary attribute lookup: the instance [__dict__]; then the class
    and its base [Decoder], where a method is found as a bound method and
    a class attribute as its value; then [object], for a special name. *)
Definition find_attr (w : World) (self : Instance) (name : string) : option PyVal :=
  match attrs self !! name with
  | Some v => Some v
  | None =>
      if existsb (String.eqb name) method_names
      then Some (PyObject (object_str w (cls self) name) true)
      else
        match class_dict w (cls self) !! name with
        | Some v => Some v
        | None =>
            match class_dict w Decoder !! name with
            | Some v => Some v
            | None =>
                if is_dunder name then
                  match object_attr w (cls self) name with
                  | Some v => Some v
                  | None =>
                      if existsb (String.eqb name) object_names
                      then Some (PyObject (object_str w (cls self) name) true)
                      else None
                  end
                else None
            end
        end
  end.

(** The steps of a method defined outside the file, run on [self]:
    [getattr] is attribute access as the caller has it. *)
Fixpoint run_user {A} (w : World) (getattr : string -> Method PyVal) (code : UserCode A)
    : Method A :=
  match code with
  | Return a => ret a
  | Throw e => raise e
  | GetAttr name k => let* v := getattr name in run_user w getattr (k v)
  | SetAttr name v k => set_attr name v ;; run_user w getattr k
  | ReadField v field k =>
      let* x := lift (read_field w v field) in run_user w getattr (k x)
  | DeviceName v k =>
      let* name := lift (lift_result (block_device_name w v)) in run_user w getattr (k name)
  | GetGlobals k => let* s := get in run_user w getattr (k (globals s.2))
  | SetGlobals g k =>
      modify (fun s => (s.1, mkState g (trace s.2))) ;; run_user w getattr k
  | Try body handler k =>
      let* v := try_except (run_user w getattr body)
                           (fun e => run_user w getattr (handler e)) in
      run_user w getattr (k v)
  end.

(** [Decoder.interpret]: [pass]. *)
Definition Decoder_interpret : Method unit := ret tt.

(** [GenericBHDecoder.interpret]:
    [self.block_device = block_device_name(self.bh['b_bdev'])] *)
Definition GenericBHDecoder_interpret (w : World) (getattr : string -> Method PyVal)
    : Method unit :=
  let* bh := getattr "bh" in
  let* bdev := getitem w bh "b_bdev" in
  let* name := lift (lift_result (block_device_name w bdev)) in
  set_attr "block_device" (PyStr name).

(** The method [interpret] of the class of [self]. *)
Definition interpret (w : World) (getattr : string -> Method PyVal) : Method unit :=
  let* self := get_self in
  match cls self with
  | GenericBHDecoder => GenericBHDecoder_interpret w getattr
  | UserDecoder n =>
      match uc_interpret (user w n) with
      | Some f => run_user w getattr f
      | None => Decoder_interpret
      end
  | _ => Decoder_interpret
  end.

(** [self.interpret()]: the method of the class, unless the instance
    [__dict__] binds [interpret], in which case that value is called --
    and [None], a [bool], an [int] and a [str] cannot be. *)
Definition call_interpret (w : World) (getattr : string -> Method PyVal) : Method unit :=
  let* self := get_self in
  match attrs self !! "interpret" with
  | None => interpret w getattr
  | Some (PyNone | PyBool _ | PyInt _ | PyStr _) => raise TypeError
  | Some v => run_user w getattr (call_value w v)
  end.

(** [Decoder.__getattr__], called when ordinary lookup of [name] fails.
    [self.interpreted] and the final [getattr(self, name)] are attribute
    accesses themselves and come back here when ordinary lookup fails;
    [depth] is the remaining call depth, at the end of which Python
    raises [RecursionError]. *)
Fixpoint Decoder___getattr__ (w : World) (depth : nat) (name : string) : Method PyVal :=
  match depth with
  | O => raise RecursionError
  | S depth' =>
      let getattr := fun n : string =>
        let* self := get_self in
        match find_attr w self n with
        | Some v => ret v
        | None => Decoder___getattr__ w depth' n
        end in
      let* interpreted := getattr "interpreted" in
      if truthy interpreted then
        raise (AttributeError ("No such attribute `" +:+ name +:+ "'"))
      else
        let* self := get_self in
        lift (emit (EvInterpret (cls self))) ;;
        call_interpret w getattr ;;
        set_attr "interpreted" (PyBool true) ;;
        getattr name
  end.

(** [getattr(self, name)], i.e. [self.name]. *)
Definition getattr (w : World) (depth : nat) (name : string) : Method PyVal :=
  let* self := get_self in
  match find_attr w self name with
  | Some v => ret v
  | None => Decoder___getattr__ w depth name
  end.

(** Call depth available to attribute access ([sys.getrecursionlimit()]). *)
Definition recursion_limit : nat := 1000.

(** [desc.format(args...)] where [desc] was fetched from an attribute. *)
Definition str_format (desc : PyVal) (args : list PyVal) : Method PyVal :=
  match desc with
  | PyStr template =>
      let* s := lift (lift_result (py_format template args)) in ret (PyStr s)
  | _ => raise (AttributeError "format")
  end.

(** [Decoder.__str__]: [pass]. *)
Definition Decoder___str__ : Method PyVal := ret PyNone.

(** [BadBHDecoder.__str__]: [self._description.format(int(self.bh))] *)
Definition BadBHDecoder___str__ (w : World) : Method PyVal :=
  let* desc := getattr w recursion_limit "_description" in
  let* bh := getattr w recursion_limit "bh" in
  let* n := lift (lift_result (py_int bh)) in
  str_format desc [PyInt n].

(** [GenericBHDecoder.__str__]:
    [self._description.format(int(self.bh), self.block_device,
                              self.bh['b_blocknr'], self.bh['b_size'])] *)
Definition GenericBHDecoder___str__ (w : World) : Method PyVal :=
  let* desc := getattr w recursion_limit "_description" in
  let* bh := getattr w recursion_limit "bh" in
  let* n := lift (lift_result (py_int bh)) in
  let* block_device := getattr w recursion_limit "block_device" in
  let* bh := getattr w recursion_limit "bh" in
  let* blocknr := getitem w bh "b_blocknr" in
  let* bh := getattr w recursion_limit "bh" in
  let* size := getitem w bh "b_size" in
  str_format desc [PyInt n; block_device; PyValue blocknr; PyValue size].

(** [BadBioDecoder.__str__]: [self._description.format(int(self.bio))] *)
Definition BadBioDecoder___str__ (w : World) : Method PyVal :=
  let* desc := getattr w recursion_limit "_description" in
  let* bio := getattr w recursion_limit "bio" in
  let* n := lift (lift_result (py_int bio)) in
  str_format desc [PyInt n].

(** [GenericBioDecoder.__str__]:
    [self._description.format(int(self.bio),
                              block_device_name(self.bio['bi_bdev']),
                              self.bio['bi_end_io'])] *)
Definition GenericBioDecoder___str__ (w : World) : Method PyVal :=
  let* desc := getattr w recursion_limit "_description" in
  let* bio := getattr w recursion_limit "bio" in
  let* n := lift (lift_result (py_int bio)) in
  let* bio := getattr w recursion_limit "bio" in
  let* bdev := getitem w bio "bi_bdev" in
  let* name := lift (lift_result (block_device_name w bdev)) in
  let* bio := getattr w recursion_limit "bio" in
  let* end_io := getitem w bio "bi_end_io" in
  str_format desc [PyInt n; PyStr name; PyValue end_io].

(** [self.__str__()], by the class of [self]. *)
Definition dunder_str (w : World) : Method PyVal :=
  let* self := get_self in
  match cls self with
  | Decoder => Decoder___str__
  | BadBHDecoder => BadBHDecoder___str__ w
  | GenericBHDecoder => GenericBHDecoder___str__ w
  | BadBioDecoder => BadBioDecoder___str__ w
  | GenericBioDecoder => GenericBioDecoder___str__ w
  | UserDecoder n =>
      match uc_str (user w n) with
      | Some f => run_user w (getattr w recursion_limit) f
      | None => Decoder___str__
      end
  end.

(** [str(self)]: the result of [__str__] must be a string. *)
Definition str_ (w : World) : Method string :=
  let* r := dunder_str w in
  match r with
  | PyStr s => ret s
  | _ => raise TypeError
  end.

(** [Decoder.__next__]: [pass]. *)
Definition Decoder___next__ : Method (option Instance) := ret None.

(** [next(self)]: [self.__next__()], by the class of [self]. None of the
    classes of decoders.py overrides [__next__]. *)
Definition next_ (w : World) : Method (option Instance) :=
  let* self := get_self in
  match cls self with
  | UserDecoder n =>
      match uc_next (user w n) with
      | Some f => run_user w (getattr w recursion_limit) f
      | None => Decoder___next__
      end
  | _ => Decoder___next__
  end.

(** ** Construction *)

(** [Decoder.__init__(self, value=None)]: [self.interpreted = False] *)
Definition Decoder___init__ : Method unit := set_attr "interpreted" (PyBool false).

(** [super().__init__(); self.bh = bh] *)
Definition BadBHDecoder___init__ (bh : Value) : Method unit :=
  Decoder___init__ ;; set_attr "bh" (PyValue bh).

Definition GenericBHDecoder___init__ (bh : Value) : Method unit :=
  Decoder___init__ ;; set_attr "bh" (PyValue bh).

(** [super().__init__(); self.bio = bio] *)
Definition BadBioDecoder___init__ (bio : Value) : Method unit :=
  Decoder___init__ ;; set_attr "bio" (PyValue bio).

Definition GenericBioDecoder___init__ (bio : Value) : Method unit :=
  Decoder___init__ ;; set_attr "bio" (PyValue bio).

Definition dunder_init (w : World) (c : ClassId) (value : Value) : Method unit :=
  match c with
  | Decoder => Decoder___init__
  | BadBHDecoder => BadBHDecoder___init__ value
  | GenericBHDecoder => GenericBHDecoder___init__ value
  | BadBioDecoder => BadBioDecoder___init__ value
  | GenericBioDecoder => GenericBioDecoder___init__ value
  | UserDecoder n =>
      match uc_init (user w n) with
      | Some f => run_user w (getattr w recursion_limit) (f value)
      | None => Decoder___init__
      end
  end.

(** [c(value)]: a fresh object of class [c], initialised by [__init__]. *)
Definition new (w : World) (c : ClassId) (value : Value) : M State Instance :=
  fun σ => match dunder_init w c value (mkInstance c ∅, σ) with
           | (Ok _, s') => (Ok s'.1, s'.2)
           | (Raise e, s') => (Raise e, s'.2)
           end.

(** ** Dispatch *)

(** [_decoders[key]] *)
Definition decoders_getitem (key : Z) : M State ClassId :=
  let* σ := get in
  match _decoders (globals σ) !! Some key with
  | Some c => ret c
  | None => raise KeyError
  end.

Definition decode_bio (w : World) (bio : Value) : M State Instance :=
  try_except
    (let* end_io := read_field w bio "bi_end_io" in
     let* factory := decoders_getitem (val_int end_io) in
     new w factory bio)
    (fun e => match e with
              | KeyError => new w GenericBioDecoder bio
              | NotAvailableError => new w BadBioDecoder bio
              | _ => raise e
              end).

Definition decode_bh (w : World) (bh : Value) : M State Instance :=
  try_except
    (let* end_io := read_field w bh "b_end_io" in
     let* factory := decoders_getitem (val_int end_io) in
     new w factory bh)
    (fun e => match e with
              | KeyError => new w GenericBHDecoder bh
              | NotAvailableError => new w BadBHDecoder bh
              | _ => raise e
              end).

(** ** Chain walker *)

(** The generator [for_each_bio_in_stack(bio)] between two requests for
    an element: not started, suspended at [yield decoder], or finished. *)
Inductive Generator :=
| GenStart (bio : Value)
| GenYielded (decoder : Instance)
| GenDone.

(** [while decoder is not None: yield decoder ...], at the loop test. *)
Definition loop_test (decoder : option Instance) : M State (option Instance * Generator) :=
  match decoder with
  | Some d => ret (Some d, GenYielded d)
  | None => ret (None, GenDone)
  end.

(** A [StopIteration] that leaves the body of a generator reaches the
    caller as [RuntimeError] (PEP 479). *)
Definition generator_raised_StopIteration : exn := OtherError "RuntimeError".

Definition in_generator {A} (c : M State A) : M State A :=
  try_except c (fun e => match e with
                         | StopIteration => raise generator_raised_StopIteration
                         | _ => raise e
                         end).

(** One request for the next element: runs the generator body up to the
    next [yield] ([Some d]) or to its end ([None]). *)
Definition for_each_bio_in_stack (w : World) (g : Generator)
    : M State (option Instance * Generator) :=
  match g with
  | GenStart bio =>
      let* decoder := in_generator (decode_bio w bio) in
      loop_test (Some decoder)
  | GenYielded decoder =>
      let* step :=
        try_except
          (let* d := run_method (next_ w) decoder in ret (Some d))
          (fun e => match e with
                    | StopIteration => ret None          (* break *)
                    | _ => raise e
                    end) in
      match step with
      | Some d => loop_test d
      | None => ret (None, GenDone)
      end
  | GenDone => ret (None, GenDone)
  end.

(** What a consumer of the generator receives, drawing at most [fuel]
    times: the decoders in the order they are yielded, each as it is when
    it is yielded (the [next()] that the generator calls on it afterwards
    acts on the same object); [None] when the generator has not finished
    by then. *)
Fixpoint collect (w : World) (fuel : nat) (g : Generator) : M State (option (list Instance)) :=
  match fuel with
  | O => ret None
  | S fuel' =>
      let* r := for_each_bio_in_stack w g in
      match r with
      | (Some d, g') =>
          let* rest := collect w fuel' g' in
          ret (option_map (cons d) rest)
      | (None, _) => ret (Some [])
      end
  end.



(** ** Vocabulary of the statements *)

(** The names a symbolic registration subscribes to. *)
Definition names_of (endio : EndIOSpecifier) : list string :=
  match endio with
  | EndioStr name => [name]
  | EndioList names => names
  | _ => []
  end.

(** The state after the subscriptions [subs] were added. *)
Definition subscribed (subs : list (string * ClassId)) (σ : State) : State :=
  set_callbacks (fun l => (l ++ subs)%list) σ.

(** The effect on the table of invoking the callbacks [due] with [sym]. *)
Fixpoint run_due (sym : Symbol) (due : list (string * ClassId))
    (table : gmap (option Z) ClassId) : result unit * gmap (option Z) ClassId :=
  match due with
  | [] => (Ok tt, table)
  | p :: due' =>
      match val_address (sym_value sym) with
      | Some a => run_due sym due' (<[Some a := p.2]> table)
      | None => (Raise TypeError, table)
      end
  end.

(** The constructor of class [c] is one of those of decoders.py. *)
Definition init_in_file (w : World) (c : ClassId) : Prop :=
  match c with
  | UserDecoder n => uc_init (user w n) = None
  | _ => True
  end.

(** A caller reading [self.name] and carrying on whatever comes of it. *)
Definition try_access (w : World) (name : string) : Method unit :=
  try_except (getattr w recursion_limit name ;; ret tt) (fun _ => ret tt).

(** The object [c(v)] as the constructors of decoders.py leave it:
    [interpreted] is [False] and the handle is stored under [handle]. *)
Definition decoder_in (c : ClassId) (handle : string) (v : Value) (interpreted : bool)
    : Instance :=
  mkInstance c (<[handle := PyValue v]> (<["interpreted" := PyBool interpreted]> ∅)).

Definition decoder_with (c : ClassId) (handle : string) (v : Value) : Instance :=
  decoder_in c handle v false.

(** The object the constructors of decoders.py build for class [c] and
    handle [v]. *)
Definition constructed_object (c : ClassId) (v : Value) : Instance :=
  match c with
  | BadBHDecoder | GenericBHDecoder => decoder_with c "bh" v
  | BadBioDecoder | GenericBioDecoder => decoder_with c "bio" v
  | Decoder | UserDecoder _ => mkInstance c (<["interpreted" := PyBool false]> ∅)
  end.

(** The message of the [AttributeError] raised for [name]. *)
Definition no_such_attribute (name : string) : exn :=
  AttributeError ("No such attribute `" +:+ name +:+ "'").


(** ** Sample worlds *)

Definition plain_class : UserClass := mkUserClass ∅ None None None None.

(** The interpreter's part of the sample worlds: an object of its own
    prints as the name that gave it; the module name and the weak
    reference are plain values; the annotations of [Decoder] and
    [__getstate__] are there; and no value can be called. *)
Definition sample_object_str (c : ClassId) (name : string) : string :=
  "<" +:+ name +:+ ">".

Definition sample_object_attr (c : ClassId) (name : string) : option PyVal :=
  if String.eqb name "__module__" then Some (PyStr "crash.subsystem.storage.decoders")
  else if String.eqb name "__weakref__" then Some PyNone
  else if String.eqb name "__annotations__" then Some (PyObject "<__annotations__>" true)
  else if String.eqb name "__getstate__" then Some (PyObject "<__getstate__>" true)
  else None.

Definition not_callable (v : PyVal) : UserCode unit := Throw TypeError.

Definition sample_world (mem_read : Value -> string -> result Value)
    (block_device_name : Value -> result string) (user : nat -> UserClass) : World :=
  mkWorld mem_read block_device_name user sample_object_str sample_object_attr
          not_callable.

(** An image in which nothing is readable. *)
Definition unreadable_world : World :=
  sample_world (fun _ _ => Raise NotAvailableError) (fun _ => Raise NotAvailableError)
               (fun _ => plain_class).

(** An image torn inside a buffer head: its callback address is
    readable, nothing else is. *)
Definition torn_world : World :=
  sample_world (fun _ field => if String.eqb field "b_end_io"
                          then Ok (mkValue 57005 None "0xdead")
                          else Raise NotAvailableError)
          (fun _ => Raise NotAvailableError)
          (fun _ => plain_class).


Definition empty_state : State := mkState (mkGlobals ∅ []) [].

Definition null_value : Value := mkValue 0 None "0x0".

(** An image in which every field reads as the callback address
    [0xdead], on a device called [sda]. *)
Definition readable_world : World :=
  sample_world (fun _ field => Ok (mkValue 57005 None ("0xdead <" +:+ field +:+ ">")))
          (fun _ => Ok "sda") (fun _ => plain_class).

Definition sample_object : Value := mkValue 4096 None "0x1000".




(** A class whose [interpret()] reads a field that nothing defines. *)
Definition reentrant_class : UserClass :=
  mkUserClass ∅ None (Some (GetAttr "sector" (fun _ => Return tt))) None None.

Definition reentrant_world : World :=
  sample_world (fun _ _ => Raise NotAvailableError) (fun _ => Raise NotAvailableError)
               (fun _ => reentrant_class).

Definition stacked_state : State :=
  mkState (mkGlobals {[ Some 4096 := UserDecoder 0 ]} []) [].

(** ** Kernel configuration cache (syscache.py) *)

Module Syscache.

(** What [CrashConfigCache] consumes from the debugger:
    [gdb.lookup_symbol(name, ...)[0]], the [sizeof] of a value's type,
    [gdb.selected_inferior().read_memory(address, size)] rendered by
    [str()], and [zlib.decompress]. *)
Record Debugger := mkDebugger {
  lookup_symbol : string -> option Symbol;
  sizeof : Value -> Z;
  read_memory_str : Z -> Z -> result string;
  zlib_decompress : string -> Z -> Z -> result string
}.

(** The [CrashConfigCache] object: [config_buffer] once it is set. *)
Record CrashConfigCache := mkCache {
  config_buffer : option string
}.

Definition MAGIC_START : string := "IKCFG_ST".
Definition MAGIC_END : string := "IKCFG_ED".
Definition GZIP_HEADER_LEN : Z := 10.

Definition len (s : string) : Z := Z.of_nat (String.length s).

(** [read_buf(address, size)] *)
Definition read_buf (dbg : Debugger) (address size : Z) : M CrashConfigCache string :=
  lift_result (read_memory_str dbg address size).

Definition decompress_config_buffer (dbg : Debugger) : M CrashConfigCache unit :=
  match lookup_symbol dbg "kernel_config_data" with
  | None =>
      raise (MissingSymbolError "CrashConfigCache requires 'kernel_config_data' symbol.")
  | Some sym =>
      let kernel_config_data := sym_value sym in
      match val_address kernel_config_data with
      | None => raise (AttributeError "cast")
      | Some data_addr =>
          let data_len := sizeof dbg kernel_config_data in
          let buf_len := len MAGIC_START in
          let* buf := read_buf dbg data_addr buf_len in
          if negb (String.eqb buf MAGIC_START) then
            raise (IOError "Missing MAGIC_START in kernel_config_data.")
          else
            let buf_len := len MAGIC_END in
            let* buf := read_buf dbg (data_addr + data_len - buf_len - 1) buf_len in
            if negb (String.eqb buf MAGIC_END) then
              raise (IOError "Missing MAGIC_END in kernel_config_data.")
            else
              let buf_len := data_len - len MAGIC_START - len MAGIC_END - GZIP_HEADER_LEN in
              let* buf := read_buf dbg (data_addr + len MAGIC_START + GZIP_HEADER_LEN) buf_len in
              let* text := lift_result (zlib_decompress dbg buf (-15) buf_len) in
              modify (fun _ => mkCache (Some text))
      end
  end.

(** The marker the code expects at the start of [kernel_config_data],
    resp. before the last byte of it, is there. *)
Definition start_marker_present (dbg : Debugger) (data_addr : Z) : Prop :=
  read_memory_str dbg data_addr 8 = Ok MAGIC_START.

Definition end_marker_present (dbg : Debugger) (data_addr data_len : Z) : Prop :=
  read_memory_str dbg (data_addr + data_len - 8 - 1) 8 = Ok MAGIC_END.

(** A [kernel_config_data] of 64 bytes at [0x2000] whose bytes are not
    the expected ones. *)
Definition garbled_debugger : Debugger :=
  mkDebugger (fun _ => Some (mkSymbol "kernel_config_data" (mkValue 0 (Some 8192) "")))
             (fun _ => 64) (fun _ _ => Ok "\0\0\0\0\0\0\0\0")
             (fun _ _ _ => Raise (OtherError "zlib.error")).

End Syscache.

(** ** The rest of syscache.py *)

(** Keep the part of the state a computation works on in view: run [c]
    on the component [proj s] and put its result back with [inj]. *)
Definition zoom {S T A} (proj : S -> T) (inj : T -> S -> S) (c : M T A) : M S A :=
  fun s => match c (proj s) with (r, t') => (r, inj t' s) end.

Module Config.

(** Text is a [str] of Python 3, here with its characters below U+0100,
    one [ascii] each. *)

(** The characters [strip()] removes, those for which [isspace()] holds:
    tab to carriage return, the four separators U+001C to U+001F, the
    space, next line U+0085 and the no-break space U+00A0. *)
Definition is_space (c : ascii) : bool :=
  match c with
  | "009"%char | "010"%char | "011"%char | "012"%char | "013"%char
  | "028"%char | "029"%char | "030"%char | "031"%char
  | " "%char | "133"%char | "160"%char => true
  | _ => false
  end.

(** The characters at which [splitlines()] ends a line: line feed,
    vertical tab, form feed, carriage return, the separators U+001C to
    U+001E and next line U+0085. *)
Definition is_break (c : ascii) : bool :=
  match c with
  | "010"%char | "011"%char | "012"%char | "013"%char
  | "028"%char | "029"%char | "030"%char | "133"%char => true
  | _ => false
  end.

(** [s.lstrip()], [s.rstrip()], [s.strip()] *)
Fixpoint lstrip (s : string) : string :=
  match s with
  | EmptyString => EmptyString
  | String c r => if is_space c then lstrip r else s
  end.

Fixpoint rstrip (s : string) : string :=
  match s with
  | EmptyString => EmptyString
  | String c r =>
      match rstrip r with
      | EmptyString => if is_space c then EmptyString else String c EmptyString
      | r' => String c r'
      end
  end.

Definition strip (s : string) : string := lstrip (rstrip s).

(** [s.splitlines()]: a line ends at a line boundary, a carriage return
    followed by a line feed being one boundary; the terminators are
    dropped and a terminator at the very end opens no further line. *)
Fixpoint splitlines (s : string) : list string :=
  match s with
  | EmptyString => []
  | String c r =>
      if Ascii.eqb c "013" then
        EmptyString :: match r with
                       | String c' r' => if Ascii.eqb c' "010" then splitlines r'
                                         else splitlines r
                       | EmptyString => []
                       end
      else if is_break c then EmptyString :: splitlines r
      else match splitlines r with
           | [] => [String c EmptyString]
           | l :: ls => String c l :: ls
           end
  end.

(** The first line feed of [s], if there is one, is its last character:
    where the pattern of a comment can end. *)
Fixpoint ends_line (s : string) : bool :=
  match s with
  | EmptyString => true
  | String c r =>
      if Ascii.eqb c "010" then match r with EmptyString => true | _ => false end
      else ends_line r
  end.

(** The text from the first line feed of [s] on. *)
Fixpoint from_newline (s : string) : string :=
  match s with
  | EmptyString => EmptyString
  | String c r => if Ascii.eqb c "010" then s else from_newline r
  end.

(** The text up to the first line feed of [s]. *)
Fixpoint upto_newline (s : string) : string :=
  match s with
  | EmptyString => EmptyString
  | String c r => if Ascii.eqb c "010" then EmptyString else String c (upto_newline r)
  end.

(** [re.sub] of the comment pattern by the empty string. The pattern is
    a [#], then characters other than line feeds, as many as there are,
    then the end of the text or the line feed that is its last
    character. A [#] after which a line feed comes earlier starts no
    match and stays. *)
Fixpoint drop_comment (line : string) : string :=
  match line with
  | EmptyString => EmptyString
  | String c r =>
      if Ascii.eqb c "#" && ends_line r then from_newline r
      else String c (drop_comment r)
  end.

(** The tail of the pattern of [_parse_config] (a run of characters
    other than [=], then [=], then characters other than line feeds)
    matched at the start of [s]: the groups are what precedes the first
    [=], and what follows it up to the first line feed; no match without
    a [=]. *)
Fixpoint match_assignment (s : string) : option (string * string) :=
  match s with
  | EmptyString => None
  | String c r =>
      if Ascii.eqb c "=" then Some (EmptyString, upto_newline r)
      else match match_assignment r with
           | Some (k, v) => Some (String c k, v)
           | None => None
           end
  end.

(** [s] without the prefix [p], when it starts with it. *)
Fixpoint strip_prefix (p s : string) : option string :=
  match p, s with
  | EmptyString, _ => Some s
  | String a p', String b s' => if Ascii.eqb a b then strip_prefix p' s' else None
  | String _ _, EmptyString => None
  end.

(** [re.match] of the pattern of [_parse_config] on [line]: the literal
    [CONFIG_] and then the two groups. *)
Definition match_config (line : string) : option (string * string) :=
  match strip_prefix "CONFIG_" line with
  | Some rest => match_assignment rest
  | None => None
  end.

(** The body of the loop in [_parse_config]: the entry a line adds to
    the cache, if any. *)
Definition config_entry (line : string) : option (string * string) :=
  let line := strip (drop_comment line) in
  match line with
  | EmptyString => None                              (* if not line: continue *)
  | _ => match_config line
  end.

(** The [CrashConfigCache] object: the part [decompress_config_buffer]
    works on, and [ikconfig_cache] once it is set. *)
Record ConfigObject := mkConfigObject {
  buffer : Syscache.CrashConfigCache;
  ikconfig_cache : option (gmap string string)
}.

Definition set_ikconfig_cache (c : option (gmap string string)) (o : ConfigObject)
    : ConfigObject :=
  mkConfigObject (buffer o) c.

(** What an attribute of the object holds. *)
Inductive Attr :=
| AttrBuffer (text : string)
| AttrCache (entries : gmap string string).

Definition decompress_config_buffer (dbg : Syscache.Debugger) : M ConfigObject unit :=
  zoom buffer (fun b o => mkConfigObject b (ikconfig_cache o))
       (Syscache.decompress_config_buffer dbg).

(** [self.config_buffer]: the attribute when it is set, otherwise
    [__getattr__('config_buffer')], which decompresses and looks again. *)
Definition get_config_buffer (dbg : Syscache.Debugger) : M ConfigObject string :=
  let* o := get in
  match Syscache.config_buffer (buffer o) with
  | Some text => ret text
  | None =>
      decompress_config_buffer dbg ;;
      let* o := get in
      match Syscache.config_buffer (buffer o) with
      | Some text => ret text
      | None => raise RecursionError
      end
  end.

(** [self.ikconfig_cache[key] = value] *)
Definition cache_setitem (key value : string) : M ConfigObject unit :=
  modify (fun o => match ikconfig_cache o with
                   | Some m => set_ikconfig_cache (Some (<[key := value]> m)) o
                   | None => o
                   end).

Definition _parse_config (dbg : Syscache.Debugger) : M ConfigObject unit :=
  modify (set_ikconfig_cache (Some ∅)) ;;
  let* text := get_config_buffer dbg in
  for_each (splitlines text)
    (fun line => match config_entry line with
                 | Some (k, v) => cache_setitem k v
                 | None => ret tt
                 end).

(** [self.ikconfig_cache]: the attribute when it is set, otherwise
    [__getattr__('ikconfig_cache')], which parses and looks again. *)
Definition get_ikconfig_cache (dbg : Syscache.Debugger)
    : M ConfigObject (gmap string string) :=
  let* o := get in
  match ikconfig_cache o with
  | Some m => ret m
  | None =>
      _parse_config dbg ;;
      let* o := get in
      match ikconfig_cache o with
      | Some m => ret m
      | None => raise RecursionError
      end
  end.

(** [CrashConfigCache.__getattr__] *)
Definition dunder_getattr (dbg : Syscache.Debugger) (name : string) : M ConfigObject Attr :=
  if String.eqb name "config_buffer" then
    decompress_config_buffer dbg ;;
    let* text := get_config_buffer dbg in ret (AttrBuffer text)
  else if String.eqb name "ikconfig_cache" then
    _parse_config dbg ;;
    let* m := get_ikconfig_cache dbg in ret (AttrCache m)
  else raise (AttributeError "").

(** [CrashConfigCache.__getitem__]: [self.ikconfig_cache[name]] *)
Definition dunder_getitem (dbg : Syscache.Debugger) (name : string) : M ConfigObject string :=
  let* m := get_ikconfig_cache dbg in
  match m !! name with
  | Some v => ret v
  | None => raise KeyError
  end.

(** [CrashConfigCache.__str__]: [self.config_buffer] *)
Definition dunder_str (dbg : Syscache.Debugger) : M ConfigObject string :=
  get_config_buffer dbg.

(** A fresh object: neither attribute set. *)
Definition fresh : ConfigObject := mkConfigObject (Syscache.mkCache None) None.

(** An object whose [config_buffer] holds [text], before and after the
    text is parsed. *)
Definition holding (text : string) : ConfigObject :=
  mkConfigObject (Syscache.mkCache (Some text)) None.

(** The entries the lines of [text] leave in the cache, later lines
    overwriting earlier ones. *)
Definition parsed (text : string) : gmap string string :=
  foldl (fun m line => match config_entry line with
                       | Some (k, v) => <[k := v]> m
                       | None => m
                       end) ∅ (splitlines text).

Definition loaded (text : string) : ConfigObject :=
  mkConfigObject (Syscache.mkCache (Some text)) (Some (parsed text)).

(** A character occurs in a text. *)
Fixpoint occurs (c : ascii) (s : string) : bool :=
  match s with
  | EmptyString => false
  | String x r => Ascii.eqb x c || occurs c r
  end.

(** A line boundary occurs in a text. *)
Fixpoint has_break (s : string) : bool :=
  match s with
  | EmptyString => false
  | String x r => is_break x || has_break r
  end.

(** A key, resp. a value, that a line [CONFIG_key=value] carries
    unchanged: no line boundary and no [#]; no [=] in the key; no white
    space at the end of the value. *)
Definition plain (s : string) : bool :=
  negb (has_break s) && negb (occurs "#" s).

Definition valid_key (k : string) : bool := plain k && negb (occurs "=" k).

Definition valid_value (v : string) : bool := plain v && String.eqb (rstrip v) v.

(** A text of white space only. *)
Fixpoint all_space (s : string) : bool :=
  match s with
  | EmptyString => true
  | String c r => is_space c && all_space r
  end.

(** The line for an entry, and the text of a list of entries. *)
Definition render_entry (e : string * string) : string :=
  "CONFIG_" +:+ e.1 +:+ "=" +:+ e.2.

Fixpoint render (entries : list (string * string)) : string :=
  match entries with
  | [] => EmptyString
  | e :: es => render_entry e +:+ String "010" (render es)
  end.

End Config.

Module Utsname.

(** What [CrashUtsnameCache] consumes from the debugger:
    [gdb.lookup_global_symbol], [v[name]], the names of the fields of
    the type of a value, and [v.string()]; and the names that its
    base [CrashCache] (crash.cache, not among the sources) provides, or
    [object] in some versions of the interpreter only. These are other
    names than [utsname] and [utsname_cache], which the class computes
    itself. *)
Record Debugger := mkDebugger {
  lookup_global_symbol : string -> option Symbol;
  getitem : Value -> string -> result Value;
  fields : Value -> list string;
  string_of : Value -> result string;
  inherited : string -> bool
}.

(** The [CrashUtsnameCache] object: [utsname] and [utsname_cache] once
    they are set. *)
Record UtsnameObject := mkUtsnameObject {
  utsname : option Value;
  utsname_cache : option (gmap string string)
}.

(** What attribute access gives: the [utsname] value, the cache, the
    string of a field, or what is found on the class -- a bound method or
    whatever a base provides. *)
Inductive Attr :=
| AttrValue (v : Value)
| AttrCache (entries : gmap string string)
| AttrStr (s : string)
| AttrOfClass (name : string).

Definition load_utsname (dbg : Debugger) : M UtsnameObject Value :=
  match lookup_global_symbol dbg "init_uts_ns" with
  | None => raise (MissingSymbolError "CrashUtsnameCache requires init_uts_ns")
  | Some sym =>
      let init_uts_ns := sym_value sym in
      let* name := lift_result (getitem dbg init_uts_ns "name") in
      modify (fun o => mkUtsnameObject (Some name) (utsname_cache o)) ;;
      ret name
  end.

(** [self.utsname]: the attribute when it is set, otherwise
    [__getattr__('utsname')]. *)
Definition get_utsname (dbg : Debugger) : M UtsnameObject Value :=
  let* o := get in
  match utsname o with
  | Some v => ret v
  | None => load_utsname dbg
  end.

(** [self.utsname_cache[key] = val] *)
Definition cache_setitem (key val : string) : M UtsnameObject unit :=
  modify (fun o => match utsname_cache o with
                   | Some m => mkUtsnameObject (utsname o) (Some (<[key := val]> m))
                   | None => o
                   end).

Definition init_utsname_cache (dbg : Debugger) : M UtsnameObject (gmap string string) :=
  modify (fun o => mkUtsnameObject (utsname o) (Some ∅)) ;;
  let* u := get_utsname dbg in
  for_each (fields dbg u)
    (fun field =>
       let* u := get_utsname dbg in
       let* member := lift_result (getitem dbg u field) in
       let* val := lift_result (string_of dbg member) in
       cache_setitem field val) ;;
  let* o := get in
  match utsname_cache o with
  | Some m => ret m
  | None => raise RecursionError
  end.

(** [self.utsname_cache]: the attribute when it is set, otherwise
    [__getattr__('utsname_cache')]. *)
Definition get_utsname_cache (dbg : Debugger) : M UtsnameObject (gmap string string) :=
  let* o := get in
  match utsname_cache o with
  | Some m => ret m
  | None => init_utsname_cache dbg
  end.

(** [CrashUtsnameCache.__getattr__] *)
Definition dunder_getattr (dbg : Debugger) (name : string) : M UtsnameObject Attr :=
  if String.eqb name "utsname_cache" then
    let* m := init_utsname_cache dbg in ret (AttrCache m)
  else if String.eqb name "utsname" then
    let* v := load_utsname dbg in ret (AttrValue v)
  else
    let* m := get_utsname_cache dbg in
    match m !! name with
    | Some s => ret (AttrStr s)
    | None => raise (AttributeError "")
    end.

(** The methods of the class. *)
Definition methods : list string := ["load_utsname"; "init_utsname_cache"; "__getattr__"].

(** Ordinary lookup finds [name] on the class or its bases. *)
Definition on_class (dbg : Debugger) (name : string) : bool :=
  existsb (String.eqb name) methods || existsb (String.eqb name) object_names
  || inherited dbg name.

(** [getattr(self, name)]: ordinary lookup finds the two attributes the
    object may hold, once set, and what the class and its bases provide;
    otherwise [__getattr__]. *)
Definition getattr (dbg : Debugger) (name : string) : M UtsnameObject Attr :=
  let* o := get in
  match (if String.eqb name "utsname" then option_map AttrValue (utsname o)
         else if String.eqb name "utsname_cache" then option_map AttrCache (utsname_cache o)
         else if on_class dbg name then Some (AttrOfClass name)
         else None) with
  | Some a => ret a
  | None => dunder_getattr dbg name
  end.

Definition fresh : UtsnameObject := mkUtsnameObject None None.

(** The string of the field [field] of [u], as the cache is filled. *)
Definition field_string (dbg : Debugger) (u : Value) (field : string) : result string :=
  match getitem dbg u field with
  | Ok member => string_of dbg member
  | Raise e => Raise e
  end.

End Utsname.

Module Kernel.

(** What [CrashKernelCache] consumes beside its configuration cache:
    [gdb.lookup_global_symbol] and [long()] of a configuration value. *)
Record Debugger := mkDebugger {
  config_debugger : Syscache.Debugger;
  lookup_global_symbol : string -> option Symbol;
  long_of_str : string -> result Z
}.

(** The [CrashKernelCache] object: the configuration cache it was given,
    and [hz], [uptime] (a [timedelta], in seconds) and [jiffies] once
    they are set. *)
Record KernelObject := mkKernelObject {
  config : Config.ConfigObject;
  hz : option Z;
  uptime : option Z;
  jiffies : option Z
}.

(** [timedelta(seconds=s)]: the days of a [timedelta] lie within
    [-999999999 .. 999999999]. *)
Definition timedelta (seconds : Z) : result Z :=
  if (-999999999 <=? seconds / 86400) && (seconds / 86400 <=? 999999999)
  then Ok seconds else Raise (OtherError "OverflowError").

(** [a // b] *)
Definition floordiv (a b : Z) : result Z :=
  if b =? 0 then Raise (OtherError "ZeroDivisionError") else Ok (a / b).

Definition set_hz (n : Z) (o : KernelObject) : KernelObject :=
  mkKernelObject (config o) (Some n) (uptime o) (jiffies o).

Definition set_uptime (t : Z) (o : KernelObject) : KernelObject :=
  mkKernelObject (config o) (hz o) (Some t) (jiffies o).

Definition set_jiffies (n : Z) (o : KernelObject) : KernelObject :=
  mkKernelObject (config o) (hz o) (uptime o) (Some n).

(** [self.config[name]] *)
Definition config_getitem (dbg : Debugger) (name : string) : M KernelObject string :=
  zoom config (fun c o => mkKernelObject c (hz o) (uptime o) (jiffies o))
       (Config.dunder_getitem (config_debugger dbg) name).

(** The branch of [__getattr__] for [hz]:
    [self.hz = long(self.config['HZ'])], then [getattr(self, 'hz')]. *)
Definition getattr_hz (dbg : Debugger) : M KernelObject Z :=
  let* text := config_getitem dbg "HZ" in
  let* n := lift_result (long_of_str dbg text) in
  modify (set_hz n) ;;
  ret n.

(** [self.hz]: the attribute when it is set, otherwise [__getattr__]. *)
Definition get_hz (dbg : Debugger) : M KernelObject Z :=
  let* o := get in
  match hz o with
  | Some n => ret n
  | None => getattr_hz dbg
  end.

Definition load_jiffies (dbg : Debugger) : M KernelObject unit :=
  let* value :=
    match lookup_global_symbol dbg "jiffies_64" with
    | Some jiffies_sym =>
        let jiffies := val_int (sym_value jiffies_sym) in
        let* hz := get_hz dbg in
        ret (jiffies - (4294967296 - 300 * hz))
    | None =>
        match lookup_global_symbol dbg "jiffies" with
        | Some jiffies_sym => ret (val_int (sym_value jiffies_sym))
        | None => raise (MissingSymbolError "Could not locate jiffies_64 or jiffies")
        end
    end in
  modify (set_jiffies value).

(** The branch of [__getattr__] for [jiffies]: [self.load_jiffies()],
    then [getattr(self, 'jiffies')]. *)
Definition getattr_jiffies (dbg : Debugger) : M KernelObject Z :=
  load_jiffies dbg ;;
  let* o := get in
  match jiffies o with
  | Some n => ret n
  | None => raise RecursionError
  end.

(** [self.jiffies]: the attribute when it is set, otherwise
    [__getattr__]. *)
Definition get_jiffies (dbg : Debugger) : M KernelObject Z :=
  let* o := get in
  match jiffies o with
  | Some n => ret n
  | None => getattr_jiffies dbg
  end.

(** [timedelta(seconds=self.jiffies // self.hz)] *)
Definition get_uptime (dbg : Debugger) : M KernelObject Z :=
  let* j := get_jiffies dbg in
  let* h := get_hz dbg in
  let* seconds := lift_result (floordiv j h) in
  lift_result (timedelta seconds).

(** The branch of [__getattr__] for [uptime]:
    [self.uptime = self.get_uptime()], then [getattr(self, 'uptime')]. *)
Definition getattr_uptime (dbg : Debugger) : M KernelObject Z :=
  let* t := get_uptime dbg in
  modify (set_uptime t) ;;
  ret t.

(** [CrashKernelCache.__getattr__]; each of the three attributes is a
    number ([uptime] in seconds). *)
Definition dunder_getattr (dbg : Debugger) (name : string) : M KernelObject Z :=
  if String.eqb name "hz" then getattr_hz dbg
  else if String.eqb name "uptime" then getattr_uptime dbg
  else if String.eqb name "jiffies" then getattr_jiffies dbg
  else raise (AttributeError "").

(** [getattr(self, name)] for the three attributes and any other name
    that is no attribute of the object: ordinary lookup, then
    [__getattr__]. *)
Definition getattr (dbg : Debugger) (name : string) : M KernelObject Z :=
  let* o := get in
  match (if String.eqb name "hz" then hz o
         else if String.eqb name "uptime" then uptime o
         else if String.eqb name "jiffies" then jiffies o
         else None) with
  | Some n => ret n
  | None => dunder_getattr dbg name
  end.

Definition fresh (c : Config.ConfigObject) : KernelObject := mkKernelObject c None None None.

End Kernel.

(** ** More sample worlds *)

(** A class whose constructor raises [KeyError], registered for the
    callback address [0xdead] of the readable image. *)
Definition faulty_class : UserClass :=
  mkUserClass ∅ (Some (fun _ => Throw KeyError)) None None None.

Definition faulty_world : World :=
  sample_world (mem_read readable_world) (block_device_name readable_world)
          (fun _ => faulty_class).

Definition faulty_state : State :=
  mkState (mkGlobals {[ Some 57005 := UserDecoder 0 ]} []) [].

(** A class whose [next()] raises: [StopIteration] for class 0, another
    error for the other classes. *)
Definition raising_world : World :=
  sample_world (mem_read readable_world) (block_device_name readable_world)
               (fun n => mkUserClass ∅ None None None
                           (Some (Throw (if Nat.eqb n 0 then StopIteration
                                         else OtherError "gdb.MemoryError")))).

Definition raising_state (n : nat) : State :=
  mkState (mkGlobals {[ Some 57005 := UserDecoder n ]} []) [].

(** A [GenericBHDecoder] for [bh] after [interpret()] found the device
    name [name]. *)
Definition interpreted_bh (bh : Value) (name : string) : Instance :=
  mkInstance GenericBHDecoder
    (<["interpreted" := PyBool true]>
       (<["block_device" := PyStr name]>
          (attrs (decoder_with GenericBHDecoder "bh" bh)))).

(** A [kernel_config_data] of 64 bytes at [0x2000] with both markers in
    place, decompressing to a two-line configuration. *)
Definition sample_config_text : string :=
  "CONFIG_HZ=250" +:+ String "010" ("# CONFIG_SMP is not set" +:+ String "010" "").

Definition working_debugger : Syscache.Debugger :=
  Syscache.mkDebugger
    (fun _ => Some (mkSymbol "kernel_config_data" (mkValue 0 (Some 8192) "")))
    (fun _ => 64)
    (fun address _ => if address =? 8192 then Ok "IKCFG_ST"
                      else if address =? 8247 then Ok "IKCFG_ED"
                      else Ok "compressed")
    (fun _ _ _ => Ok sample_config_text).

(** A kernel with [jiffies_64] at [raw], configured as the working
    debugger has it. *)
Definition sample_kernel (raw : Z) : Kernel.Debugger :=
  Kernel.mkDebugger working_debugger
    (fun name => if String.eqb name "jiffies_64"
                 then Some (mkSymbol "jiffies_64" (mkValue raw None "")) else None)
    (fun s => if String.eqb s "250" then Ok 250 else Raise (OtherError "ValueError")).

(** A [struct new_utsname] with two fields; the bases provide the
    special names. *)
Definition sample_utsname : Utsname.Debugger :=
  Utsname.mkDebugger
    (fun _ => Some (mkSymbol "init_uts_ns" null_value))
    (fun _ field => Ok (mkValue 0 None field))
    (fun _ => ["sysname"; "release"])
    (fun member => Ok (if String.eqb (val_str member) "sysname" then "Linux"
                       else if String.eqb (val_str member) "release" then "5.3.18"
                       else ""))
    is_dunder.

(** A debugger without [init_uts_ns]. *)
Definition stripped_utsname : Utsname.Debugger :=
  Utsname.mkDebugger (fun _ => None) (fun _ _ => Raise NotAvailableError)
                     (fun _ => []) (fun _ => Raise NotAvailableError) is_dunder.

(** ** crash/types/module.py *)

Module Modules.

(** What [for_each_module_section] consumes from the debugger: [v[name]],
    [v[i]] and [v.string()]. *)
Record Debugger := mkDebugger {
  getitem : Value -> string -> result Value;
  getindex : Value -> Z -> result Value;
  string_of : Value -> result string
}.

(** One turn of the loop for the section [sec]: the name is read first,
    a section called [.text] is passed over before its address is read,
    any other is yielded with [int()] of its address. *)
Definition section_at (dbg : Debugger) (attrs : Value) (sec : Z)
    : result (option (string * Z)) :=
  match getitem dbg attrs "attrs" with
  | Raise e => Raise e
  | Ok table =>
      match getindex dbg table sec with
      | Raise e => Raise e
      | Ok attr =>
          match getitem dbg attr "name" with
          | Raise e => Raise e
          | Ok name_value =>
              match string_of dbg name_value with
              | Raise e => Raise e
              | Ok name =>
                  if String.eqb name ".text" then Ok None
                  else match getitem dbg attr "address" with
                       | Raise e => Raise e
                       | Ok address => Ok (Some (name, val_int address))
                       end
              end
          end
      end
  end.

(** The loop over the sections [secs]: what is yielded, and the
    exception that ends the generator if one is raised. *)
Fixpoint sections (dbg : Debugger) (attrs : Value) (secs : list Z)
    : list (string * Z) * option exn :=
  match secs with
  | [] => ([], None)
  | sec :: rest =>
      match section_at dbg attrs sec with
      | Raise e => ([], Some e)
      | Ok None => sections dbg attrs rest
      | Ok (Some item) =>
          match sections dbg attrs rest with
          | (items, ending) => (item :: items, ending)
          end
      end
  end.

(** [for_each_module_section(module)], drawn to its end. *)
Definition for_each_module_section (dbg : Debugger) (module : Value)
    : list (string * Z) * option exn :=
  match getitem dbg module "sect_attrs" with
  | Raise e => ([], Some e)
  | Ok attrs =>
      match getitem dbg attrs "nsections" with
      | Raise e => ([], Some e)
      | Ok nsections => sections dbg attrs (seqZ 0 (val_int nsections))
      end
  end.

End Modules.

(** ** crash/types/cpu.py *)

Module Cpu.

(** What the CPU masks consume from outside: [v[name]] and
    [crash.types.bitmap.for_each_set_bit] (not among the sources), drawn
    into a list. *)
Record Debugger := mkDebugger {
  getitem : Value -> string -> result Value;
  for_each_set_bit : Value -> result (list Z)
}.

(** The class attributes of [TypesCPUClass]. *)
Record TypesCPUClass := mkTypesCPUClass {
  cpus_online : list Z;
  cpus_possible : list Z;
  cpu_online_mask : option Value;
  cpu_possible_mask : option Value
}.

(** The class as the module defines it. *)
Definition initial : TypesCPUClass := mkTypesCPUClass [] [] None None.

Definition _setup_online_mask (dbg : Debugger) (symbol : Symbol) : M TypesCPUClass unit :=
  modify (fun c => mkTypesCPUClass (cpus_online c) (cpus_possible c)
                     (Some (sym_value symbol)) (cpu_possible_mask c)) ;;
  let* bits := lift_result (getitem dbg (sym_value symbol) "bits") in
  let* cpus := lift_result (for_each_set_bit dbg bits) in
  modify (fun c => mkTypesCPUClass cpus (cpus_possible c)
                     (cpu_online_mask c) (cpu_possible_mask c)).

Definition _setup_possible_mask (dbg : Debugger) (cpu_mask : Symbol) : M TypesCPUClass unit :=
  modify (fun c => mkTypesCPUClass (cpus_online c) (cpus_possible c)
                     (cpu_online_mask c) (Some (sym_value cpu_mask))) ;;
  let* bits := lift_result (getitem dbg (sym_value cpu_mask) "bits") in
  let* cpus := lift_result (for_each_set_bit dbg bits) in
  modify (fun c => mkTypesCPUClass (cpus_online c) cpus
                     (cpu_online_mask c) (cpu_possible_mask c)).

(** [DelayedAttributeError(name)] of [crash.exceptions], which is not
    among the sources. *)
Definition DelayedAttributeError (name : string) : exn :=
  OtherError ("DelayedAttributeError: " +:+ name).

(** [for_each_online_cpu()], drawn into a list. *)
Definition for_each_online_cpu (c : TypesCPUClass) : list Z := cpus_online c.

(** [l[-1]] of a list that is not empty. *)
Definition last_cpu (l : list Z) : option Z := last l.

Definition highest_online_cpu_nr (c : TypesCPUClass) : result Z :=
  match last_cpu (cpus_online c) with
  | None => Raise (DelayedAttributeError "cpus_online")   (* if not cpus_online *)
  | Some cpu => Ok cpu
  end.

Definition for_each_possible_cpu (c : TypesCPUClass) : list Z := cpus_possible c.

Definition highest_possible_cpu_nr (c : TypesCPUClass) : result Z :=
  match last_cpu (cpus_possible c) with
  | None => Raise (DelayedAttributeError "cpus_possible")
  | Some cpu => Ok cpu
  end.

(** The enumeration is in ascending order. *)
Definition ascending (l : list Z) : Prop :=
  forall (i j : nat) (x y : Z), l !! i = Some x -> l !! j = Some y -> (i <= j)%nat -> x <= y.

End Cpu.

(** ** crash/arch/aarch64.py *)

Module Aarch64.

(** A thread as the register callbacks see it: the registers gdb has
    for it, each with the value stored in it if any; of [thread.info],
    the saved registers [regs] (a dict, in its order), the
    [task_struct], [stack_pointer] and [valid_stack]. *)
Record Thread := mkThread {
  registers : gmap string (option Value);
  regs : list (string * Value);
  task_struct : Value;
  stack_pointer : option Value;
  valid_stack : bool
}.

Definition set_registers (r : gmap string (option Value)) (t : Thread) : Thread :=
  mkThread r (regs t) (task_struct t) (stack_pointer t) (valid_stack t).

(** [thread.registers[reg].value = value]: [KeyError] when the thread has
    no register of that name. *)
Definition set_register (reg : string) (value : Value) : M Thread unit :=
  let* t := get in
  match registers t !! reg with
  | None => raise KeyError
  | Some _ => modify (set_registers (<[reg := Some value]> (registers t)))
  end.

(** [_FRC_inactive_task_frame.fetch_active] *)
Definition fetch_active : M Thread unit :=
  let* t := get in
  for_each (regs t)
    (fun entry =>
       try_except (set_register entry.1 entry.2)
         (fun e => match e with
                   | KeyError => ret tt                     (* pass *)
                   | _ => raise e
                   end)).

(** [task['thread']['cpu_context'][field]] *)
Definition cpu_context (getitem : Value -> string -> result Value) (task : Value)
    (field : string) : result Value :=
  match getitem task "thread" with
  | Raise e => Raise e
  | Ok thread =>
      match getitem thread "cpu_context" with
      | Raise e => Raise e
      | Ok context => getitem context field
      end
  end.

(** The assignments of [fetch_scheduled], in order: the register and the
    field of [cpu_context] it is loaded from. *)
Definition scheduled_registers : list (string * string) :=
  [("x19", "x19"); ("x20", "x20"); ("x21", "x21"); ("x22", "x22"); ("x23", "x23");
   ("x24", "x24"); ("x25", "x25"); ("x26", "x26"); ("x27", "x27"); ("x28", "x28");
   ("x29", "fp"); ("sp", "sp"); ("pc", "pc")].

(** One assignment [thread.registers[reg].value =
    task['thread']['cpu_context'][field]]: the right-hand side is read
    before the register is looked up. *)
Definition assign_scheduled (getitem : Value -> string -> result Value) (task : Value)
    (entry : string * string) : M Thread unit :=
  let* value := lift_result (cpu_context getitem task entry.2) in
  set_register entry.1 value.

(** [_FRC_inactive_task_frame.fetch_scheduled] *)
Definition fetch_scheduled (getitem : Value -> string -> result Value) : M Thread unit :=
  let* t := get in
  let task := task_struct t in
  for_each scheduled_registers (assign_scheduled getitem task) ;;
  let* sp := lift_result (cpu_context getitem task "sp") in
  modify (fun t => mkThread (registers t) (regs t) (task_struct t) (Some sp)
                     (valid_stack t)) ;;
  modify (fun t => mkThread (registers t) (regs t) (task_struct t) (stack_pointer t) true).

(** [Aarch64Architecture.get_stack_pointer] *)
Definition get_stack_pointer (getitem : Value -> string -> result Value)
    (thread_struct : Value) : result Z :=
  match getitem thread_struct "cpu_context" with
  | Raise e => Raise e
  | Ok context =>
      match getitem context "sp" with
      | Raise e => Raise e
      | Ok sp => Ok (val_int sp)
      end
  end.

(** The field of [cpu_context] that [fetch_scheduled] loads into the
    register [reg], if any. *)
Definition scheduled_field (reg : string) : option string :=
  (list_to_map scheduled_registers : gmap string string) !! reg.

(** The dict [thread.info.regs]. *)
Definition saved_register (t : Thread) (reg : string) : option Value :=
  (list_to_map (regs t) : gmap string Value) !! reg.

End Aarch64.

(** ** Sample images for the other modules *)

(** A module with three sections, the second of them [.text]. *)
Definition sample_module : Modules.Debugger :=
  Modules.mkDebugger
    (fun v field => if String.eqb field "nsections" then Ok (mkValue 3 None "3")
                    else if String.eqb field "name" then
                      Ok (mkValue 0 None (if val_int v =? 1 then ".text"
                                          else if val_int v =? 0 then ".init" else ".data"))
                    else if String.eqb field "address" then
                      Ok (mkValue (4096 + val_int v) None "")
                    else Ok v)
    (fun _ i => Ok (mkValue i None ""))
    (fun v => Ok (val_str v)).

(** CPU masks of which the bits 0, 1 and 3 are set. *)
Definition sample_cpus : Cpu.Debugger :=
  Cpu.mkDebugger (fun v _ => Ok v) (fun _ => Ok [0; 1; 3]).

(** A thread with the registers [x19] and [sp] only, and saved
    registers for [x19] and [x0]. *)
Definition sample_thread : Aarch64.Thread :=
  Aarch64.mkThread {[ "x19" := None; "sp" := None ]}
    [("x19", mkValue 19 None ""); ("x0", mkValue 7 None "")]
    null_value None false.

(** A thread with all the registers [fetch_scheduled] stores. *)
Definition full_thread : Aarch64.Thread :=
  Aarch64.mkThread
    (list_to_map ((fun entry => (entry.1, None)) <$> Aarch64.scheduled_registers))
    [] null_value None false.

(** A task whose saved context reads, for each field, as a value
    printing as the name of the field. *)
Definition sample_context (v : Value) (field : string) : result Value :=
  Ok (mkValue 0 None field).
(** * Properties *)

(** ** Registry *)

Ltac unfold_monad :=
  unfold bind, ret, raise, modify, get, lift_result, try_except, emit in *.

Lemma register_int k f σ :
  register_decoder (EndioInt k) f σ = (Ok tt, set_decoders (insert (Some k) f) σ).
Proof. reflexivity. Qed.

Lemma register_value v f σ :
  register_decoder (EndioValue v) f σ =
  match val_address v with
  | Some a => (Ok tt, set_decoders (insert (Some a) f) σ)
  | None => (Raise TypeError, σ)
  end.
Proof. unfold register_decoder. unfold_monad. by destruct (val_address v). Qed.

Lemma register_symbol s f σ :
  register_decoder (EndioSymbol s) f σ = register_decoder (EndioValue (sym_value s)) f σ.
Proof. reflexivity. Qed.

Lemma set_decoders_twice k f g σ :
  set_decoders (insert k f) (set_decoders (insert k g) σ) = set_decoders (insert k f) σ.
Proof. unfold set_decoders; simpl. by rewrite insert_insert_eq. Qed.

(** C1. Looking up a resolved integer key after [register_decoder(k, f)]
    gives [f]; registering [f] under a key that already holds [g] replaces
    [g] by [f], silently: the call returns normally and the table is the
    one that registering [f] alone would have produced. *)
Theorem register_decoder_lookup (k : Z) (f g : ClassId) (σ : State) :
  (exists σ', register_decoder (EndioInt k) f σ = (Ok tt, σ')
              /\ lookup_decoder k σ' = Some f
              /\ trace σ' = trace σ)
  /\ (exists σ1 σ2,
        register_decoder (EndioInt k) g σ = (Ok tt, σ1)
        /\ lookup_decoder k σ1 = Some g
        /\ register_decoder (EndioInt k) f σ1 = (Ok tt, σ2)
        /\ lookup_decoder k σ2 = Some f
        /\ σ2 = (register_decoder (EndioInt k) f σ).2).
Proof.
  split.
  - eexists. rewrite register_int. repeat split.
    unfold lookup_decoder; simpl. apply lookup_insert_eq.
  - do 2 eexists. rewrite !register_int. repeat split.
    + unfold lookup_decoder; simpl. apply lookup_insert_eq.
    + unfold lookup_decoder; simpl. apply lookup_insert_eq.
    + simpl. apply set_decoders_twice.
Qed.

(** C7. A key that is already resolvable is normalised before insertion:
    a symbol is replaced by its value, a value by the integer of its
    address, and the entry is stored under that integer. *)
Theorem register_decoder_normalizes (s : Symbol) (v : Value) (a : Z) (f : ClassId)
    (σ : State) :
  val_address v = Some a ->
  sym_value s = v ->
  register_decoder (EndioValue v) f σ = (Ok tt, set_decoders (insert (Some a) f) σ)
  /\ register_decoder (EndioSymbol s) f σ = (Ok tt, set_decoders (insert (Some a) f) σ)
  /\ register_decoder (EndioSymbol s) f σ = register_decoder (EndioInt a) f σ
  /\ lookup_decoder a (register_decoder (EndioSymbol s) f σ).2 = Some f
  /\ lookup_decoder a (register_decoder (EndioValue v) f σ).2 = Some f
  /\ (decoders_getitem a (register_decoder (EndioSymbol s) f σ).2).1 = Ok f.
Proof.
  intros Ha Hs.
  assert (Hv : register_decoder (EndioValue v) f σ
               = (Ok tt, set_decoders (insert (Some a) f) σ)).
  { by rewrite register_value, Ha. }
  assert (Hsym : register_decoder (EndioSymbol s) f σ
                 = (Ok tt, set_decoders (insert (Some a) f) σ)).
  { by rewrite register_symbol, Hs. }
  rewrite Hsym, Hv, register_int. repeat split;
    unfold decoders_getitem, bind, get, lookup_decoder; simpl;
    by rewrite lookup_insert_eq.
Qed.

Lemma register_decoder_normalizes_witness :
  lookup_decoder 4096
    (register_decoder
       (EndioSymbol (mkSymbol "end_bio_bh_io_sync" (mkValue 0 (Some 4096) "")))
       (UserDecoder 0) empty_state).2
  = Some (UserDecoder 0).
Proof.
  apply (register_decoder_normalizes
           (mkSymbol "end_bio_bh_io_sync" (mkValue 0 (Some 4096) ""))
           (mkValue 0 (Some 4096) "") 4096 (UserDecoder 0) empty_state); reflexivity.
Defined.

(** *** Deferred registration *)

Lemma subscribed_nil σ : subscribed [] σ = σ.
Proof.
  destruct σ as [[d c] t]. unfold subscribed, set_callbacks; simpl.
  by rewrite app_nil_r.
Qed.

Lemma for_each_subscribe names f σ :
  for_each names (fun sym => SymbolCallback sym f) σ
  = (Ok tt, subscribed (map (fun n => (n, f)) names) σ).
Proof.
  revert σ. induction names as [|n names IH]; intros σ; simpl.
  - by rewrite subscribed_nil.
  - unfold bind, SymbolCallback, modify. rewrite IH.
    unfold subscribed, set_callbacks; simpl. by rewrite <- app_assoc.
Qed.

Lemma register_symbolic endio f σ :
  names_of endio <> [] ->
  register_decoder endio f σ
  = (Ok tt, subscribed (map (fun n => (n, f)) (names_of endio)) σ).
Proof.
  destruct endio as [| name | names | | |]; simpl; try done.
  destruct names; [done|]. intros _. apply (for_each_subscribe (s :: names)).
Qed.

Lemma for_each_due sym due σ :
  for_each due (fun p => register_decoder (EndioSymbol sym) p.2) σ
  = ((run_due sym due (_decoders (globals σ))).1,
     set_decoders (fun _ => (run_due sym due (_decoders (globals σ))).2) σ).
Proof.
  revert σ. induction due as [|p due IH]; intros σ; cbn [for_each run_due].
  - by destruct σ as [[d c] t].
  - unfold bind. rewrite register_symbol, register_value.
    destruct (val_address (sym_value sym)) as [a|]; simpl.
    + rewrite IH. simpl. done.
    + by destruct σ as [[d c] t].
Qed.

Lemma run_due_same sym a f due table :
  val_address (sym_value sym) = Some a ->
  Forall (fun p => p.2 = f) due ->
  due <> [] ->
  run_due sym due table = (Ok tt, <[Some a := f]> table).
Proof.
  intros Ha Hall. revert table.
  induction Hall as [|p due Hp Hall IH]; intros table Hne; [done|].
  simpl. rewrite Ha, Hp. destruct due as [|q due].
  - done.
  - rewrite IH by done. by rewrite insert_insert_eq.
Qed.

Lemma symbol_resolved_unfold name sym σ :
  symbol_resolved name sym σ
  = let due := filter (fun p => p.1 = name) (_callbacks (globals σ)) in
    let table := run_due sym due (_decoders (globals σ)) in
    (table.1,
     mkState (mkGlobals table.2 (filter (fun p => p.1 <> name) (_callbacks (globals σ))))
             (trace σ)).
Proof.
  unfold symbol_resolved, bind, get, modify. rewrite for_each_due. reflexivity.
Qed.

Lemma filter_none_due name (subs : list (string * ClassId)) :
  (forall p, p ∈ subs -> p.1 <> name) ->
  filter (fun p => p.1 = name) subs = [].
Proof.
  intros H. induction subs as [|p subs IH]; [done|].
  rewrite filter_cons. destruct (decide (p.1 = name)) as [Heq|Hne].
  - exfalso. apply (H p); [left | done].
  - apply IH. intros q Hq. apply H. by right.
Qed.

Lemma filter_due_subscriptions name f names :
  filter (fun p : string * ClassId => p.1 = name) (map (fun n => (n, f)) names)
  = map (fun n => (n, f)) (filter (fun n => n = name) names).
Proof.
  induction names as [|n names IH]; [done|].
  simpl. rewrite !filter_cons. simpl.
  destruct (decide (n = name)); simpl; by rewrite IH.
Qed.

(** C6. A registration under a name, or a list of alias names, leaves the
    resolved table as it was; until the notification for that name fires
    the table holds nothing of it (notifications for names outside the
    registration change the table as they would have without it); when
    the notification fires with a symbol whose value sits at address [a],
    the table gains the one entry [a |-> f], and the subscription is
    spent. *)
Theorem deferred_registration (endio : EndIOSpecifier) (f : ClassId) (name : string)
    (sym : Symbol) (a : Z) (σ : State) :
  name ∈ names_of endio ->
  (forall p, p ∈ _callbacks (globals σ) -> p.1 <> name) ->
  val_address (sym_value sym) = Some a ->
  exists σ1 σ2,
    register_decoder endio f σ = (Ok tt, σ1)
    /\ _decoders (globals σ1) = _decoders (globals σ)
    /\ (forall other sym',
          other ∉ names_of endio ->
          (symbol_resolved other sym' σ1).1 = (symbol_resolved other sym' σ).1
          /\ _decoders (globals (symbol_resolved other sym' σ1).2)
             = _decoders (globals (symbol_resolved other sym' σ).2))
    /\ symbol_resolved name sym σ1 = (Ok tt, σ2)
    /\ _decoders (globals σ2) = <[Some a := f]> (_decoders (globals σ))
    /\ lookup_decoder a σ2 = Some f
    /\ (forall p, p ∈ _callbacks (globals σ2) -> p.1 <> name).
Proof.
  intros Hin Hfresh Ha.
  assert (Hne : names_of endio <> []).
  { intros E. rewrite E in Hin. by apply not_elem_of_nil in Hin. }
  set (subs := map (fun n => (n, f)) (names_of endio)).
  assert (Hdue : filter (fun p : string * ClassId => p.1 = name)
                   (_callbacks (globals σ) ++ subs)%list
                 = map (fun n => (n, f)) (filter (fun n => n = name) (names_of endio))).
  { rewrite filter_app, (filter_none_due name _ Hfresh). simpl.
    apply filter_due_subscriptions. }
  assert (Hrun : run_due sym
                   (map (fun n => (n, f)) (filter (fun n => n = name) (names_of endio)))
                   (_decoders (globals σ))
                 = (Ok tt, <[Some a := f]> (_decoders (globals σ)))).
  { apply run_due_same; [done | |].
    - apply Forall_forall. intros p Hp. apply list_elem_of_fmap in Hp.
      by destruct Hp as (n & -> & _).
    - intros E. apply fmap_nil_inv in E.
      assert (Hmem : name ∈ filter (fun n => n = name) (names_of endio)).
      { by apply list_elem_of_filter. }
      rewrite E in Hmem. by apply not_elem_of_nil in Hmem. }
  exists (subscribed subs σ). eexists.
  split; [by apply register_symbolic|].
  split; [done|].
  split.
  { intros other sym' Hother. rewrite !symbol_resolved_unfold. simpl.
    rewrite filter_app.
    assert (E : filter (fun p : string * ClassId => p.1 = other) subs = []).
    { apply filter_none_due. intros p Hp. apply list_elem_of_fmap in Hp.
      destruct Hp as (n & -> & Hn). simpl. by intros ->. }
    rewrite E, app_nil_r. done. }
  split.
  { rewrite symbol_resolved_unfold. simpl. rewrite Hdue, Hrun. reflexivity. }
  simpl. split; [done|]. split.
  { unfold lookup_decoder; simpl. apply lookup_insert_eq. }
  intros p Hp. apply list_elem_of_filter in Hp. tauto.
Qed.

Lemma deferred_registration_witness :
  exists σ2,
    symbol_resolved "submit_end_io" (mkSymbol "submit_end_io" (mkValue 0 (Some 4096) ""))
      (register_decoder (EndioStr "submit_end_io") (UserDecoder 0)
         empty_state).2
    = (Ok tt, σ2)
    /\ lookup_decoder 4096 σ2 = Some (UserDecoder 0).
Proof.
  destruct (deferred_registration (EndioStr "submit_end_io") (UserDecoder 0)
              "submit_end_io" (mkSymbol "submit_end_io" (mkValue 0 (Some 4096) ""))
              4096 empty_state)
    as (σ1 & σ2 & H1 & _ & _ & H2 & _ & H3 & _).
  - simpl. left.
  - simpl. intros p Hp. by apply not_elem_of_nil in Hp.
  - reflexivity.
  - exists σ2. rewrite H1. simpl. split; assumption.
Defined.

(** ** Attribute access and lazy interpretation *)

Lemma append_assoc_string (a b c : string) : (a +:+ b) +:+ c = a +:+ (b +:+ c).
Proof.
  induction a as [|x a IH]; [done|].
  change (String x ((a +:+ b) +:+ c) = String x (a +:+ (b +:+ c))).
  by rewrite IH.
Qed.

Lemma contains_prefix t post : contains t (t +:+ post).
Proof. exists "", post. reflexivity. Qed.

Lemma contains_after pre t s : contains t s -> contains t (pre +:+ s).
Proof.
  intros (p & q & ->). exists (pre +:+ p), q. symmetry. apply append_assoc_string.
Qed.

Lemma reads_log_interpret c σ : reads (log (EvInterpret c) σ) = reads σ.
Proof. unfold reads, log; simpl. rewrite filter_app. simpl. by rewrite app_nil_r. Qed.

Lemma interpret_runs_log_interpret c σ :
  interpret_runs (log (EvInterpret c) σ) = S (interpret_runs σ).
Proof.
  unfold interpret_runs, log; simpl. rewrite filter_app, length_app. simpl. lia.
Qed.

Lemma interpret_runs_log_read v f σ :
  interpret_runs (log (EvRead v f) σ) = interpret_runs σ.
Proof.
  unfold interpret_runs, log; simpl. rewrite filter_app, length_app. simpl. lia.
Qed.

Lemma getattr_hit w depth name d σ v :
  find_attr w d name = Some v ->
  getattr w depth name (d, σ) = (Ok v, (d, σ)).
Proof. intros H. unfold getattr, bind, get_self; simpl. by rewrite H. Qed.

Lemma dunder_getattr_unfold w depth name s :
  Decoder___getattr__ w (S depth) name s
  = (let* interpreted := getattr w depth "interpreted" in
     if truthy interpreted then raise (no_such_attribute name)
     else
       let* self := get_self in
       lift (emit (EvInterpret (cls self))) ;;
       call_interpret w (getattr w depth) ;;
       set_attr "interpreted" (PyBool true) ;;
       getattr w depth name) s.
Proof. reflexivity. Qed.

Lemma call_interpret_unshadowed w ga d τ :
  attrs d !! "interpret" = None ->
  call_interpret w ga (d, τ) = interpret w ga (d, τ).
Proof. intros H. unfold call_interpret, bind at 1, get_self. cbn [fst]. by rewrite H. Qed.

Lemma getattr_miss w depth name d σ :
  find_attr w d name = None ->
  getattr w depth name (d, σ) = Decoder___getattr__ w depth name (d, σ).
Proof. intros H. unfold getattr, bind, get_self; simpl. by rewrite H. Qed.

Lemma getattr_miss_interpreted w depth name d σ x :
  find_attr w d name = None ->
  find_attr w d "interpreted" = Some x ->
  truthy x = true ->
  getattr w (S (S depth)) name (d, σ) = (Raise (no_such_attribute name), (d, σ)).
Proof.
  intros Hmiss Hflag Hx.
  rewrite getattr_miss, dunder_getattr_unfold by done.
  unfold bind. rewrite (getattr_hit _ _ _ _ _ _ Hflag), Hx. reflexivity.
Qed.

Lemma find_attr_marked w c (m : gmap string PyVal) :
  find_attr w (mkInstance c (<["interpreted" := PyBool true]> m)) "interpreted"
  = Some (PyBool true).
Proof. unfold find_attr; simpl. by rewrite lookup_insert_eq. Qed.

Lemma getattr_miss_uninterpreted w depth name d σ x :
  find_attr w d name = None ->
  find_attr w d "interpreted" = Some x ->
  truthy x = false ->
  getattr w (S (S (S depth))) name (d, σ)
  = match call_interpret w (getattr w (S (S depth))) (d, log (EvInterpret (cls d)) σ) with
    | (Raise e, s) => (Raise e, s)
    | (Ok _, (d1, σ1)) =>
        let d2 := mkInstance (cls d1) (<["interpreted" := PyBool true]> (attrs d1)) in
        match find_attr w d2 name with
        | Some v => (Ok v, (d2, σ1))
        | None => (Raise (no_such_attribute name), (d2, σ1))
        end
    end.
Proof.
  intros Hmiss Hflag Hx.
  rewrite getattr_miss, dunder_getattr_unfold by done.
  unfold bind at 1. rewrite (getattr_hit _ _ _ _ _ _ Hflag), Hx.
  unfold bind at 1. unfold get_self at 1. simpl fst.
  unfold bind at 1. unfold lift at 1, emit, modify. simpl.
  unfold bind at 1.
  destruct (call_interpret w (getattr w (S (S depth))) (d, log (EvInterpret (cls d)) σ))
    as [[u|e] [d1 σ1]]; [|reflexivity].
  unfold bind at 1. unfold set_attr at 1, modify. simpl.
  set (d2 := mkInstance (cls d1) (<["interpreted" := PyBool true]> (attrs d1))).
  destruct (find_attr w d2 name) as [v|] eqn:Hfind.
  - by apply getattr_hit.
  - apply getattr_miss_interpreted with (x := PyBool true); [done | | done].
    apply find_attr_marked.
Qed.

(** A method is found by ordinary lookup: reading it neither runs
    [interpret()] nor marks the object. *)
Example method_found_without_interpreting :
  getattr unreadable_world recursion_limit "interpret"
    (decoder_with GenericBHDecoder "bh" sample_object, empty_state)
  = (Ok (PyObject "<interpret>" true),
     (decoder_with GenericBHDecoder "bh" sample_object, empty_state)).
Proof. reflexivity. Qed.

(** An [interpret()] that reads a field nothing defines comes back to
    [__getattr__], which runs it again, until the call depth is used
    up. *)
Example reentrant_interpret_recursion :
  let s := getattr reentrant_world recursion_limit "sector"
             (constructed_object (UserDecoder 0) sample_object, empty_state) in
  s.1 = Raise RecursionError
  /\ s.2.1 = constructed_object (UserDecoder 0) sample_object
  /\ interpret_runs s.2.2 = recursion_limit.
Proof. vm_compute. done. Qed.

Lemma try_access_settled w d τ name :
  find_attr w d "interpreted" = Some (PyBool true) ->
  try_access w name (d, τ) = (Ok tt, (d, τ)).
Proof.
  intros Hflag. unfold try_access, try_except, bind.
  change recursion_limit with (S (S 998)).
  destruct (find_attr w d name) as [v|] eqn:Hfind.
  - by rewrite (getattr_hit _ _ _ _ _ _ Hfind).
  - by rewrite (getattr_miss_interpreted _ _ _ _ _ _ Hfind Hflag eq_refl).
Qed.

Lemma accesses_settled w d τ names :
  find_attr w d "interpreted" = Some (PyBool true) ->
  for_each names (try_access w) (d, τ) = (Ok tt, (d, τ)).
Proof.
  intros Hflag. induction names as [|n names IH]; [done|].
  cbn [for_each]. unfold bind at 1. by rewrite try_access_settled.
Qed.

(** ** Dispatch on the callback address *)

Lemma decode_bio_unavailable w bio σ :
  mem_read w bio "bi_end_io" = Raise NotAvailableError ->
  decode_bio w bio σ
  = (Ok (decoder_with BadBioDecoder "bio" bio), log (EvRead bio "bi_end_io") σ).
Proof.
  intros H. unfold decode_bio, try_except, bind at 1, read_field, bind at 1, emit,
    modify, lift_result. rewrite H. reflexivity.
Qed.

Lemma decode_bh_unavailable w bh σ :
  mem_read w bh "b_end_io" = Raise NotAvailableError ->
  decode_bh w bh σ
  = (Ok (decoder_with BadBHDecoder "bh" bh), log (EvRead bh "b_end_io") σ).
Proof.
  intros H. unfold decode_bh, try_except, bind at 1, read_field, bind at 1, emit,
    modify, lift_result. rewrite H. reflexivity.
Qed.

Lemma decode_bio_unregistered w bio end_io σ :
  mem_read w bio "bi_end_io" = Ok end_io ->
  lookup_decoder (val_int end_io) σ = None ->
  decode_bio w bio σ
  = (Ok (decoder_with GenericBioDecoder "bio" bio), log (EvRead bio "bi_end_io") σ).
Proof.
  intros H Hk. unfold lookup_decoder in Hk.
  unfold decode_bio, try_except, bind at 1, read_field, bind at 1, emit,
    modify, lift_result. rewrite H.
  unfold bind at 1, decoders_getitem, bind at 1, get. simpl. rewrite Hk. reflexivity.
Qed.

Lemma decode_bh_unregistered w bh end_io σ :
  mem_read w bh "b_end_io" = Ok end_io ->
  lookup_decoder (val_int end_io) σ = None ->
  decode_bh w bh σ
  = (Ok (decoder_with GenericBHDecoder "bh" bh), log (EvRead bh "b_end_io") σ).
Proof.
  intros H Hk. unfold lookup_decoder in Hk.
  unfold decode_bh, try_except, bind at 1, read_field, bind at 1, emit,
    modify, lift_result. rewrite H.
  unfold bind at 1, decoders_getitem, bind at 1, get. simpl. rewrite Hk. reflexivity.
Qed.

(** The body of the [try] in [decode_bio] and [decode_bh], once the
    callback address is read and found in the table. *)
Lemma decode_bio_dispatched w bio end_io f σ :
  mem_read w bio "bi_end_io" = Ok end_io ->
  lookup_decoder (val_int end_io) σ = Some f ->
  decode_bio w bio σ
  = match new w f bio (log (EvRead bio "bi_end_io") σ) with
    | (Ok d, σ') => (Ok d, σ')
    | (Raise KeyError, σ') => new w GenericBioDecoder bio σ'
    | (Raise NotAvailableError, σ') => new w BadBioDecoder bio σ'
    | (Raise e, σ') => (Raise e, σ')
    end.
Proof.
  intros H Hk. unfold lookup_decoder in Hk.
  unfold decode_bio, try_except, bind at 1, read_field, bind at 1, emit,
    modify, lift_result. rewrite H.
  unfold bind at 1, decoders_getitem, bind at 1, get. cbn [fst snd globals log].
  rewrite Hk. unfold ret.
  destruct (new w f bio (log (EvRead bio "bi_end_io") σ)) as [[d|e] σ'];
    [reflexivity|]. by destruct e.
Qed.

Lemma decode_bh_dispatched w bh end_io f σ :
  mem_read w bh "b_end_io" = Ok end_io ->
  lookup_decoder (val_int end_io) σ = Some f ->
  decode_bh w bh σ
  = match new w f bh (log (EvRead bh "b_end_io") σ) with
    | (Ok d, σ') => (Ok d, σ')
    | (Raise KeyError, σ') => new w GenericBHDecoder bh σ'
    | (Raise NotAvailableError, σ') => new w BadBHDecoder bh σ'
    | (Raise e, σ') => (Raise e, σ')
    end.
Proof.
  intros H Hk. unfold lookup_decoder in Hk.
  unfold decode_bh, try_except, bind at 1, read_field, bind at 1, emit,
    modify, lift_result. rewrite H.
  unfold bind at 1, decoders_getitem, bind at 1, get. cbn [fst snd globals log].
  rewrite Hk. unfold ret.
  destruct (new w f bh (log (EvRead bh "b_end_io") σ)) as [[d|e] σ'];
    [reflexivity|]. by destruct e.
Qed.

(** *** The placeholder decoders *)

Lemma str_bad_bio w bio b τ :
  str_ w (decoder_in BadBioDecoder "bio" bio b, τ)
  = (Ok (format_x (val_int bio) +:+ " bio: invalid bio"),
     (decoder_in BadBioDecoder "bio" bio b, τ)).
Proof. reflexivity. Qed.

Lemma str_bad_bh w bh b τ :
  str_ w (decoder_in BadBHDecoder "bh" bh b, τ)
  = (Ok (format_x (val_int bh) +:+ " bh: invalid buffer_head"),
     (decoder_in BadBHDecoder "bh" bh b, τ)).
Proof. reflexivity. Qed.

Lemma next_in_file w d τ :
  (forall n, cls d <> UserDecoder n) ->
  next_ w (d, τ) = (Ok None, (d, τ)).
Proof.
  intros H. unfold next_, bind, get_self. simpl.
  destruct (cls d) eqn:E; try reflexivity. by destruct (H n).
Qed.

Lemma interpret_plain w ga d τ :
  cls d <> GenericBHDecoder ->
  (forall n, cls d <> UserDecoder n) ->
  interpret w ga (d, τ) = (Ok tt, (d, τ)).
Proof.
  intros H1 H2. unfold interpret, bind, get_self. simpl.
  destruct (cls d) eqn:E; try reflexivity; [done | by destruct (H2 n)].
Qed.

(** Attribute access on a placeholder decoder keeps it a placeholder for
    the same handle and reads nothing. *)
Lemma getattr_placeholder w c handle v b name τ :
  c <> GenericBHDecoder ->
  (forall n, c <> UserDecoder n) ->
  handle <> "interpreted" ->
  handle <> "interpret" ->
  exists r b' τ',
    getattr w recursion_limit name (decoder_in c handle v b, τ)
    = (r, (decoder_in c handle v b', τ'))
    /\ reads τ' = reads τ.
Proof.
  intros Hc1 Hc2 Hh Hh'.
  set (d := decoder_in c handle v b).
  assert (Hplain : attrs d !! "interpret" = None).
  { unfold d, decoder_in; cbn [attrs]. by rewrite !lookup_insert_ne. }
  assert (Hflag : find_attr w d "interpreted" = Some (PyBool b)).
  { unfold find_attr, d, decoder_in; simpl.
    rewrite lookup_insert_ne by done. by rewrite lookup_insert_eq. }
  destruct (find_attr w d name) as [x|] eqn:Hfind.
  - exists (Ok x), b, τ. split; [by apply getattr_hit | done].
  - destruct b.
    + exists (Raise (no_such_attribute name)), true, τ. split; [|done].
      change recursion_limit with (S (S 998)).
      by apply getattr_miss_interpreted with (x := PyBool true).
    + change recursion_limit with (S (S (S 997))).
      rewrite (getattr_miss_uninterpreted _ _ _ _ _ _ Hfind Hflag eq_refl).
      rewrite call_interpret_unshadowed, interpret_plain by done.
      assert (Hd2 : mkInstance (cls d) (<["interpreted" := PyBool true]> (attrs d))
                    = decoder_in c handle v true).
      { unfold d, decoder_in; simpl. f_equal.
        rewrite insert_insert_ne by done. by rewrite insert_insert_eq. }
      cbv zeta. rewrite Hd2.
      destruct (find_attr w (decoder_in c handle v true) name) as [x|];
        do 3 eexists; (split; [reflexivity | apply reads_log_interpret]).
Qed.

(** C4. When the read of the callback address fails with
    unavailable memory, [decode_bio] (resp. [decode_bh]) returns a
    [BadBioDecoder] (resp. [BadBHDecoder]) for the object. Whatever is
    done with that decoder, it stays a placeholder for the same object:
    [str()] gives the address in hexadecimal followed by the invalidity
    marker, [next()] gives none, and neither these nor any attribute
    access reads the memory image. *)
Theorem unreadable_key_gives_invalid_decoder (w : World) (obj : Value) (σ : State) :
  (mem_read w obj "bi_end_io" = Raise NotAvailableError ->
   decode_bio w obj σ
   = (Ok (decoder_with BadBioDecoder "bio" obj), log (EvRead obj "bi_end_io") σ)
   /\ forall b τ,
        (exists s, str_ w (decoder_in BadBioDecoder "bio" obj b, τ)
                   = (Ok s, (decoder_in BadBioDecoder "bio" obj b, τ))
                   /\ contains (format_x (val_int obj)) s
                   /\ contains "invalid" s)
        /\ next_ w (decoder_in BadBioDecoder "bio" obj b, τ)
           = (Ok None, (decoder_in BadBioDecoder "bio" obj b, τ))
        /\ (forall name, exists r b' τ',
              getattr w recursion_limit name (decoder_in BadBioDecoder "bio" obj b, τ)
              = (r, (decoder_in BadBioDecoder "bio" obj b', τ'))
              /\ reads τ' = reads τ))
  /\ (mem_read w obj "b_end_io" = Raise NotAvailableError ->
      decode_bh w obj σ
      = (Ok (decoder_with BadBHDecoder "bh" obj), log (EvRead obj "b_end_io") σ)
      /\ forall b τ,
           (exists s, str_ w (decoder_in BadBHDecoder "bh" obj b, τ)
                      = (Ok s, (decoder_in BadBHDecoder "bh" obj b, τ))
                      /\ contains (format_x (val_int obj)) s
                      /\ contains "invalid" s)
           /\ next_ w (decoder_in BadBHDecoder "bh" obj b, τ)
              = (Ok None, (decoder_in BadBHDecoder "bh" obj b, τ))
           /\ (forall name, exists r b' τ',
                 getattr w recursion_limit name (decoder_in BadBHDecoder "bh" obj b, τ)
                 = (r, (decoder_in BadBHDecoder "bh" obj b', τ'))
                 /\ reads τ' = reads τ)).
Proof.
  split; intros H.
  - split; [by apply decode_bio_unavailable|]. intros b τ. split; [|split].
    + eexists. split; [apply str_bad_bio|]. split.
      * apply contains_prefix.
      * apply contains_after. exists " bio: ", " bio". reflexivity.
    + by apply next_in_file.
    + intros name. by apply getattr_placeholder.
  - split; [by apply decode_bh_unavailable|]. intros b τ. split; [|split].
    + eexists. split; [apply str_bad_bh|]. split.
      * apply contains_prefix.
      * apply contains_after. exists " bh: ", " buffer_head". reflexivity.
    + by apply next_in_file.
    + intros name. by apply getattr_placeholder.
Qed.

Lemma unreadable_key_gives_invalid_decoder_witness :
  decode_bio unreadable_world null_value empty_state
  = (Ok (decoder_with BadBioDecoder "bio" null_value),
     log (EvRead null_value "bi_end_io") empty_state)
  /\ decode_bh unreadable_world null_value empty_state
     = (Ok (decoder_with BadBHDecoder "bh" null_value),
        log (EvRead null_value "b_end_io") empty_state).
Proof.
  destruct (unreadable_key_gives_invalid_decoder unreadable_world null_value empty_state)
    as [Hbio Hbh].
  split.
  - apply Hbio. reflexivity.
  - apply Hbh. reflexivity.
Defined.

(** *** The generic decoders *)

Lemma getitem_value w v field d τ :
  getitem w (PyValue v) field (d, τ)
  = (mem_read w v field, (d, log (EvRead v field) τ)).
Proof. reflexivity. Qed.

(** [str()] of a [GenericBioDecoder]: the reads it makes, in order, and
    what it returns when they succeed. *)
Lemma str_generic_bio w bio b τ :
  let d := decoder_in GenericBioDecoder "bio" bio b in
  str_ w (d, τ)
  = match mem_read w bio "bi_bdev" with
    | Raise e => (Raise e, (d, log (EvRead bio "bi_bdev") τ))
    | Ok bdev =>
        match block_device_name w bdev with
        | Raise e => (Raise e, (d, log (EvRead bio "bi_bdev") τ))
        | Ok name =>
            match mem_read w bio "bi_end_io" with
            | Raise e =>
                (Raise e, (d, log (EvRead bio "bi_end_io") (log (EvRead bio "bi_bdev") τ)))
            | Ok end_io =>
                (Ok (format_x (val_int bio) +:+ " bio: undecoded bio on " +:+ name
                     +:+ " (" +:+ val_str end_io +:+ ")"),
                 (d, log (EvRead bio "bi_end_io") (log (EvRead bio "bi_bdev") τ)))
            end
        end
    end.
Proof.
  intros d. unfold str_, dunder_str, bind at 1, bind at 1, get_self. simpl.
  unfold GenericBioDecoder___str__.
  unfold bind at 1. rewrite (getattr_hit w _ "_description" d τ _ eq_refl).
  unfold bind at 1. rewrite (getattr_hit w _ "bio" d τ _ eq_refl).
  unfold bind at 1. simpl.
  unfold bind at 1. rewrite (getattr_hit w _ "bio" d τ _ eq_refl).
  unfold bind at 1. rewrite getitem_value.
  destruct (mem_read w bio "bi_bdev") as [bdev|e]; [|reflexivity].
  unfold bind at 1, lift at 1, lift_result at 1. simpl.
  destruct (block_device_name w bdev) as [name|e]; [|reflexivity].
  unfold bind at 1. rewrite (getattr_hit w _ "bio" d _ _ eq_refl).
  unfold bind at 1. rewrite getitem_value.
  destruct (mem_read w bio "bi_end_io") as [end_io|e]; reflexivity.
Qed.

Lemma interpret_generic_bh w depth bh τ :
  let d := decoder_with GenericBHDecoder "bh" bh in
  interpret w (getattr w depth) (d, τ)
  = match mem_read w bh "b_bdev" with
    | Raise e => (Raise e, (d, log (EvRead bh "b_bdev") τ))
    | Ok bdev =>
        match block_device_name w bdev with
        | Raise e => (Raise e, (d, log (EvRead bh "b_bdev") τ))
        | Ok name =>
            (Ok tt, (mkInstance GenericBHDecoder
                       (<["block_device" := PyStr name]> (attrs d)),
                     log (EvRead bh "b_bdev") τ))
        end
    end.
Proof.
  intros d. unfold interpret, bind at 1, get_self. simpl.
  unfold GenericBHDecoder_interpret.
  unfold bind at 1. rewrite (getattr_hit w _ "bh" d _ _ eq_refl).
  unfold bind at 1. rewrite getitem_value.
  destruct (mem_read w bh "b_bdev") as [bdev|e]; [|reflexivity].
  unfold bind at 1, lift at 1, lift_result at 1. simpl.
  destruct (block_device_name w bdev) as [name|e]; reflexivity.
Qed.

(** [str()] of a fresh [GenericBHDecoder]: reading [block_device] runs
    [interpret()], which reads [b_bdev]; then [b_blocknr] and [b_size]. *)
Lemma str_generic_bh w bh τ :
  let d := decoder_with GenericBHDecoder "bh" bh in
  exists r d' τ',
    str_ w (d, τ) = (r, (d', τ'))
    /\ match mem_read w bh "b_bdev" with
       | Raise e => r = Raise e
       | Ok bdev =>
           match block_device_name w bdev with
           | Raise e => r = Raise e
           | Ok name =>
               match mem_read w bh "b_blocknr" with
               | Raise e => r = Raise e
               | Ok blocknr =>
                   match mem_read w bh "b_size" with
                   | Raise e => r = Raise e
                   | Ok size =>
                       r = Ok (format_x (val_int bh) +:+ " buffer_head: for dev "
                               +:+ name +:+ ", block " +:+ val_str blocknr
                               +:+ ", size " +:+ val_str size +:+ " (undecoded)")
                   end
               end
           end
       end.
Proof.
  intros d. unfold str_, dunder_str, bind at 1, bind at 1, get_self.
  change (cls (d, τ).1) with GenericBHDecoder. cbv iota.
  unfold GenericBHDecoder___str__.
  unfold bind at 1. rewrite (getattr_hit w _ "_description" d τ _ eq_refl).
  unfold bind at 1. rewrite (getattr_hit w _ "bh" d τ _ eq_refl).
  unfold bind at 1, lift at 1, lift_result at 1.
  change (py_int (PyValue bh)) with (Ok (val_int bh)). cbv iota beta.
  unfold bind at 1. change recursion_limit with (S (S (S 997))). cbn [fst snd].
  rewrite (getattr_miss_uninterpreted w 997 "block_device" d τ (PyBool false)
             eq_refl eq_refl eq_refl).
  rewrite call_interpret_unshadowed by reflexivity.
  rewrite (interpret_generic_bh w (S (S 997)) bh).
  destruct (mem_read w bh "b_bdev") as [bdev|e]; [|by do 3 eexists].
  destruct (block_device_name w bdev) as [name|e]; [|by do 3 eexists].
  cbv zeta.
  match goal with
  | |- context [find_attr w ?d2 "block_device"] => set (d' := d2)
  end.
  change (find_attr w d' "block_device") with (Some (PyStr name)). cbv iota beta.
  set (τ' := log (EvRead bh "b_bdev") (log (EvInterpret (cls d)) τ)).
  unfold bind at 1. rewrite (getattr_hit w _ "bh" d' _ (PyValue bh) eq_refl).
  unfold bind at 1. rewrite getitem_value.
  destruct (mem_read w bh "b_blocknr") as [blocknr|e]; [|by do 3 eexists].
  unfold bind at 1. rewrite (getattr_hit w _ "bh" d' _ (PyValue bh) eq_refl).
  unfold bind at 1. rewrite getitem_value.
  destruct (mem_read w bh "b_size") as [size|e]; [|by do 3 eexists].
  do 3 eexists. split; reflexivity.
Qed.

Lemma contains_undecoded_bio pre name post :
  contains "undecoded" (pre +:+ " bio: undecoded bio on " +:+ name +:+ post).
Proof.
  exists (pre +:+ " bio: "), (" bio on " +:+ name +:+ post).
  rewrite !append_assoc_string. reflexivity.
Qed.

(** C5, as the code has it. When the callback address is readable but
    has no entry in the table, [decode_bio] (resp. [decode_bh]) absorbs
    the [KeyError] and returns a [GenericBioDecoder] (resp.
    [GenericBHDecoder]) for the object. [str()] of that decoder reads
    the object again: it returns the description, which holds the
    object's address in hexadecimal and the marker [undecoded], when
    the fields it reports and the name of the device are available, and
    raises the first failure among them otherwise. *)
Theorem unregistered_key_gives_generic_decoder (w : World) (obj end_io : Value)
    (σ : State) :
  (mem_read w obj "bi_end_io" = Ok end_io ->
   lookup_decoder (val_int end_io) σ = None ->
   decode_bio w obj σ
   = (Ok (decoder_with GenericBioDecoder "bio" obj), log (EvRead obj "bi_end_io") σ)
   /\ (forall τ,
         (str_ w (decoder_with GenericBioDecoder "bio" obj, τ)).1
         = match mem_read w obj "bi_bdev" with
           | Raise e => Raise e
           | Ok bdev =>
               match block_device_name w bdev with
               | Raise e => Raise e
               | Ok name =>
                   Ok (format_x (val_int obj) +:+ " bio: undecoded bio on " +:+ name
                       +:+ " (" +:+ val_str end_io +:+ ")")
               end
           end)
   /\ (forall τ s s', str_ w (decoder_with GenericBioDecoder "bio" obj, τ) = (Ok s, s') ->
         contains (format_x (val_int obj)) s /\ contains "undecoded" s))
  /\ (mem_read w obj "b_end_io" = Ok end_io ->
      lookup_decoder (val_int end_io) σ = None ->
      decode_bh w obj σ
      = (Ok (decoder_with GenericBHDecoder "bh" obj), log (EvRead obj "b_end_io") σ)
      /\ (forall τ,
            (str_ w (decoder_with GenericBHDecoder "bh" obj, τ)).1
            = match mem_read w obj "b_bdev" with
              | Raise e => Raise e
              | Ok bdev =>
                  match block_device_name w bdev with
                  | Raise e => Raise e
                  | Ok name =>
                      match mem_read w obj "b_blocknr" with
                      | Raise e => Raise e
                      | Ok blocknr =>
                          match mem_read w obj "b_size" with
                          | Raise e => Raise e
                          | Ok size =>
                              Ok (format_x (val_int obj) +:+ " buffer_head: for dev "
                                  +:+ name +:+ ", block " +:+ val_str blocknr
                                  +:+ ", size " +:+ val_str size +:+ " (undecoded)")
                          end
                      end
                  end
              end)
      /\ (forall τ s s', str_ w (decoder_with GenericBHDecoder "bh" obj, τ) = (Ok s, s') ->
            contains (format_x (val_int obj)) s /\ contains "undecoded" s)).
Proof.
  split; intros Hread Hkey.
  - split; [by apply (decode_bio_unregistered w obj end_io)|]. split.
    + intros τ. unfold decoder_with. rewrite str_generic_bio.
      destruct (mem_read w obj "bi_bdev") as [bdev|]; [|done].
      destruct (block_device_name w bdev) as [name|]; [|done].
      by rewrite Hread.
    + intros τ s s' Hstr. unfold decoder_with in Hstr.
      rewrite str_generic_bio in Hstr.
      destruct (mem_read w obj "bi_bdev") as [bdev|]; [|done].
      destruct (block_device_name w bdev) as [name|]; [|done].
      rewrite Hread in Hstr. inversion Hstr; subst. split.
      * apply contains_prefix.
      * apply contains_undecoded_bio.
  - split; [by apply (decode_bh_unregistered w obj end_io)|]. split.
    + intros τ. destruct (str_generic_bh w obj τ) as (r & d' & τ' & Hrun & Hr).
      rewrite Hrun. cbn [fst].
      destruct (mem_read w obj "b_bdev") as [bdev|]; [|done].
      destruct (block_device_name w bdev) as [name|]; [|done].
      destruct (mem_read w obj "b_blocknr") as [blocknr|]; [|done].
      by destruct (mem_read w obj "b_size") as [size|].
    + intros τ s s' Hstr.
      destruct (str_generic_bh w obj τ) as (r & d' & τ' & Hrun & Hr).
      rewrite Hrun in Hstr. inversion Hstr; subst.
      destruct (mem_read w obj "b_bdev") as [bdev|]; [|done].
      destruct (block_device_name w bdev) as [name|]; [|done].
      destruct (mem_read w obj "b_blocknr") as [blocknr|]; [|done].
      destruct (mem_read w obj "b_size") as [size|]; [|done].
      inversion Hr; subst. split.
      * apply contains_prefix.
      * do 7 apply contains_after. exists " (", ")". reflexivity.
Qed.

Lemma unregistered_key_gives_generic_decoder_witness :
  (str_ readable_world (decoder_with GenericBioDecoder "bio" sample_object, empty_state)).1
  = Ok "1000 bio: undecoded bio on sda (0xdead <bi_end_io>)"
  /\ (str_ readable_world (decoder_with GenericBHDecoder "bh" sample_object, empty_state)).1
     = Ok "1000 buffer_head: for dev sda, block 0xdead <b_blocknr>, size 0xdead <b_size> (undecoded)".
Proof.
  split.
  - pose proof (unregistered_key_gives_generic_decoder readable_world sample_object
                  (mkValue 57005 None "0xdead <bi_end_io>") empty_state) as [Hbio _].
    destruct (Hbio eq_refl eq_refl) as (_ & H & _).
    rewrite (H empty_state). reflexivity.
  - pose proof (unregistered_key_gives_generic_decoder readable_world sample_object
                  (mkValue 57005 None "0xdead <b_end_io>") empty_state) as [_ Hbh].
    destruct (Hbh eq_refl eq_refl) as (_ & H & _).
    rewrite (H empty_state). reflexivity.
Defined.

(** C5 as stated fails: [str()] of the generic decoder need not give a
    description. The buffer head of the torn image has a readable
    callback address that is registered nowhere, so [decode_bh] gives
    its [GenericBHDecoder]; its [b_bdev] is not readable, and [str()] of
    the decoder raises [gdb.NotAvailableError]. *)
Lemma generic_decoder_str_raises :
  mem_read torn_world sample_object "b_end_io" = Ok (mkValue 57005 None "0xdead")
  /\ lookup_decoder 57005 empty_state = None
  /\ decode_bh torn_world sample_object empty_state
     = (Ok (decoder_with GenericBHDecoder "bh" sample_object),
        log (EvRead sample_object "b_end_io") empty_state)
  /\ (str_ torn_world (decoder_with GenericBHDecoder "bh" sample_object,
                       log (EvRead sample_object "b_end_io") empty_state)).1
     = Raise NotAvailableError.
Proof. repeat split; reflexivity. Qed.

(** ** Interpretation that fails *)

(** In a readable image the first read of [block_device] on a fresh
    [GenericBHDecoder] runs [interpret()], the second finds the field. *)
Example block_device_interpreted_once :
  let s1 := getattr readable_world recursion_limit "block_device"
              (decoder_with GenericBHDecoder "bh" sample_object, empty_state) in
  let s2 := getattr readable_world recursion_limit "block_device" s1.2 in
  s1.1 = Ok (PyStr "sda") /\ s2.1 = Ok (PyStr "sda")
  /\ interpret_runs s1.2.2 = 1%nat /\ interpret_runs s2.2.2 = 1%nat.
Proof. vm_compute. done. Qed.

(** The decoder of a buffer head in the torn image is the generic one. *)
Example decode_bh_torn :
  decode_bh torn_world sample_object empty_state
  = (Ok (decoder_with GenericBHDecoder "bh" sample_object),
     log (EvRead sample_object "b_end_io") empty_state).
Proof. reflexivity. Qed.

Lemma torn_access τ :
  getattr torn_world recursion_limit "block_device"
    (decoder_with GenericBHDecoder "bh" sample_object, τ)
  = (Raise NotAvailableError,
     (decoder_with GenericBHDecoder "bh" sample_object,
      log (EvRead sample_object "b_bdev") (log (EvInterpret GenericBHDecoder) τ))).
Proof.
  change recursion_limit with (S (S (S 997))).
  rewrite (getattr_miss_uninterpreted torn_world 997 "block_device"
             (decoder_with GenericBHDecoder "bh" sample_object) τ (PyBool false)
             eq_refl eq_refl eq_refl).
  rewrite call_interpret_unshadowed by reflexivity.
  by rewrite (interpret_generic_bh torn_world (S (S 997)) sample_object).
Qed.

Lemma torn_accesses n τ :
  for_each (replicate n "block_device") (try_access torn_world)
    (decoder_with GenericBHDecoder "bh" sample_object, τ)
  = (Ok tt,
     (decoder_with GenericBHDecoder "bh" sample_object,
      Nat.iter n (fun τ => log (EvRead sample_object "b_bdev")
                             (log (EvInterpret GenericBHDecoder) τ)) τ)).
Proof.
  revert τ. induction n as [|n IH]; intros τ; [done|].
  cbn [replicate for_each]. unfold bind at 1, try_access at 1, try_except, bind at 1.
  rewrite torn_access. unfold ret. by rewrite IH, Nat.iter_succ_r.
Qed.

(** C3 on a buffer head whose callback address is readable and
    registered nowhere while its [b_bdev] is not readable. [decode_bh]
    gives its [GenericBHDecoder]. Every read of [block_device] on it
    runs [interpret()], which raises on the unreadable field before
    [__getattr__] has marked the object: the read raises
    [gdb.NotAvailableError] and leaves the object as it was, unmarked.
    So [n] reads run [interpret()] [n] times, where the claim -- and the
    docstring of [Decoder] -- have it run once. *)
Theorem interpret_reruns_after_raise :
  let d := decoder_with GenericBHDecoder "bh" sample_object in
  let σ := log (EvRead sample_object "b_end_io") empty_state in
  decode_bh torn_world sample_object empty_state = (Ok d, σ)
  /\ find_attr torn_world d "interpreted" = Some (PyBool false)
  /\ (forall τ,
        getattr torn_world recursion_limit "block_device" (d, τ)
        = (Raise NotAvailableError,
           (d, log (EvRead sample_object "b_bdev") (log (EvInterpret GenericBHDecoder) τ))))
  /\ (forall n,
        interpret_runs (for_each (replicate n "block_device") (try_access torn_world)
                          (d, σ)).2.2 = n)
  /\ interpret_runs (for_each ["block_device"; "block_device"] (try_access torn_world)
                       (d, σ)).2.2 = 2%nat.
Proof.
  intros d σ. split; [reflexivity|]. split; [reflexivity|]. split; [apply torn_access|].
  split; [|reflexivity].
  intros n. unfold d. rewrite torn_accesses. cbn [snd].
  induction n as [|n IH]; [reflexivity|].
  by rewrite Nat.iter_succ, interpret_runs_log_read, interpret_runs_log_interpret, IH.
Qed.


(** ** Construction *)

Lemma new_in_file w c v σ :
  init_in_file w c ->
  new w c v σ = (Ok (constructed_object c v), σ).
Proof.
  intros Hc. destruct σ as [g t].
  destruct c as [| | | | |n]; try reflexivity.
  simpl in Hc. unfold new, dunder_init. rewrite Hc. reflexivity.
Qed.


(** C8. Constructing a decoder of any class whose constructor is one of
    those of decoders.py returns normally and leaves the program state,
    and with it the record of memory reads, exactly as it was; the new
    object has [interpreted] set to [False] and holds nothing else but
    the handle; and the outcome is the same whatever the memory image
    holds. *)
Theorem construction_reads_nothing (w : World) (c : ClassId) (v : Value) (σ : State) :
  init_in_file w c ->
  exists d,
    new w c v σ = (Ok d, σ)
    /\ cls d = c
    /\ attrs d !! "interpreted" = Some (PyBool false)
    /\ (forall k x, attrs d !! k = Some x ->
          (k = "interpreted" /\ x = PyBool false) \/ x = PyValue v)
    /\ (forall w', init_in_file w' c -> new w' c v σ = (Ok d, σ)).
Proof.
  intros Hc.
  assert (Hbase : forall k x,
            (<["interpreted" := PyBool false]> ∅ : gmap string PyVal) !! k = Some x ->
            (k = "interpreted" /\ x = PyBool false) \/ x = PyValue v).
  { intros k x H. apply lookup_insert_Some in H as [[<- <-]|[_ H]]; [by left|].
    by rewrite lookup_empty in H. }
  assert (Hhandle : forall h k x,
            (<[h := PyValue v]> (<["interpreted" := PyBool false]> ∅)
               : gmap string PyVal) !! k = Some x ->
            (k = "interpreted" /\ x = PyBool false) \/ x = PyValue v).
  { intros h k x H. apply lookup_insert_Some in H as [[_ <-]|[_ H]]; [by right|].
    by apply Hbase. }
  exists (constructed_object c v).
  split; [by apply new_in_file|].
  split; [by destruct c|].
  split; [by destruct c|].
  split; [destruct c; first [apply Hhandle | apply Hbase]|].
  intros w' Hw'. by apply new_in_file.
Qed.

Lemma construction_reads_nothing_witness :
  exists d,
    new unreadable_world GenericBioDecoder sample_object empty_state = (Ok d, empty_state)
    /\ attrs d !! "interpreted" = Some (PyBool false).
Proof.
  destruct (construction_reads_nothing unreadable_world GenericBioDecoder sample_object
              empty_state) as (d & H1 & _ & H2 & _).
  - exact I.
  - exists d. split; assumption.
Defined.

(** ** Chain walker *)

Lemma run_next_in_file w d τ :
  (forall n, cls d <> UserDecoder n) ->
  run_method (next_ w) d τ = (Ok None, τ).
Proof. intros H. unfold run_method. by rewrite next_in_file. Qed.

Lemma resume_bottom w d σ σ' :
  run_method (next_ w) d σ = (Ok None, σ') ->
  for_each_bio_in_stack w (GenYielded d) σ = (Ok (None, GenDone), σ').
Proof.
  intros H. unfold for_each_bio_in_stack, bind at 1, try_except, bind at 1.
  rewrite H. reflexivity.
Qed.


Lemma start_yields w bio d σ σ' :
  decode_bio w bio σ = (Ok d, σ') ->
  for_each_bio_in_stack w (GenStart bio) σ = (Ok (Some d, GenYielded d), σ').
Proof.
  intros H. unfold for_each_bio_in_stack, bind, in_generator, try_except.
  rewrite H. reflexivity.
Qed.










(** C10. The generic and the invalid-object decoders do not override
    [__next__]: their [next()] is [Decoder.__next__], which gives none
    and changes nothing. A walk from a bio whose decoder is one of them
    yields that decoder and ends at the next draw. *)
Theorem placeholder_decoders_are_terminal (w : World) (bio : Value) (σ : State)
    (d : Instance) (σ' : State) :
  decode_bio w bio σ = (Ok d, σ') ->
  cls d = GenericBioDecoder \/ cls d = BadBioDecoder ->
  (forall τ, next_ w (d, τ) = (Ok None, (d, τ)))
  /\ (forall τ, next_ w (d, τ) = Decoder___next__ (d, τ))
  /\ for_each_bio_in_stack w (GenStart bio) σ = (Ok (Some d, GenYielded d), σ')
  /\ for_each_bio_in_stack w (GenYielded d) σ' = (Ok (None, GenDone), σ')
  /\ (forall k, collect w (2 + k) (GenStart bio) σ = (Ok (Some [d]), σ')).
Proof.
  intros Hdecode Hcls.
  assert (Hfile : forall n, cls d <> UserDecoder n).
  { intros n. destruct Hcls as [-> | ->]; done. }
  assert (Hnext : forall τ, next_ w (d, τ) = (Ok None, (d, τ))).
  { intros τ. by apply next_in_file. }
  split; [done|]. split; [intros τ; by rewrite Hnext|].
  split; [by apply start_yields|].
  split; [apply resume_bottom; by apply run_next_in_file|].
  intros k. cbn [Nat.add collect]. unfold bind at 1.
  rewrite (start_yields _ _ _ _ _ Hdecode). unfold bind at 1.
  unfold bind at 1. rewrite (resume_bottom w d σ' σ') by (by apply run_next_in_file).
  reflexivity.
Qed.

Lemma placeholder_decoders_are_terminal_witness :
  collect unreadable_world 2 (GenStart sample_object) empty_state
  = (Ok (Some [decoder_with BadBioDecoder "bio" sample_object]),
     log (EvRead sample_object "bi_end_io") empty_state).
Proof.
  destruct (placeholder_decoders_are_terminal unreadable_world sample_object empty_state
              (decoder_with BadBioDecoder "bio" sample_object)
              (log (EvRead sample_object "bi_end_io") empty_state))
    as (_ & _ & _ & _ & H).
  - reflexivity.
  - right. reflexivity.
  - exact (H 0%nat).
Defined.

(** ** Kernel configuration cache *)

Lemma marker_mismatch (buf marker : string) :
  negb (String.eqb buf marker) = true <-> buf <> marker.
Proof.
  rewrite negb_true_iff. apply String.eqb_neq.
Qed.

(** Closes the conjuncts of a branch in which decompression raised. *)
Ltac refuted Hrun :=
  repeat split; intros;
  first [ congruence
        | by eexists
        | match goal with
          | H : _ = (Ok tt, _) |- _ => rewrite Hrun in H; congruence
          end ].

(** What [decompress_config_buffer] does once the symbol and its address
    are there, by the outcome of the two marker reads. *)
Lemma decompress_config_buffer_cases dbg self sym data_addr :
  Syscache.lookup_symbol dbg "kernel_config_data" = Some sym ->
  val_address (sym_value sym) = Some data_addr ->
  let data_len := Syscache.sizeof dbg (sym_value sym) in
  Syscache.decompress_config_buffer dbg self
  = match Syscache.read_memory_str dbg data_addr 8 with
    | Raise e => (Raise e, self)
    | Ok buf =>
        if negb (String.eqb buf Syscache.MAGIC_START) then
          (Raise (IOError "Missing MAGIC_START in kernel_config_data."), self)
        else
          match Syscache.read_memory_str dbg (data_addr + data_len - 8 - 1) 8 with
          | Raise e => (Raise e, self)
          | Ok buf =>
              if negb (String.eqb buf Syscache.MAGIC_END) then
                (Raise (IOError "Missing MAGIC_END in kernel_config_data."), self)
              else
                match Syscache.read_memory_str dbg (data_addr + 8 + 10)
                        (data_len - 8 - 8 - 10) with
                | Raise e => (Raise e, self)
                | Ok buf =>
                    match Syscache.zlib_decompress dbg buf (-15) (data_len - 8 - 8 - 10) with
                    | Raise e => (Raise e, self)
                    | Ok text => (Ok tt, Syscache.mkCache (Some text))
                    end
                end
          end
    end.
Proof.
  intros Hsym Haddr data_len. unfold Syscache.decompress_config_buffer.
  rewrite Hsym, Haddr. fold data_len.
  change (Syscache.len Syscache.MAGIC_START) with 8.
  change (Syscache.len Syscache.MAGIC_END) with 8.
  change Syscache.GZIP_HEADER_LEN with 10.
  unfold bind at 1, Syscache.read_buf at 1, lift_result at 1.
  destruct (Syscache.read_memory_str dbg data_addr 8) as [buf|e]; [|reflexivity].
  destruct (negb (String.eqb buf Syscache.MAGIC_START)); [reflexivity|].
  unfold bind at 1, Syscache.read_buf at 1, lift_result at 1.
  destruct (Syscache.read_memory_str dbg (data_addr + data_len - 8 - 1) 8) as [buf'|e];
    [|reflexivity].
  destruct (negb (String.eqb buf' Syscache.MAGIC_END)); [reflexivity|].
  unfold bind at 1, Syscache.read_buf at 1, lift_result at 1.
  destruct (Syscache.read_memory_str dbg (data_addr + 8 + 10) (data_len - 8 - 8 - 10))
    as [buf''|e]; [|reflexivity].
  unfold bind at 1, lift_result at 1.
  destruct (Syscache.zlib_decompress dbg buf'' (-15) (data_len - 8 - 8 - 10));
    reflexivity.
Qed.

(** C9. With [kernel_config_data] resolved: when the bytes read at its
    start are not [IKCFG_ST], decompression raises the [IOError] naming
    [MAGIC_START]; when the start marker is there and the bytes read
    before its last byte are not [IKCFG_ED], it raises the [IOError]
    naming [MAGIC_END]; whenever a marker is not there it raises and
    leaves the cache without a new [config_buffer]; and it sets
    [config_buffer] only with both markers there. *)
Theorem missing_marker_is_reported (dbg : Syscache.Debugger)
    (self : Syscache.CrashConfigCache) (sym : Symbol) (data_addr : Z) :
  Syscache.lookup_symbol dbg "kernel_config_data" = Some sym ->
  val_address (sym_value sym) = Some data_addr ->
  let data_len := Syscache.sizeof dbg (sym_value sym) in
  let outcome := Syscache.decompress_config_buffer dbg self in
  (forall buf,
     Syscache.read_memory_str dbg data_addr 8 = Ok buf ->
     buf <> Syscache.MAGIC_START ->
     outcome = (Raise (IOError "Missing MAGIC_START in kernel_config_data."), self))
  /\ (forall buf,
        Syscache.start_marker_present dbg data_addr ->
        Syscache.read_memory_str dbg (data_addr + data_len - 8 - 1) 8 = Ok buf ->
        buf <> Syscache.MAGIC_END ->
        outcome = (Raise (IOError "Missing MAGIC_END in kernel_config_data."), self))
  /\ (~ Syscache.start_marker_present dbg data_addr
      \/ ~ Syscache.end_marker_present dbg data_addr data_len ->
      exists e, outcome = (Raise e, self))
  /\ (forall self',
        outcome = (Ok tt, self') ->
        Syscache.start_marker_present dbg data_addr
        /\ Syscache.end_marker_present dbg data_addr data_len
        /\ exists text, Syscache.config_buffer self' = Some text).
Proof.
  intros Hsym Haddr data_len outcome.
  pose proof (decompress_config_buffer_cases dbg self sym data_addr Hsym Haddr) as Hrun.
  cbv zeta in Hrun. fold data_len in Hrun. fold outcome in Hrun.
  unfold Syscache.start_marker_present, Syscache.end_marker_present.
  destruct (Syscache.read_memory_str dbg data_addr 8) as [buf1|e1] eqn:Hstart;
    [|by refuted Hrun].
  destruct (negb (String.eqb buf1 Syscache.MAGIC_START)) eqn:Hcmp1.
  { apply marker_mismatch in Hcmp1. by refuted Hrun. }
  apply negb_false_iff, String.eqb_eq in Hcmp1. subst buf1.
  destruct (Syscache.read_memory_str dbg (data_addr + data_len - 8 - 1) 8)
    as [buf2|e2] eqn:Hend; [|by refuted Hrun].
  destruct (negb (String.eqb buf2 Syscache.MAGIC_END)) eqn:Hcmp2.
  { apply marker_mismatch in Hcmp2. by refuted Hrun. }
  apply negb_false_iff, String.eqb_eq in Hcmp2. subst buf2.
  split; [intros; congruence|]. split; [intros; congruence|]. split.
  - intros [H | H]; by destruct H.
  - intros self' H. rewrite Hrun in H.
    destruct (Syscache.read_memory_str dbg (data_addr + 8 + 10) (data_len - 8 - 8 - 10))
      as [buf3|]; [|congruence].
    destruct (Syscache.zlib_decompress dbg buf3 (-15) (data_len - 8 - 8 - 10))
      as [text|]; [|congruence].
    inversion H; subst. split; [done|]. split; [done|]. by eexists.
Qed.

Lemma missing_marker_is_reported_witness :
  Syscache.decompress_config_buffer Syscache.garbled_debugger (Syscache.mkCache None)
  = (Raise (IOError "Missing MAGIC_START in kernel_config_data."), Syscache.mkCache None).
Proof.
  destruct (missing_marker_is_reported Syscache.garbled_debugger (Syscache.mkCache None)
              (mkSymbol "kernel_config_data" (mkValue 0 (Some 8192) "")) 8192
              eq_refl eq_refl) as [H _].
  apply (H "\0\0\0\0\0\0\0\0"); [reflexivity | discriminate].
Defined.

(** * Further properties of decoders.py *)

(** ** Registration *)

(** X1. Registering under an address changes the table at that address
    only: every other address and the entry under [None] keep what they
    had, and neither the pending subscriptions nor the trace change. *)
Theorem register_decoder_frame (k k' : Z) (f : ClassId) (σ : State) :
  k' <> k ->
  let σ' := (register_decoder (EndioInt k) f σ).2 in
  lookup_decoder k' σ' = lookup_decoder k' σ
  /\ _decoders (globals σ') !! None = _decoders (globals σ) !! None
  /\ _callbacks (globals σ') = _callbacks (globals σ)
  /\ trace σ' = trace σ.
Proof.
  intros Hne σ'. subst σ'. rewrite register_int. unfold lookup_decoder; simpl.
  repeat split.
  - apply lookup_insert_ne. congruence.
  - by apply lookup_insert_ne.
Qed.

Lemma register_decoder_frame_witness :
  lookup_decoder 4096 (register_decoder (EndioInt 8192) BadBioDecoder stacked_state).2
  = Some (UserDecoder 0).
Proof.
  destruct (register_decoder_frame 8192 4096 BadBioDecoder stacked_state) as [H _].
  - discriminate.
  - rewrite H. reflexivity.
Defined.

(** X2. [register_decoder(None, f)], which is what [Decoder.register]
    does for a class that keeps [__endio__ = None], returns normally and
    stores [f] under the key [None]; no lookup by address changes, so no
    object is ever dispatched to [f] by it. *)
Theorem register_under_none_is_invisible (f : ClassId) (σ : State) :
  exists σ',
    register_decoder EndioNone f σ = (Ok tt, σ')
    /\ _decoders (globals σ') !! None = Some f
    /\ (forall k, lookup_decoder k σ' = lookup_decoder k σ)
    /\ (forall k, (decoders_getitem k σ').1 = (decoders_getitem k σ).1).
Proof.
  exists (set_decoders (insert None f) σ).
  assert (Hk : forall k, lookup_decoder k (set_decoders (insert None f) σ)
                         = lookup_decoder k σ).
  { intros k. unfold lookup_decoder; simpl. by apply lookup_insert_ne. }
  split; [reflexivity|]. split.
  - simpl. apply lookup_insert_eq.
  - split; [exact Hk|]. intros k. specialize (Hk k). unfold lookup_decoder in Hk.
    unfold decoders_getitem, bind, get. cbn [fst snd]. rewrite Hk.
    by destruct (_decoders (globals σ) !! Some k).
Qed.

(** X3. A registration that fails changes nothing: an empty list of
    names raises [IndexError], a value without an address (and a symbol
    whose value has none) raises [TypeError], and the state is as
    before. *)
Theorem failed_registration_changes_nothing (f : ClassId) (v : Value) (s : Symbol)
    (σ : State) :
  register_decoder (EndioList []) f σ = (Raise IndexError, σ)
  /\ (val_address v = None ->
      register_decoder (EndioValue v) f σ = (Raise TypeError, σ))
  /\ (val_address (sym_value s) = None ->
      register_decoder (EndioSymbol s) f σ = (Raise TypeError, σ)).
Proof.
  split; [reflexivity|]. split; intros H.
  - by rewrite register_value, H.
  - by rewrite register_symbol, register_value, H.
Qed.

Lemma failed_registration_changes_nothing_witness :
  register_decoder (EndioValue null_value) BadBioDecoder stacked_state
  = (Raise TypeError, stacked_state).
Proof.
  destruct (failed_registration_changes_nothing BadBioDecoder null_value
              (mkSymbol "f" null_value) stacked_state) as (_ & H & _).
  apply H. reflexivity.
Defined.

(** ** Dispatch *)

(** X4. What is registered is what decodes: after
    [register_decoder(k, f)], an object whose callback address reads as
    [k] is decoded by [f] -- [decode_bio] (resp. [decode_bh]) returns the
    object [f] constructs from it, with the state the constructor
    leaves. *)
Theorem registered_factory_is_dispatched (w : World) (obj end_io : Value) (f : ClassId)
    (σ : State) (d : Instance) (σ' : State) :
  let σ1 := (register_decoder (EndioInt (val_int end_io)) f σ).2 in
  (mem_read w obj "bi_end_io" = Ok end_io ->
   new w f obj (log (EvRead obj "bi_end_io") σ1) = (Ok d, σ') ->
   decode_bio w obj σ1 = (Ok d, σ'))
  /\ (mem_read w obj "b_end_io" = Ok end_io ->
      new w f obj (log (EvRead obj "b_end_io") σ1) = (Ok d, σ') ->
      decode_bh w obj σ1 = (Ok d, σ')).
Proof.
  intros σ1.
  assert (Hk : lookup_decoder (val_int end_io) σ1 = Some f).
  { subst σ1. rewrite register_int. unfold lookup_decoder; simpl.
    apply lookup_insert_eq. }
  split; intros Hread Hnew.
  - by rewrite (decode_bio_dispatched w obj end_io f σ1 Hread Hk), Hnew.
  - by rewrite (decode_bh_dispatched w obj end_io f σ1 Hread Hk), Hnew.
Qed.

Lemma registered_factory_is_dispatched_witness :
  decode_bio readable_world sample_object
    (register_decoder (EndioInt 57005) (UserDecoder 7) empty_state).2
  = (Ok (constructed_object (UserDecoder 7) sample_object),
     log (EvRead sample_object "bi_end_io")
       (register_decoder (EndioInt 57005) (UserDecoder 7) empty_state).2).
Proof.
  destruct (registered_factory_is_dispatched readable_world sample_object
              (mkValue 57005 None "0xdead <bi_end_io>") (UserDecoder 7) empty_state
              (constructed_object (UserDecoder 7) sample_object)
              (log (EvRead sample_object "bi_end_io")
                 (register_decoder (EndioInt 57005) (UserDecoder 7) empty_state).2))
    as [H _].
  apply H; reflexivity.
Defined.

(** X5. [decode_bio] and [decode_bh] never raise [KeyError] or
    [gdb.NotAvailableError], wherever in the [try] it was raised: both
    are turned into a decoder. *)
Theorem decode_never_raises_lookup_errors (w : World) (obj : Value) (σ : State) :
  (decode_bio w obj σ).1 <> Raise KeyError
  /\ (decode_bio w obj σ).1 <> Raise NotAvailableError
  /\ (decode_bh w obj σ).1 <> Raise KeyError
  /\ (decode_bh w obj σ).1 <> Raise NotAvailableError.
Proof.
  assert (Hbio : forall e, e = KeyError \/ e = NotAvailableError ->
                           (decode_bio w obj σ).1 <> Raise e).
  { intros e He. unfold decode_bio, try_except.
    match goal with |- context [match ?body σ with _ => _ end] =>
      destruct (body σ) as [[d|e'] σ'] end; [done|].
    destruct e'; try (by destruct σ'); simpl; destruct He; congruence. }
  assert (Hbh : forall e, e = KeyError \/ e = NotAvailableError ->
                          (decode_bh w obj σ).1 <> Raise e).
  { intros e He. unfold decode_bh, try_except.
    match goal with |- context [match ?body σ with _ => _ end] =>
      destruct (body σ) as [[d|e'] σ'] end; [done|].
    destruct e'; try (by destruct σ'); simpl; destruct He; congruence. }
  repeat split; first [apply Hbio | apply Hbh]; auto.
Qed.

(** X6. An error of the registered class's constructor is treated like
    an error of the lookup: when the constructor raises [KeyError] the
    object gets the generic decoder, as if nothing were registered for
    it, and when it raises [gdb.NotAvailableError] the invalid-object
    decoder; what the constructor did to the state stays. *)
Theorem constructor_errors_are_masked (w : World) (bio end_io : Value) (f : ClassId)
    (σ σ' : State) (e : exn) :
  mem_read w bio "bi_end_io" = Ok end_io ->
  lookup_decoder (val_int end_io) σ = Some f ->
  new w f bio (log (EvRead bio "bi_end_io") σ) = (Raise e, σ') ->
  (e = KeyError ->
   decode_bio w bio σ = (Ok (decoder_with GenericBioDecoder "bio" bio), σ'))
  /\ (e = NotAvailableError ->
      decode_bio w bio σ = (Ok (decoder_with BadBioDecoder "bio" bio), σ'))
  /\ (e <> KeyError -> e <> NotAvailableError -> decode_bio w bio σ = (Raise e, σ')).
Proof.
  intros Hread Hk Hnew.
  rewrite (decode_bio_dispatched w bio end_io f σ Hread Hk), Hnew.
  repeat split.
  - intros ->. by destruct σ'.
  - intros ->. by destruct σ'.
  - intros H1 H2. by destruct e.
Qed.

Lemma constructor_errors_are_masked_witness :
  (decode_bio faulty_world sample_object faulty_state).1
  = Ok (decoder_with GenericBioDecoder "bio" sample_object).
Proof.
  destruct (constructor_errors_are_masked faulty_world sample_object
              (mkValue 57005 None "0xdead <bi_end_io>") (UserDecoder 0) faulty_state
              (log (EvRead sample_object "bi_end_io") faulty_state) KeyError
              eq_refl eq_refl eq_refl) as [H _].
  by rewrite H.
Defined.

(** ** Chain walker *)

(** X7. A decoder whose [next()] raises [StopIteration] ends the walk
    like one whose [next()] gives none: the generator finishes without
    raising, and a walk from a bio decoded to it yields that decoder
    alone. *)
Theorem walk_ends_on_stop_iteration (w : World) (bio : Value) (σ : State)
    (d : Instance) (σ0 σ' : State) :
  decode_bio w bio σ = (Ok d, σ0) ->
  run_method (next_ w) d σ0 = (Raise StopIteration, σ') ->
  for_each_bio_in_stack w (GenYielded d) σ0 = (Ok (None, GenDone), σ')
  /\ forall k, collect w (2 + k) (GenStart bio) σ = (Ok (Some [d]), σ').
Proof.
  intros Hdecode Hnext.
  assert (Hstep : for_each_bio_in_stack w (GenYielded d) σ0 = (Ok (None, GenDone), σ')).
  { unfold for_each_bio_in_stack, bind at 1, try_except, bind at 1.
    rewrite Hnext. reflexivity. }
  split; [exact Hstep|].
  intros k. cbn [Nat.add collect]. unfold bind at 1.
  rewrite (start_yields _ _ _ _ _ Hdecode). unfold bind at 1.
  unfold bind at 1. rewrite Hstep. reflexivity.
Qed.

Lemma walk_ends_on_stop_iteration_witness :
  exists d σ',
    collect raising_world 2 (GenStart sample_object) (raising_state 0)
    = (Ok (Some [d]), σ').
Proof.
  destruct (walk_ends_on_stop_iteration raising_world sample_object (raising_state 0)
              (constructed_object (UserDecoder 0) sample_object)
              (log (EvRead sample_object "bi_end_io") (raising_state 0))
              (log (EvRead sample_object "bi_end_io") (raising_state 0))
              eq_refl eq_refl) as [_ H].
  do 2 eexists. exact (H 0%nat).
Defined.

(** X8. Any other exception of a decoder's [next()] leaves the walk: the
    decoder has been yielded, and the next draw raises the exception. *)
Theorem walk_propagates_errors (w : World) (bio : Value) (σ : State)
    (d : Instance) (σ0 σ' : State) (e : exn) :
  decode_bio w bio σ = (Ok d, σ0) ->
  run_method (next_ w) d σ0 = (Raise e, σ') ->
  e <> StopIteration ->
  for_each_bio_in_stack w (GenStart bio) σ = (Ok (Some d, GenYielded d), σ0)
  /\ for_each_bio_in_stack w (GenYielded d) σ0 = (Raise e, σ')
  /\ forall k, collect w (2 + k) (GenStart bio) σ = (Raise e, σ').
Proof.
  intros Hdecode Hnext He.
  assert (Hstep : for_each_bio_in_stack w (GenYielded d) σ0 = (Raise e, σ')).
  { unfold for_each_bio_in_stack, bind at 1, try_except, bind at 1.
    rewrite Hnext. by destruct e. }
  split; [by apply start_yields|]. split; [exact Hstep|].
  intros k. cbn [Nat.add collect]. unfold bind at 1.
  rewrite (start_yields _ _ _ _ _ Hdecode). unfold bind at 1.
  unfold bind at 1. rewrite Hstep. reflexivity.
Qed.

Lemma walk_propagates_errors_witness :
  exists σ',
    collect raising_world 2 (GenStart sample_object) (raising_state 1)
    = (Raise (OtherError "gdb.MemoryError"), σ').
Proof.
  destruct (walk_propagates_errors raising_world sample_object (raising_state 1)
              (constructed_object (UserDecoder 1) sample_object)
              (log (EvRead sample_object "bi_end_io") (raising_state 1))
              (log (EvRead sample_object "bi_end_io") (raising_state 1))
              (OtherError "gdb.MemoryError") eq_refl eq_refl) as (_ & _ & H).
  - discriminate.
  - eexists. exact (H 0%nat).
Defined.

(** ** Attribute access *)

(** X9. On an object that [Decoder.__init__] never initialised (a
    subclass constructor that does not call it), reading a field that is
    not there never reaches [interpret()]: [__getattr__] reads
    [self.interpreted], which is not there either, and so on down to the
    recursion limit. The access raises [RecursionError] and leaves the
    object and the state as they were. *)
Theorem uninitialised_object_recursion (w : World) (depth : nat) (name : string)
    (d : Instance) (σ : State) :
  find_attr w d "interpreted" = None ->
  find_attr w d name = None ->
  getattr w depth name (d, σ) = (Raise RecursionError, (d, σ))
  /\ getattr w recursion_limit name (d, σ) = (Raise RecursionError, (d, σ)).
Proof.
  intros Hflag Hmiss.
  assert (H : forall depth name, find_attr w d name = None ->
                getattr w depth name (d, σ) = (Raise RecursionError, (d, σ))).
  { clear name Hmiss depth. induction depth as [|depth IH]; intros name Hmiss.
    - by rewrite getattr_miss.
    - rewrite getattr_miss, dunder_getattr_unfold by done.
      unfold bind at 1. by rewrite (IH "interpreted" Hflag). }
  split; by apply H.
Qed.

Lemma uninitialised_object_recursion_witness :
  getattr unreadable_world recursion_limit "sector"
    (mkInstance (UserDecoder 0) ∅, empty_state)
  = (Raise RecursionError, (mkInstance (UserDecoder 0) ∅, empty_state)).
Proof.
  apply (uninitialised_object_recursion unreadable_world 0 "sector"
           (mkInstance (UserDecoder 0) ∅) empty_state); reflexivity.
Defined.

(** X11. [Decoder.__str__] is [pass]: [str()] of an object whose class
    does not define [__str__] -- [Decoder] itself, or a subclass that
    does not override it -- raises [TypeError] and changes nothing. *)
Theorem str_without_dunder_str_raises (w : World) (d : Instance) (τ : State) :
  cls d = Decoder \/ (exists n, cls d = UserDecoder n /\ uc_str (user w n) = None) ->
  str_ w (d, τ) = (Raise TypeError, (d, τ)).
Proof.
  intros [H | (n & H & Hstr)]; unfold str_, dunder_str, bind, get_self;
    cbn [fst snd]; rewrite H; [reflexivity|]. rewrite Hstr. reflexivity.
Qed.

Lemma str_without_dunder_str_raises_witness :
  str_ unreadable_world (constructed_object Decoder null_value, empty_state)
  = (Raise TypeError, (constructed_object Decoder null_value, empty_state)).
Proof.
  apply (str_without_dunder_str_raises unreadable_world). left. reflexivity.
Defined.

(** X10. The description of a [GenericBHDecoder] is formatted on every
    [str()], but [interpret()] runs on the first only: the first call
    runs [interpret()], which reads [b_bdev] and keeps the device name,
    then reads [b_blocknr] and [b_size]; every later call reads
    [b_blocknr] and [b_size] again and nothing else, and gives the same
    text. *)
Theorem generic_bh_str_interprets_once (w : World) (bh bdev blocknr size : Value)
    (name : string) (τ : State) :
  mem_read w bh "b_bdev" = Ok bdev ->
  block_device_name w bdev = Ok name ->
  mem_read w bh "b_blocknr" = Ok blocknr ->
  mem_read w bh "b_size" = Ok size ->
  let text := format_x (val_int bh) +:+ " buffer_head: for dev " +:+ name
              +:+ ", block " +:+ val_str blocknr +:+ ", size " +:+ val_str size
              +:+ " (undecoded)" in
  let τ1 := log (EvRead bh "b_size") (log (EvRead bh "b_blocknr")
              (log (EvRead bh "b_bdev") (log (EvInterpret GenericBHDecoder) τ))) in
  str_ w (decoder_with GenericBHDecoder "bh" bh, τ) = (Ok text, (interpreted_bh bh name, τ1))
  /\ (forall τ',
        str_ w (interpreted_bh bh name, τ')
        = (Ok text, (interpreted_bh bh name,
                     log (EvRead bh "b_size") (log (EvRead bh "b_blocknr") τ'))))
  /\ interpret_runs τ1 = S (interpret_runs τ)
  /\ (forall τ', interpret_runs (str_ w (interpreted_bh bh name, τ')).2.2
                 = interpret_runs τ').
Proof.
  intros Hbdev Hname Hblk Hsize text τ1.
  assert (Hlater : forall τ',
            str_ w (interpreted_bh bh name, τ')
            = (Ok text, (interpreted_bh bh name,
                         log (EvRead bh "b_size") (log (EvRead bh "b_blocknr") τ')))).
  { intros τ'. set (d' := interpreted_bh bh name).
    unfold str_, dunder_str, bind at 1, bind at 1, get_self.
    change (cls (d', τ').1) with GenericBHDecoder. cbv iota.
    unfold GenericBHDecoder___str__.
    unfold bind at 1. rewrite (getattr_hit w _ "_description" d' τ' _ eq_refl).
    unfold bind at 1. rewrite (getattr_hit w _ "bh" d' τ' (PyValue bh) eq_refl).
    unfold bind at 1, lift at 1, lift_result at 1.
    change (py_int (PyValue bh)) with (Ok (val_int bh)). cbv iota beta. cbn [fst snd].
    unfold bind at 1.
    rewrite (getattr_hit w _ "block_device" d' τ' (PyStr name) eq_refl).
    unfold bind at 1. rewrite (getattr_hit w _ "bh" d' _ (PyValue bh) eq_refl).
    unfold bind at 1. rewrite getitem_value, Hblk.
    unfold bind at 1. rewrite (getattr_hit w _ "bh" d' _ (PyValue bh) eq_refl).
    unfold bind at 1. rewrite getitem_value, Hsize. reflexivity. }
  split; [|split; [exact Hlater|split]].
  - set (d := decoder_with GenericBHDecoder "bh" bh).
    unfold str_, dunder_str, bind at 1, bind at 1, get_self.
    change (cls (d, τ).1) with GenericBHDecoder. cbv iota.
    unfold GenericBHDecoder___str__.
    unfold bind at 1. rewrite (getattr_hit w _ "_description" d τ _ eq_refl).
    unfold bind at 1. rewrite (getattr_hit w _ "bh" d τ _ eq_refl).
    unfold bind at 1, lift at 1, lift_result at 1.
    change (py_int (PyValue bh)) with (Ok (val_int bh)). cbv iota beta.
    unfold bind at 1. change recursion_limit with (S (S (S 997))). cbn [fst snd].
    rewrite (getattr_miss_uninterpreted w 997 "block_device" d τ (PyBool false)
               eq_refl eq_refl eq_refl).
    rewrite call_interpret_unshadowed by reflexivity.
    rewrite (interpret_generic_bh w (S (S 997)) bh), Hbdev, Hname.
    cbv zeta.
    match goal with
    | |- context [find_attr w ?d2 "block_device"] =>
        change d2 with (interpreted_bh bh name)
    end.
    set (d' := interpreted_bh bh name).
    change (find_attr w d' "block_device") with (Some (PyStr name)). cbv iota beta.
    unfold bind at 1. rewrite (getattr_hit w _ "bh" d' _ (PyValue bh) eq_refl).
    unfold bind at 1. rewrite getitem_value, Hblk.
    unfold bind at 1. rewrite (getattr_hit w _ "bh" d' _ (PyValue bh) eq_refl).
    unfold bind at 1. rewrite getitem_value, Hsize. reflexivity.
  - unfold τ1. by rewrite !interpret_runs_log_read, interpret_runs_log_interpret.
  - intros τ'. rewrite Hlater. cbn [fst snd]. by rewrite !interpret_runs_log_read.
Qed.

Lemma generic_bh_str_interprets_once_witness :
  (str_ readable_world (interpreted_bh sample_object "sda", empty_state)).1
  = Ok "1000 buffer_head: for dev sda, block 0xdead <b_blocknr>, size 0xdead <b_size> (undecoded)".
Proof.
  destruct (generic_bh_str_interprets_once readable_world sample_object
              (mkValue 57005 None "0xdead <b_bdev>")
              (mkValue 57005 None "0xdead <b_blocknr>")
              (mkValue 57005 None "0xdead <b_size>") "sda" empty_state
              eq_refl eq_refl eq_refl eq_refl) as (_ & H & _).
  rewrite H. reflexivity.
Defined.

(** * Further properties of syscache.py *)

(** ** Lines of the configuration text *)

Lemma append_nil_r (s : string) : s +:+ "" = s.
Proof.
  induction s as [|c s IH]; [done|].
  change (String c (s +:+ "") = String c s). by rewrite IH.
Qed.

Lemma append_cons (c : ascii) (a b : string) : String c a +:+ b = String c (a +:+ b).
Proof. reflexivity. Qed.

Lemma occurs_space_hash s : Config.all_space s = true -> Config.occurs "#" s = false.
Proof.
  induction s as [|c s IH]; [done|]. cbn [Config.all_space Config.occurs].
  intros [Hc Hs]%andb_prop. rewrite (IH Hs), orb_false_r.
  destruct (Ascii.eqb_spec c "#") as [->|]; [discriminate Hc | done].
Qed.

Lemma drop_comment_app a b :
  Config.occurs "#" a = false ->
  Config.drop_comment (a +:+ b) = a +:+ Config.drop_comment b.
Proof.
  induction a as [|c a IH]; [done|]. cbn [Config.occurs].
  intros [Hc Ha]%orb_false_elim. rewrite !append_cons. cbn [Config.drop_comment].
  rewrite Hc. cbn [andb]. by rewrite IH.
Qed.

Lemma line_feed_is_break s c :
  Config.has_break (String c s) = false -> Ascii.eqb c "010" = false.
Proof.
  cbn [Config.has_break]. intros [Hc _]%orb_false_elim.
  destruct (Ascii.eqb_spec c "010") as [->|]; [discriminate Hc | done].
Qed.

(** A comment on one line goes whole. *)
Lemma drop_comment_one_line s :
  Config.has_break s = false -> Config.drop_comment (String "#" s) = "".
Proof.
  intros H. cbn [Config.drop_comment]. change (Ascii.eqb "#" "#") with true. cbn [andb].
  assert (Config.ends_line s = true /\ Config.from_newline s = "") as [-> ->]; [|done].
  induction s as [|c s IH]; [done|].
  cbn [Config.ends_line Config.from_newline]. rewrite (line_feed_is_break s c H).
  apply IH. cbn [Config.has_break] in H. by apply orb_false_elim in H as [_ H].
Qed.

Lemma upto_newline_one_line s :
  Config.has_break s = false -> Config.upto_newline s = s.
Proof.
  induction s as [|c s IH]; [done|]. intros H.
  cbn [Config.upto_newline]. rewrite (line_feed_is_break s c H), IH; [done|].
  cbn [Config.has_break] in H. by apply orb_false_elim in H as [_ H].
Qed.

Lemma drop_comment_plain a :
  Config.occurs "#" a = false -> Config.drop_comment a = a.
Proof.
  intros H. rewrite <- (append_nil_r a) at 1.
  rewrite (drop_comment_app a "" H). apply append_nil_r.
Qed.

Lemma rstrip_all_space s : Config.all_space s = true -> Config.rstrip s = "".
Proof.
  induction s as [|c s IH]; [done|]. cbn [Config.all_space Config.rstrip].
  intros [Hc Hs]%andb_prop. by rewrite (IH Hs), Hc.
Qed.

Lemma rstrip_app_blank a b :
  Config.rstrip b = "" -> Config.rstrip (a +:+ b) = Config.rstrip a.
Proof.
  intros Hb. induction a as [|c a IH]; [done|].
  rewrite append_cons. cbn [Config.rstrip]. by rewrite IH.
Qed.

Lemma rstrip_lead lead x :
  Config.rstrip x <> "" -> Config.rstrip (lead +:+ x) = lead +:+ Config.rstrip x.
Proof.
  intros Hx. induction lead as [|c lead IH]; [done|].
  rewrite !(append_cons c lead). cbn [Config.rstrip]. rewrite IH.
  destruct (lead +:+ Config.rstrip x) eqn:E; [|done].
  destruct lead; [by destruct Hx | done].
Qed.

Lemma rstrip_app_fixed a b :
  Config.rstrip b = b -> b <> "" -> Config.rstrip (a +:+ b) = a +:+ b.
Proof.
  intros Hb Hne. induction a as [|c a IH]; [done|].
  rewrite append_cons. cbn [Config.rstrip]. rewrite IH.
  destruct (a +:+ b) eqn:E; [|done].
  destruct a; [by destruct b | done].
Qed.

Lemma lstrip_app lead s :
  Config.all_space lead = true -> Config.lstrip (lead +:+ s) = Config.lstrip s.
Proof.
  induction lead as [|c lead IH]; [done|]. cbn [Config.all_space].
  intros [Hc Hs]%andb_prop. rewrite append_cons. cbn [Config.lstrip].
  by rewrite Hc, IH.
Qed.

(** A line is its leading white space followed by [lstrip] of it. *)
Lemma lstrip_split s :
  exists lead, Config.all_space lead = true /\ s = lead +:+ Config.lstrip s.
Proof.
  induction s as [|c s (lead & Hlead & IH)]; [by exists ""|].
  cbn [Config.lstrip]. destruct (Config.is_space c) eqn:Hc.
  - exists (String c lead). split; [cbn; by rewrite Hc|].
    rewrite append_cons. by rewrite <- IH.
  - by exists "".
Qed.

Lemma match_assignment_app k v :
  Config.occurs "=" k = false ->
  Config.has_break v = false ->
  Config.match_assignment (k +:+ String "=" v) = Some (k, v).
Proof.
  intros Hk Hv. induction k as [|c k IH].
  - change (Some (EmptyString, Config.upto_newline v) = Some (EmptyString, v)).
    by rewrite upto_newline_one_line.
  - cbn [Config.occurs] in Hk. apply orb_false_elim in Hk as [Hc Hk].
    rewrite append_cons. cbn [Config.match_assignment]. by rewrite Hc, IH.
Qed.

Lemma match_assignment_none s :
  Config.occurs "=" s = false -> Config.match_assignment s = None.
Proof.
  induction s as [|c s IH]; [done|]. cbn [Config.occurs Config.match_assignment].
  intros [Hc Hs]%orb_false_elim. by rewrite Hc, IH.
Qed.

(** The stripped assignment, as [config_entry] sees it. *)
Lemma rstrip_assignment k v :
  Config.rstrip v = v ->
  Config.rstrip ("CONFIG_" +:+ k +:+ String "=" v) = "CONFIG_" +:+ k +:+ String "=" v.
Proof.
  intros Hv. destruct v as [|c v].
  - rewrite <- (append_assoc_string "CONFIG_" k (String "=" "")).
    apply rstrip_app_fixed; done.
  - rewrite <- (append_assoc_string "CONFIG_" k (String "=" (String c v))).
    change (String "=" (String c v)) with ("=" +:+ String c v).
    rewrite <- (append_assoc_string ("CONFIG_" +:+ k) "=" (String c v)).
    apply rstrip_app_fixed; done.
Qed.

Lemma config_entry_assignment lead k v tail :
  Config.all_space lead = true ->
  Config.valid_key k = true ->
  Config.valid_value v = true ->
  Config.rstrip (Config.drop_comment tail) = "" ->
  Config.config_entry (lead +:+ "CONFIG_" +:+ k +:+ String "=" (v +:+ tail)) = Some (k, v).
Proof.
  unfold Config.valid_key, Config.valid_value, Config.plain.
  intros Hlead [[_ Hk1%negb_true_iff]%andb_prop Hk2%negb_true_iff]%andb_prop
         [[Hv0%negb_true_iff Hv1%negb_true_iff]%andb_prop Hv2%String.eqb_eq]%andb_prop
         Htail.
  unfold Config.config_entry.
  assert (Hdrop : Config.drop_comment (lead +:+ "CONFIG_" +:+ k +:+ String "=" (v +:+ tail))
                  = lead +:+ "CONFIG_" +:+ k +:+ String "=" (v +:+ Config.drop_comment tail)).
  { rewrite (drop_comment_app lead) by by apply occurs_space_hash.
    rewrite (drop_comment_app "CONFIG_") by done.
    rewrite (drop_comment_app k) by done.
    change (String "=" (v +:+ tail)) with ("=" +:+ (v +:+ tail)).
    rewrite (drop_comment_app "=") by done.
    by rewrite (drop_comment_app v) by done. }
  rewrite Hdrop. clear Hdrop. set (rest := Config.drop_comment tail) in *.
  assert (Hr : Config.rstrip ("CONFIG_" +:+ k +:+ String "=" (v +:+ rest))
               = "CONFIG_" +:+ k +:+ String "=" v).
  { change (String "=" (v +:+ rest)) with ("=" +:+ (v +:+ rest)).
    rewrite <- (append_assoc_string "=" v rest).
    rewrite <- (append_assoc_string k ("=" +:+ v) rest).
    rewrite <- (append_assoc_string "CONFIG_" (k +:+ "=" +:+ v) rest).
    rewrite (rstrip_app_blank _ rest Htail).
    by apply rstrip_assignment. }
  assert (Hstrip : Config.strip (lead +:+ "CONFIG_" +:+ k +:+ String "=" (v +:+ rest))
                   = "CONFIG_" +:+ k +:+ String "=" v).
  { unfold Config.strip. rewrite rstrip_lead by (by rewrite Hr).
    rewrite Hr. by apply lstrip_app. }
  rewrite Hstrip.
  change ("CONFIG_" +:+ k +:+ String "=" v)
    with (String "C" ("ONFIG_" +:+ k +:+ String "=" v)).
  cbv iota.
  change (String "C" ("ONFIG_" +:+ k +:+ String "=" v))
    with ("CONFIG_" +:+ (k +:+ String "=" v)).
  unfold Config.match_config.
  change (Config.strip_prefix "CONFIG_" ("CONFIG_" +:+ (k +:+ String "=" v)))
    with (Some (k +:+ String "=" v)).
  by apply match_assignment_app.
Qed.

(** X12. A line [CONFIG_key=value] gives the entry [key |-> value]:
    white space around it and a trailing comment, itself on one line, do
    not count. The key is all there is between [CONFIG_] and the first
    [=]; the value is the rest up to the comment, without the white
    space at its end. *)
Theorem config_line_assignment (lead k v pad comment : string) :
  Config.all_space lead = true ->
  Config.all_space pad = true ->
  Config.valid_key k = true ->
  Config.valid_value v = true ->
  Config.has_break comment = false ->
  Config.config_entry (lead +:+ "CONFIG_" +:+ k +:+ "=" +:+ v +:+ pad) = Some (k, v)
  /\ Config.config_entry (lead +:+ "CONFIG_" +:+ k +:+ "=" +:+ v +:+ pad +:+ "#" +:+ comment)
     = Some (k, v).
Proof.
  intros Hlead Hpad Hk Hv Hcomment. split.
  - apply (config_entry_assignment lead k v pad Hlead Hk Hv).
    rewrite drop_comment_plain by (by apply occurs_space_hash).
    by apply rstrip_all_space.
  - apply (config_entry_assignment lead k v (pad +:+ "#" +:+ comment) Hlead Hk Hv).
    rewrite drop_comment_app by (by apply occurs_space_hash).
    change ("#" +:+ comment) with (String "#" comment).
    rewrite (drop_comment_one_line comment Hcomment).
    rewrite append_nil_r. by apply rstrip_all_space.
Qed.

Lemma config_line_assignment_witness :
  Config.config_entry "  CONFIG_HZ=250  # timer frequency" = Some ("HZ", "250").
Proof.
  destruct (config_line_assignment "  " "HZ" "250" "  " " timer frequency"
              eq_refl eq_refl eq_refl eq_refl eq_refl) as [_ H].
  exact H.
Defined.

Lemma occurs_rstrip c s : Config.occurs c s = false -> Config.occurs c (Config.rstrip s) = false.
Proof.
  induction s as [|x s IH]; [done|]. cbn [Config.occurs Config.rstrip].
  intros [Hx Hs]%orb_false_elim. specialize (IH Hs).
  destruct (Config.rstrip s) eqn:E.
  - destruct (Config.is_space x); [done|]. cbn. by rewrite Hx.
  - cbn [Config.occurs] in *. by rewrite Hx, IH.
Qed.

Lemma occurs_lstrip c s : Config.occurs c s = false -> Config.occurs c (Config.lstrip s) = false.
Proof.
  induction s as [|x s IH]; [done|]. cbn [Config.occurs Config.lstrip].
  intros H. destruct (Config.is_space x); [|done].
  apply orb_false_elim in H as [_ Hs]. by apply IH.
Qed.

Lemma occurs_strip_prefix c p s r :
  Config.strip_prefix p s = Some r -> Config.occurs c s = false ->
  Config.occurs c r = false.
Proof.
  revert s. induction p as [|a p IH]; intros s H Hs.
  - destruct s; by inversion H.
  - destruct s as [|b s]; [done|]. cbn [Config.strip_prefix] in H.
    destruct (Ascii.eqb a b); [|done].
    cbn [Config.occurs] in Hs. apply orb_false_elim in Hs as [_ Hs]. by eapply IH.
Qed.

Lemma all_space_app a b :
  Config.all_space (a +:+ b) = Config.all_space a && Config.all_space b.
Proof.
  induction a as [|c a IH]; [done|]. rewrite append_cons. cbn [Config.all_space].
  by rewrite IH, andb_assoc.
Qed.

(** What is left of a text that starts with [#]: white space, or a text
    that starts with [#]. *)
Lemma drop_comment_hash rest :
  Config.all_space (Config.drop_comment (String "#" rest)) = true
  \/ exists r, Config.drop_comment (String "#" rest) = String "#" r.
Proof.
  cbn [Config.drop_comment]. change (Ascii.eqb "#" "#") with true. cbn [andb].
  destruct (Config.ends_line rest) eqn:E; [left | right; by eexists].
  induction rest as [|c rest IH]; [done|].
  cbn [Config.ends_line Config.from_newline] in *.
  destruct (Ascii.eqb_spec c "010") as [->|]; [|by apply IH].
  by destruct rest.
Qed.

Lemma rstrip_hash r : exists r', Config.rstrip (String "#" r) = String "#" r'.
Proof. cbn [Config.rstrip]. destruct (Config.rstrip r); by eexists. Qed.

(** X13. Lines that add nothing to the cache: a blank line, a line
    whose first character after the white space is [#] (as in
    [# CONFIG_X is not set]), and a line with no [=] before its
    comment. *)
Theorem config_line_ignored (line : string) :
  Config.all_space line = true
  \/ (exists rest, Config.lstrip line = String "#" rest)
  \/ Config.occurs "=" (Config.drop_comment line) = false ->
  Config.config_entry line = None.
Proof.
  intros [Hblank | [[rest Hrest] | Hnone]]; unfold Config.config_entry.
  - rewrite drop_comment_plain by (by apply occurs_space_hash).
    unfold Config.strip. by rewrite rstrip_all_space.
  - destruct (lstrip_split line) as (lead & Hlead & Hline).
    rewrite Hline, Hrest.
    rewrite drop_comment_app by (by apply occurs_space_hash).
    destruct (drop_comment_hash rest) as [Hblank | [r ->]].
    + unfold Config.strip. rewrite rstrip_all_space; [done|].
      by rewrite all_space_app, Hlead, Hblank.
    + destruct (rstrip_hash r) as [r' Hr]. unfold Config.strip.
      rewrite rstrip_lead by (by rewrite Hr). rewrite Hr, lstrip_app by done.
      reflexivity.
  - assert (H : Config.occurs "=" (Config.strip (Config.drop_comment line)) = false).
    { unfold Config.strip. by apply occurs_lstrip, occurs_rstrip. }
    destruct (Config.strip (Config.drop_comment line)) as [|c s] eqn:E; [done|].
    unfold Config.match_config.
    destruct (Config.strip_prefix "CONFIG_" (String c s)) as [r|] eqn:Hp; [|done].
    apply match_assignment_none. by eapply occurs_strip_prefix.
Qed.

Lemma config_line_ignored_witness :
  Config.config_entry "# CONFIG_PREEMPT is not set" = None.
Proof.
  apply config_line_ignored. right. left. by eexists.
Defined.

(** ** The whole text *)

Lemma splitlines_line l rest :
  Config.has_break l = false ->
  Config.splitlines (l +:+ String "010" rest) = l :: Config.splitlines rest.
Proof.
  induction l as [|c l IH]; [done|]. cbn [Config.has_break].
  intros [Hc Hl]%orb_false_elim.
  rewrite append_cons. cbn [Config.splitlines]. rewrite Hc, (IH Hl).
  destruct (Ascii.eqb_spec c "013") as [->|]; [discriminate Hc | done].
Qed.

Lemma has_break_app a b :
  Config.has_break (a +:+ b) = Config.has_break a || Config.has_break b.
Proof.
  induction a as [|x a IH]; [done|]. rewrite append_cons. cbn [Config.has_break].
  by rewrite IH, orb_assoc.
Qed.

Lemma occurs_app c a b : Config.occurs c (a +:+ b) = Config.occurs c a || Config.occurs c b.
Proof.
  induction a as [|x a IH]; [done|]. rewrite append_cons. cbn [Config.occurs].
  by rewrite IH, orb_assoc.
Qed.

Lemma valid_entry_line k v :
  Config.valid_key k = true -> Config.valid_value v = true ->
  Config.has_break (Config.render_entry (k, v)) = false.
Proof.
  unfold Config.valid_key, Config.valid_value, Config.plain, Config.render_entry.
  intros [[Hk%negb_true_iff _]%andb_prop _]%andb_prop
         [[Hv%negb_true_iff _]%andb_prop _]%andb_prop.
  cbn [fst snd]. rewrite !has_break_app. by rewrite Hk, Hv.
Qed.

Lemma splitlines_render es :
  Forall (fun e => Config.valid_key e.1 = true /\ Config.valid_value e.2 = true) es ->
  Config.splitlines (Config.render es) = map Config.render_entry es.
Proof.
  induction 1 as [|[k v] es [Hk Hv] Hall IH]; [done|].
  cbn [Config.render map]. rewrite splitlines_line, IH; [done|].
  by apply valid_entry_line.
Qed.

Lemma config_entry_render k v :
  Config.valid_key k = true -> Config.valid_value v = true ->
  Config.config_entry (Config.render_entry (k, v)) = Some (k, v).
Proof.
  intros Hk Hv.
  unfold Config.render_entry. cbn [fst snd].
  pose proof (config_entry_assignment "" k v "" eq_refl Hk Hv eq_refl) as H.
  rewrite append_nil_r in H. exact H.
Qed.

(** X14. Round trip of the configuration text: a text of lines
    [CONFIG_key=value], one per entry, parses back to the entries, a
    later entry for a key replacing an earlier one. *)
Theorem parse_render_round_trip (es : list (string * string)) :
  Forall (fun e => Config.valid_key e.1 = true /\ Config.valid_value e.2 = true) es ->
  Config.parsed (Config.render es) = foldl (fun m e => <[e.1 := e.2]> m) ∅ es.
Proof.
  intros Hall. unfold Config.parsed. rewrite (splitlines_render es Hall).
  generalize (∅ : gmap string string).
  induction Hall as [|[k v] es [Hk Hv] Hall IH]; intros m; [done|].
  cbn [map foldl]. rewrite (config_entry_render k v Hk Hv). apply IH.
Qed.

Lemma parse_render_round_trip_witness :
  Config.parsed (Config.render [("HZ", "100"); ("SMP", "y"); ("HZ", "250")])
  = <["HZ" := "250"]> (<["SMP" := "y"]> (<["HZ" := "100"]> ∅)).
Proof.
  rewrite parse_render_round_trip; [reflexivity|].
  repeat constructor.
Defined.

(** ** The configuration cache *)

(** How [decompress_config_buffer] can end. *)
Lemma decompress_outcome (dbg : Syscache.Debugger) (self : Syscache.CrashConfigCache) :
  match Syscache.decompress_config_buffer dbg self with
  | (Ok _, self') => exists text, self' = Syscache.mkCache (Some text)
  | (Raise _, self') => self' = self
  end.
Proof.
  destruct (Syscache.lookup_symbol dbg "kernel_config_data") as [sym|] eqn:Hsym.
  2:{ unfold Syscache.decompress_config_buffer. by rewrite Hsym. }
  destruct (val_address (sym_value sym)) as [a|] eqn:Ha.
  2:{ unfold Syscache.decompress_config_buffer. by rewrite Hsym, Ha. }
  rewrite (decompress_config_buffer_cases dbg self sym a Hsym Ha). cbv zeta.
  repeat match goal with
         | |- context [match ?x with Ok _ => _ | Raise _ => _ end] => destruct x
         | |- context [if ?b then _ else _] => destruct b
         end; eauto.
Qed.

(** X15. [decompress_config_buffer] is all or nothing. Without the
    symbol [kernel_config_data] it raises [MissingSymbolError]; whenever
    it raises, for whatever reason, the cache object is exactly as it
    was; when it returns, [config_buffer] is set. *)
Theorem decompress_is_atomic (dbg : Syscache.Debugger) (self : Syscache.CrashConfigCache) :
  (Syscache.lookup_symbol dbg "kernel_config_data" = None ->
   Syscache.decompress_config_buffer dbg self
   = (Raise (MissingSymbolError "CrashConfigCache requires 'kernel_config_data' symbol."),
      self))
  /\ (forall e self', Syscache.decompress_config_buffer dbg self = (Raise e, self') ->
                      self' = self)
  /\ (forall self', Syscache.decompress_config_buffer dbg self = (Ok tt, self') ->
                    exists text, self' = Syscache.mkCache (Some text)).
Proof.
  split.
  { intros H. unfold Syscache.decompress_config_buffer. by rewrite H. }
  pose proof (decompress_outcome dbg self) as Hall.
  split.
  - intros e self' H. by rewrite H in Hall.
  - intros self' H. by rewrite H in Hall.
Qed.

Lemma decompress_is_atomic_witness :
  Syscache.decompress_config_buffer
    (Syscache.mkDebugger (fun _ => None) (fun _ => 0) (fun _ _ => Ok "")
       (fun _ _ _ => Ok ""))
    (Syscache.mkCache (Some "old"))
  = (Raise (MissingSymbolError "CrashConfigCache requires 'kernel_config_data' symbol."),
     Syscache.mkCache (Some "old")).
Proof.
  apply decompress_is_atomic. reflexivity.
Defined.

Lemma for_each_config_lines lines o m :
  Config.ikconfig_cache o = Some m ->
  for_each lines
    (fun line => match Config.config_entry line with
                 | Some (k, v) => Config.cache_setitem k v
                 | None => ret tt
                 end) o
  = (Ok tt,
     Config.set_ikconfig_cache
       (Some (foldl (fun m line => match Config.config_entry line with
                                   | Some (k, v) => <[k := v]> m
                                   | None => m
                                   end) m lines)) o).
Proof.
  revert o m. induction lines as [|line lines IH]; intros o m Hm.
  - cbn [for_each foldl]. destruct o as [b c]. cbn in Hm. by subst c.
  - cbn [for_each foldl]. unfold bind at 1.
    destruct (Config.config_entry line) as [[k v]|].
    + unfold Config.cache_setitem, modify. rewrite Hm.
      rewrite (IH _ (<[k := v]> m)) by done. by destruct o.
    + unfold ret. by apply IH.
Qed.

Lemma get_config_buffer_unset dbg c1 :
  Config.get_config_buffer dbg (Config.mkConfigObject (Syscache.mkCache None) c1)
  = match Syscache.decompress_config_buffer dbg (Syscache.mkCache None) with
    | (Ok _, b) =>
        match Syscache.config_buffer b with
        | Some text => (Ok text, Config.mkConfigObject b c1)
        | None => (Raise RecursionError, Config.mkConfigObject b c1)
        end
    | (Raise e, b) => (Raise e, Config.mkConfigObject b c1)
    end.
Proof.
  cbv [Config.get_config_buffer bind get ret raise Config.decompress_config_buffer zoom
       Config.buffer Config.ikconfig_cache Syscache.config_buffer fst snd].
  destruct (Syscache.decompress_config_buffer dbg (Syscache.mkCache None)) as [[u|e] b];
    [|reflexivity].
  by destruct b as [[text|]].
Qed.

Lemma parse_config_fresh dbg c0 :
  Config._parse_config dbg (Config.mkConfigObject (Syscache.mkCache None) c0)
  = match Syscache.decompress_config_buffer dbg (Syscache.mkCache None) with
    | (Ok _, b) =>
        match Syscache.config_buffer b with
        | Some text => (Ok tt, Config.mkConfigObject b (Some (Config.parsed text)))
        | None => (Raise RecursionError, Config.mkConfigObject b (Some ∅))
        end
    | (Raise e, b) => (Raise e, Config.mkConfigObject b (Some ∅))
    end.
Proof.
  unfold Config._parse_config, bind at 1, modify.
  change (Config.set_ikconfig_cache (Some ∅)
            (Config.mkConfigObject (Syscache.mkCache None) c0))
    with (Config.mkConfigObject (Syscache.mkCache None) (Some ∅)).
  unfold bind at 1. rewrite get_config_buffer_unset.
  destruct (Syscache.decompress_config_buffer dbg (Syscache.mkCache None)) as [[u|e] b];
    [|reflexivity].
  destruct (Syscache.config_buffer b) as [text|]; [|reflexivity].
  rewrite (for_each_config_lines _ _ ∅) by reflexivity. reflexivity.
Qed.

Lemma config_getitem_fresh dbg name :
  Config.dunder_getitem dbg name Config.fresh
  = match Syscache.decompress_config_buffer dbg (Syscache.mkCache None) with
    | (Ok _, b) =>
        match Syscache.config_buffer b with
        | Some text =>
            (match Config.parsed text !! name with
             | Some v => Ok v
             | None => Raise KeyError
             end, Config.mkConfigObject b (Some (Config.parsed text)))
        | None => (Raise RecursionError, Config.mkConfigObject b (Some ∅))
        end
    | (Raise e, b) => (Raise e, Config.mkConfigObject b (Some ∅))
    end.
Proof.
  unfold Config.dunder_getitem, bind at 1, Config.get_ikconfig_cache, bind at 1, get.
  cbn [fst snd Config.fresh Config.ikconfig_cache].
  unfold bind at 1. unfold Config.fresh. rewrite parse_config_fresh.
  destruct (Syscache.decompress_config_buffer dbg (Syscache.mkCache None)) as [[u|e] b];
    [|reflexivity].
  destruct (Syscache.config_buffer b) as [text|]; [|reflexivity].
  unfold bind at 1, get. cbn [fst snd Config.ikconfig_cache]. unfold ret.
  by destruct (Config.parsed text !! name).
Qed.

Lemma get_config_buffer_set dbg text c1 :
  Config.get_config_buffer dbg (Config.mkConfigObject (Syscache.mkCache (Some text)) c1)
  = (Ok text, Config.mkConfigObject (Syscache.mkCache (Some text)) c1).
Proof. reflexivity. Qed.

Lemma parse_config_holding dbg text c0 :
  Config._parse_config dbg (Config.mkConfigObject (Syscache.mkCache (Some text)) c0)
  = (Ok tt, Config.loaded text).
Proof.
  unfold Config._parse_config, bind at 1, modify.
  change (Config.set_ikconfig_cache (Some ∅)
            (Config.mkConfigObject (Syscache.mkCache (Some text)) c0))
    with (Config.mkConfigObject (Syscache.mkCache (Some text)) (Some ∅)).
  unfold bind at 1. rewrite get_config_buffer_set.
  rewrite (for_each_config_lines _ _ ∅) by reflexivity. reflexivity.
Qed.

Lemma config_getitem_holding dbg name text :
  Config.dunder_getitem dbg name (Config.holding text)
  = (match Config.parsed text !! name with
     | Some v => Ok v
     | None => Raise KeyError
     end, Config.loaded text).
Proof.
  unfold Config.dunder_getitem, bind at 1, Config.get_ikconfig_cache, bind at 1, get.
  cbn [fst snd Config.holding Config.ikconfig_cache].
  unfold bind at 1. unfold Config.holding. rewrite parse_config_holding.
  unfold bind at 1, get. cbn [fst snd Config.ikconfig_cache Config.loaded]. unfold ret.
  by destruct (Config.parsed text !! name).
Qed.

(** X16. [config[name]] on an object whose [config_buffer] holds a
    text: the first lookup parses the text and answers from the parsed
    entries -- the value of the last line for [name], or [KeyError] when
    no line defines it -- and leaves the entries on the object; every
    later lookup is answered from those. Neither consults the
    debugger. *)
Theorem config_lookup_end_to_end (dbg : Syscache.Debugger) (text name : string) :
  let answer name := match Config.parsed text !! name with
                     | Some v => Ok v
                     | None => Raise KeyError
                     end in
  Config.dunder_getitem dbg name (Config.holding text) = (answer name, Config.loaded text)
  /\ forall dbg' name',
       Config.dunder_getitem dbg' name' (Config.loaded text)
       = (answer name', Config.loaded text).
Proof.
  intros answer. split.
  - apply config_getitem_holding.
  - intros dbg' name'. unfold Config.dunder_getitem, bind at 1,
      Config.get_ikconfig_cache, bind at 1, get, Config.loaded.
    cbn [fst snd Config.ikconfig_cache]. unfold ret, answer.
    by destruct (Config.parsed text !! name').
Qed.

(** X17. A failed first lookup is not retried. When decompression
    raises, [config[name]] on a fresh object raises that exception, but
    [_parse_config] has already set [ikconfig_cache] to the empty
    dictionary; from then on every lookup raises [KeyError], whatever the
    debugger would now say. *)
Theorem config_failure_leaves_empty_cache (dbg : Syscache.Debugger) (e : exn)
    (c : Syscache.CrashConfigCache) (name : string) :
  Syscache.decompress_config_buffer dbg (Syscache.mkCache None) = (Raise e, c) ->
  let emptied := Config.mkConfigObject (Syscache.mkCache None) (Some ∅) in
  Config.dunder_getitem dbg name Config.fresh = (Raise e, emptied)
  /\ forall dbg' name', Config.dunder_getitem dbg' name' emptied = (Raise KeyError, emptied).
Proof.
  intros Hd emptied.
  assert (Hc : c = Syscache.mkCache None).
  { pose proof (decompress_outcome dbg (Syscache.mkCache None)) as H.
    by rewrite Hd in H. }
  subst c. split.
  - by rewrite config_getitem_fresh, Hd.
  - intros dbg' name'. reflexivity.
Qed.

Lemma config_failure_leaves_empty_cache_witness :
  (Config.dunder_getitem Syscache.garbled_debugger "HZ" Config.fresh).1
  = Raise (IOError "Missing MAGIC_START in kernel_config_data.")
  /\ (Config.dunder_getitem working_debugger "HZ"
        (Config.dunder_getitem Syscache.garbled_debugger "HZ" Config.fresh).2).1
     = Raise KeyError.
Proof.
  destruct (config_failure_leaves_empty_cache Syscache.garbled_debugger
              (IOError "Missing MAGIC_START in kernel_config_data.")
              (Syscache.mkCache None) "HZ" eq_refl) as [H1 H2].
  rewrite H1. split; [reflexivity|]. cbn [snd]. by rewrite H2.
Defined.

(** ** The utsname cache *)

Lemma utsname_fill dbg u fs str o m :
  Utsname.utsname o = Some u ->
  Utsname.utsname_cache o = Some m ->
  (forall f, f ∈ fs -> Utsname.field_string dbg u f = Ok (str f)) ->
  for_each fs
    (fun field =>
       let* u := Utsname.get_utsname dbg in
       let* member := lift_result (Utsname.getitem dbg u field) in
       let* val := lift_result (Utsname.string_of dbg member) in
       Utsname.cache_setitem field val) o
  = (Ok tt, Utsname.mkUtsnameObject (Some u)
              (Some (foldl (fun m f => <[f := str f]> m) m fs))).
Proof.
  revert o m. induction fs as [|f fs IH]; intros o m Hu Hm Hstr.
  - destruct o as [u0 c0]. cbn in Hu, Hm. by subst.
  - cbn [for_each foldl]. unfold bind at 1.
    assert (Hf : Utsname.field_string dbg u f = Ok (str f)) by (apply Hstr; left).
    unfold Utsname.field_string in Hf.
    unfold bind at 1, Utsname.get_utsname, bind at 1, get. cbn [fst snd].
    rewrite Hu. unfold ret at 1. unfold bind at 1, lift_result at 1.
    destruct (Utsname.getitem dbg u f) as [member|]; [|done].
    unfold bind at 1, lift_result at 1. rewrite Hf.
    unfold Utsname.cache_setitem, modify. rewrite Hm.
    rewrite (IH _ (<[f := str f]> m)); try done.
    intros g Hg. apply Hstr. by right.
Qed.

Lemma foldl_insert_lookup (str : string -> string) fs (m : gmap string string) name :
  foldl (fun m f => <[f := str f]> m) m fs !! name
  = if decide (name ∈ fs) then Some (str name) else m !! name.
Proof.
  revert m. induction fs as [|f fs IH]; intros m.
  - cbn. by rewrite decide_False by apply not_elem_of_nil.
  - cbn [foldl]. rewrite IH. destruct (decide (name ∈ fs)) as [Hin|Hout].
    + by rewrite decide_True by (by right).
    + destruct (decide (name = f)) as [->|Hne].
      * rewrite decide_True by left. apply lookup_insert_eq.
      * rewrite decide_False.
        -- by apply lookup_insert_ne.
        -- intros [->|H]%elem_of_cons; done.
Qed.

(** X18. With [init_uts_ns] resolved and every field of its [name]
    readable, reading an attribute of a fresh utsname cache under a name
    that the class and its bases do not provide gives the string of
    the field of that name, and raises [AttributeError] when there is no
    such field; either way the object then holds the [utsname] value and
    one cache entry per field, and every later read is answered from the
    cache, whatever the debugger would now say. *)
Theorem utsname_fields_are_cached (dbg : Utsname.Debugger) (sym : Symbol) (u : Value)
    (str : string -> string) (name : string) :
  Utsname.lookup_global_symbol dbg "init_uts_ns" = Some sym ->
  Utsname.getitem dbg (sym_value sym) "name" = Ok u ->
  (forall f, f ∈ Utsname.fields dbg u -> Utsname.field_string dbg u f = Ok (str f)) ->
  name <> "utsname" -> name <> "utsname_cache" ->
  Utsname.on_class dbg name = false ->
  let cache := foldl (fun m f => <[f := str f]> m) ∅ (Utsname.fields dbg u) in
  let loaded := Utsname.mkUtsnameObject (Some u) (Some cache) in
  let answer := if decide (name ∈ Utsname.fields dbg u)
                then Ok (Utsname.AttrStr (str name)) else Raise (AttributeError "") in
  Utsname.getattr dbg name Utsname.fresh = (answer, loaded)
  /\ (forall f, cache !! f = if decide (f ∈ Utsname.fields dbg u) then Some (str f) else None)
  /\ forall dbg', Utsname.on_class dbg' name = false ->
                  Utsname.getattr dbg' name loaded = (answer, loaded).
Proof.
  intros Hsym Hu Hstr Hn1 Hn2 Hn3 cache loaded answer.
  apply String.eqb_neq in Hn1, Hn2.
  assert (Hcache : forall f, cache !! f
                     = if decide (f ∈ Utsname.fields dbg u) then Some (str f) else None).
  { intros f. unfold cache. rewrite foldl_insert_lookup. by rewrite lookup_empty. }
  assert (Hans : match cache !! name with
                 | Some s => Ok (Utsname.AttrStr s)
                 | None => Raise (AttributeError "")
                 end = answer).
  { rewrite Hcache. unfold answer. by destruct (decide _). }
  split; [|split; [exact Hcache|]].
  - unfold Utsname.getattr, bind at 1, get. cbn [fst snd]. rewrite Hn1, Hn2, Hn3.
    unfold Utsname.dunder_getattr. rewrite Hn1, Hn2.
    unfold bind at 1, Utsname.get_utsname_cache, bind at 1, get.
    cbn [fst snd Utsname.fresh Utsname.utsname_cache].
    unfold Utsname.init_utsname_cache, bind at 1, modify. cbn [fst snd Utsname.utsname].
    unfold bind at 1, Utsname.get_utsname at 1, bind at 1, get.
    cbn [fst snd Utsname.utsname].
    unfold Utsname.load_utsname. rewrite Hsym.
    unfold bind at 1, lift_result at 1. rewrite Hu.
    unfold bind at 1, modify, ret. cbn [Utsname.utsname_cache].
    unfold bind at 1.
    cbn [fst snd Utsname.fresh Utsname.utsname Utsname.utsname_cache].
    rewrite (utsname_fill dbg u (Utsname.fields dbg u) str
               (Utsname.mkUtsnameObject (Some u) (Some ∅)) ∅ eq_refl eq_refl Hstr).
    unfold bind at 1, get. cbn [fst snd Utsname.utsname_cache]. fold cache loaded.
    rewrite <- Hans. by destruct (cache !! name).
  - intros dbg' Hn3'. unfold Utsname.getattr, bind at 1, get. cbn [fst snd].
    rewrite Hn1, Hn2, Hn3'.
    unfold Utsname.dunder_getattr. rewrite Hn1, Hn2.
    unfold bind at 1, Utsname.get_utsname_cache, bind at 1, get, loaded.
    cbn [fst snd Utsname.utsname_cache]. unfold ret. fold cache.
    rewrite <- Hans. by destruct (cache !! name).
Qed.

Lemma utsname_fields_are_cached_witness :
  (Utsname.getattr sample_utsname "release" Utsname.fresh).1 = Ok (Utsname.AttrStr "5.3.18")
  /\ (Utsname.getattr sample_utsname "hostname" Utsname.fresh).1
     = Raise (AttributeError "").
Proof.
  split.
  - pose proof (utsname_fields_are_cached sample_utsname
                  (mkSymbol "init_uts_ns" null_value) (mkValue 0 None "name")
                  (fun f => if String.eqb f "sysname" then "Linux"
                            else if String.eqb f "release" then "5.3.18" else "")
                  "release" eq_refl eq_refl (fun f _ => eq_refl)
                  ltac:(discriminate) ltac:(discriminate) eq_refl) as [H _].
    rewrite H. reflexivity.
  - pose proof (utsname_fields_are_cached sample_utsname
                  (mkSymbol "init_uts_ns" null_value) (mkValue 0 None "name")
                  (fun f => if String.eqb f "sysname" then "Linux"
                            else if String.eqb f "release" then "5.3.18" else "")
                  "hostname" eq_refl eq_refl (fun f _ => eq_refl)
                  ltac:(discriminate) ltac:(discriminate) eq_refl) as [H _].
    rewrite H. reflexivity.
Defined.

(** X19. Without the symbol [init_uts_ns], the first read of a field on
    a fresh utsname cache -- of any name that the class and its bases do
    not provide -- raises [MissingSymbolError], but [init_utsname_cache]
    has already set [utsname_cache] to the empty dictionary: the same
    read raises [AttributeError] from then on, whatever the debugger
    would now say, while a read of [utsname] itself goes on raising
    [MissingSymbolError]. A name found on the class gives what is found
    there and leaves the object fresh. *)
Theorem utsname_failure_leaves_empty_cache (dbg : Utsname.Debugger) (name : string) :
  Utsname.lookup_global_symbol dbg "init_uts_ns" = None ->
  name <> "utsname" -> name <> "utsname_cache" ->
  let missing := MissingSymbolError "CrashUtsnameCache requires init_uts_ns" in
  let emptied := Utsname.mkUtsnameObject None (Some ∅) in
  (Utsname.on_class dbg name = false ->
   Utsname.getattr dbg name Utsname.fresh = (Raise missing, emptied)
   /\ (forall dbg', Utsname.on_class dbg' name = false ->
                    Utsname.getattr dbg' name emptied
                    = (Raise (AttributeError ""), emptied)))
  /\ Utsname.getattr dbg "utsname" emptied = (Raise missing, emptied)
  /\ (Utsname.on_class dbg name = true ->
      Utsname.getattr dbg name Utsname.fresh
      = (Ok (Utsname.AttrOfClass name), Utsname.fresh)).
Proof.
  intros Hsym Hn1 Hn2 missing emptied.
  apply String.eqb_neq in Hn1, Hn2.
  split; [intros Hn3; split|split].
  - unfold Utsname.getattr, bind at 1, get. cbn [fst snd]. rewrite Hn1, Hn2, Hn3.
    unfold Utsname.dunder_getattr. rewrite Hn1, Hn2.
    unfold bind at 1, Utsname.get_utsname_cache, bind at 1, get.
    cbn [fst snd Utsname.fresh Utsname.utsname_cache].
    unfold Utsname.init_utsname_cache, bind at 1, modify. cbn [fst snd Utsname.utsname].
    unfold bind at 1, Utsname.get_utsname at 1, bind at 1, get.
    cbn [fst snd Utsname.utsname].
    unfold Utsname.load_utsname. rewrite Hsym. reflexivity.
  - intros dbg' Hn3'. unfold Utsname.getattr, bind at 1, get. cbn [fst snd].
    rewrite Hn1, Hn2, Hn3'.
    unfold Utsname.dunder_getattr. rewrite Hn1, Hn2. reflexivity.
  - unfold Utsname.getattr, bind at 1, get. cbn [fst snd String.eqb Ascii.eqb].
    unfold Utsname.dunder_getattr, Utsname.load_utsname. rewrite Hsym. reflexivity.
  - intros Hn3. unfold Utsname.getattr, bind at 1, get. cbn [fst snd].
    by rewrite Hn1, Hn2, Hn3.
Qed.

Lemma utsname_failure_leaves_empty_cache_witness :
  (Utsname.getattr stripped_utsname "release" Utsname.fresh).1
  = Raise (MissingSymbolError "CrashUtsnameCache requires init_uts_ns")
  /\ (Utsname.getattr sample_utsname "release"
        (Utsname.getattr stripped_utsname "release" Utsname.fresh).2).1
     = Raise (AttributeError "").
Proof.
  pose proof (utsname_failure_leaves_empty_cache stripped_utsname "release" eq_refl
                ltac:(discriminate) ltac:(discriminate)) as (H & _).
  destruct (H eq_refl) as [H1 H2].
  rewrite H1. split; [reflexivity|]. cbn [snd]. by rewrite H2.
Defined.

(** ** The kernel cache *)

Lemma kernel_getattr_uptime dbg o :
  Kernel.uptime o = None ->
  Kernel.getattr dbg "uptime" o = Kernel.getattr_uptime dbg o.
Proof.
  intros H. unfold Kernel.getattr, bind at 1, get. cbn [fst snd String.eqb Ascii.eqb].
  by rewrite H.
Qed.

Lemma kernel_load_jiffies_64 dbg o sym h :
  Kernel.lookup_global_symbol dbg "jiffies_64" = Some sym ->
  Kernel.hz o = Some h ->
  Kernel.load_jiffies dbg o
  = (Ok tt, Kernel.set_jiffies (val_int (sym_value sym) - (4294967296 - 300 * h)) o).
Proof.
  intros Hsym Hh. unfold Kernel.load_jiffies. rewrite Hsym.
  unfold bind at 1, bind at 1, Kernel.get_hz, bind at 1, get. cbn [fst snd].
  rewrite Hh. reflexivity.
Qed.

(** X20. Uptime from [jiffies_64]. With [HZ] known to be [h > 0] and
    the counter reading [raw], [uptime] is the whole number of seconds
    [(raw - (2^32 - 300 h)) // h], which is [(raw - 2^32) // h + 300]:
    zero for a counter still at its initial value [2^32 - 300 h], and one
    more for every further [h] ticks. The adjusted counter is kept as
    [jiffies] and the result as [uptime]. *)
Theorem uptime_from_jiffies_64 (dbg : Kernel.Debugger) (o : Kernel.KernelObject)
    (sym : Symbol) (h : Z) :
  Kernel.lookup_global_symbol dbg "jiffies_64" = Some sym ->
  Kernel.hz o = Some h ->
  Kernel.jiffies o = None ->
  Kernel.uptime o = None ->
  0 < h ->
  let raw := val_int (sym_value sym) in
  let seconds := (raw - 4294967296) / h + 300 in
  -999999999 <= seconds / 86400 <= 999999999 ->
  Kernel.getattr dbg "uptime" o
  = (Ok seconds,
     Kernel.set_uptime seconds (Kernel.set_jiffies (raw - (4294967296 - 300 * h)) o))
  /\ seconds = (raw - (4294967296 - 300 * h)) / h
  /\ (forall n r, raw = 4294967296 - 300 * h + n * h + r -> 0 <= r < h -> seconds = n).
Proof.
  intros Hsym Hh Hj Hu Hpos raw seconds Hrange.
  assert (Hsec : seconds = (raw - (4294967296 - 300 * h)) / h).
  { unfold seconds.
    replace (raw - (4294967296 - 300 * h)) with (raw - 4294967296 + 300 * h) by lia.
    rewrite Z.div_add by lia. reflexivity. }
  split; [|split; [exact Hsec|]].
  - rewrite kernel_getattr_uptime by done.
    unfold Kernel.getattr_uptime, bind at 1, Kernel.get_uptime, bind at 1.
    unfold Kernel.get_jiffies, bind at 1, get. cbn [fst snd]. rewrite Hj.
    unfold Kernel.getattr_jiffies, bind at 1.
    rewrite (kernel_load_jiffies_64 dbg o sym h Hsym Hh). fold raw.
    unfold bind at 1, get. cbn [fst snd Kernel.set_jiffies Kernel.jiffies]. unfold ret.
    unfold bind at 1, Kernel.get_hz, bind at 1, get.
    cbn [fst snd Kernel.hz Kernel.set_jiffies]. rewrite Hh. unfold ret.
    unfold bind at 1, lift_result at 1, Kernel.floordiv.
    destruct (Z.eqb_spec h 0) as [->|_]; [lia|].
    rewrite <- Hsec. unfold lift_result, Kernel.timedelta.
    destruct Hrange as [Hlo Hhi].
    apply Z.leb_le in Hlo, Hhi. rewrite Hlo, Hhi. reflexivity.
  - intros n r Hraw Hr. rewrite Hsec, Hraw.
    replace (4294967296 - 300 * h + n * h + r - (4294967296 - 300 * h)) with (r + n * h)
      by lia.
    rewrite Z.div_add by lia. rewrite Z.div_small by lia. lia.
Qed.

Lemma uptime_from_jiffies_64_witness :
  (Kernel.getattr (sample_kernel 4295017296) "uptime"
     (Kernel.mkKernelObject Config.fresh (Some 250) None None)).1 = Ok 500.
Proof.
  pose proof (uptime_from_jiffies_64 (sample_kernel 4295017296)
                (Kernel.mkKernelObject Config.fresh (Some 250) None None)
                (mkSymbol "jiffies_64" (mkValue 4295017296 None "")) 250
                eq_refl eq_refl eq_refl eq_refl ltac:(lia)) as H.
  cbv zeta in H. destruct H as [H _]; [vm_compute; split; discriminate|].
  rewrite H. reflexivity.
Defined.

(** X21. Without [jiffies_64], [jiffies] is the value of the symbol
    [jiffies] as it stands, with no adjustment and without consulting
    the configuration; with neither symbol, [load_jiffies] raises
    [MissingSymbolError] and the object is as it was. *)
Theorem jiffies_fallback (dbg : Kernel.Debugger) (o : Kernel.KernelObject) :
  Kernel.lookup_global_symbol dbg "jiffies_64" = None ->
  Kernel.jiffies o = None ->
  (forall sym, Kernel.lookup_global_symbol dbg "jiffies" = Some sym ->
               Kernel.getattr dbg "jiffies" o
               = (Ok (val_int (sym_value sym)),
                  Kernel.set_jiffies (val_int (sym_value sym)) o))
  /\ (Kernel.lookup_global_symbol dbg "jiffies" = None ->
      Kernel.getattr dbg "jiffies" o
      = (Raise (MissingSymbolError "Could not locate jiffies_64 or jiffies"), o)).
Proof.
  intros H64 Hj.
  assert (Hga : Kernel.getattr dbg "jiffies" o = Kernel.getattr_jiffies dbg o).
  { unfold Kernel.getattr, bind at 1, get. cbn [fst snd String.eqb Ascii.eqb].
    by rewrite Hj. }
  rewrite Hga. unfold Kernel.getattr_jiffies, bind at 1, Kernel.load_jiffies.
  rewrite H64. split.
  - intros sym Hsym. rewrite Hsym. reflexivity.
  - intros Hsym. rewrite Hsym. reflexivity.
Qed.

Lemma jiffies_fallback_witness :
  Kernel.getattr
    (Kernel.mkDebugger working_debugger (fun _ => None) (fun _ => Ok 0))
    "jiffies" (Kernel.fresh Config.fresh)
  = (Raise (MissingSymbolError "Could not locate jiffies_64 or jiffies"),
     Kernel.fresh Config.fresh).
Proof.
  apply jiffies_fallback; reflexivity.
Defined.

(** X22. [hz] comes from the configuration text: on a fresh kernel cache
    over a configuration cache whose [config_buffer] holds a text,
    reading [hz] gives [long()] of the value of the last [CONFIG_HZ=]
    line and keeps it; when no line defines [HZ] it raises [KeyError]
    and [hz] stays unset. Either way the configuration cache is left
    with the parsed entries. *)
Theorem hz_from_config (dbg : Kernel.Debugger) (text : string) :
  (forall s h,
     Config.parsed text !! "HZ" = Some s ->
     Kernel.long_of_str dbg s = Ok h ->
     Kernel.getattr dbg "hz" (Kernel.fresh (Config.holding text))
     = (Ok h, Kernel.mkKernelObject (Config.loaded text) (Some h) None None))
  /\ (Config.parsed text !! "HZ" = None ->
      Kernel.getattr dbg "hz" (Kernel.fresh (Config.holding text))
      = (Raise KeyError, Kernel.mkKernelObject (Config.loaded text) None None None)).
Proof.
  assert (Hga : Kernel.getattr dbg "hz" (Kernel.fresh (Config.holding text))
                = Kernel.getattr_hz dbg (Kernel.fresh (Config.holding text)))
    by reflexivity.
  assert (Hcfg : Kernel.config_getitem dbg "HZ" (Kernel.fresh (Config.holding text))
                 = (match Config.parsed text !! "HZ" with
                    | Some v => Ok v
                    | None => Raise KeyError
                    end, Kernel.mkKernelObject (Config.loaded text) None None None)).
  { unfold Kernel.config_getitem, zoom. cbn [Kernel.fresh Kernel.config].
    by rewrite config_getitem_holding. }
  split.
  - intros s h Hs Hh. rewrite Hga. unfold Kernel.getattr_hz, bind at 1.
    rewrite Hcfg, Hs. unfold bind at 1, lift_result at 1. rewrite Hh. reflexivity.
  - intros Hs. rewrite Hga. unfold Kernel.getattr_hz, bind at 1. by rewrite Hcfg, Hs.
Qed.

Lemma hz_from_config_witness :
  (Kernel.getattr (sample_kernel 0) "hz"
     (Kernel.fresh (Config.holding sample_config_text))).1 = Ok 250.
Proof.
  destruct (hz_from_config (sample_kernel 0) sample_config_text) as [H _].
  rewrite (H "250" 250); reflexivity.
Defined.

(** X23. With [HZ] zero the division in [get_uptime] raises
    [ZeroDivisionError]: reading [uptime] fails, [uptime] stays unset,
    and the counter loaded on the way is kept as [jiffies]. *)
Theorem uptime_with_zero_hz (dbg : Kernel.Debugger) (o : Kernel.KernelObject)
    (sym : Symbol) :
  Kernel.lookup_global_symbol dbg "jiffies_64" = Some sym ->
  Kernel.hz o = Some 0 ->
  Kernel.jiffies o = None ->
  Kernel.uptime o = None ->
  Kernel.getattr dbg "uptime" o
  = (Raise (OtherError "ZeroDivisionError"),
     Kernel.set_jiffies (val_int (sym_value sym) - 4294967296) o).
Proof.
  intros Hsym Hh Hj Hu.
  rewrite kernel_getattr_uptime by done.
  unfold Kernel.getattr_uptime, bind at 1, Kernel.get_uptime, bind at 1.
  unfold Kernel.get_jiffies, bind at 1, get. cbn [fst snd]. rewrite Hj.
  unfold Kernel.getattr_jiffies, bind at 1.
  rewrite (kernel_load_jiffies_64 dbg o sym 0 Hsym Hh).
  unfold bind at 1, get. cbn [fst snd Kernel.set_jiffies Kernel.jiffies]. unfold ret.
  unfold bind at 1, Kernel.get_hz, bind at 1, get.
  cbn [fst snd Kernel.hz Kernel.set_jiffies]. rewrite Hh. unfold ret.
  unfold bind at 1, lift_result at 1, Kernel.floordiv. cbn [Z.eqb].
  reflexivity.
Qed.

Lemma uptime_with_zero_hz_witness :
  (Kernel.getattr (sample_kernel 4295017296) "uptime"
     (Kernel.mkKernelObject Config.fresh (Some 0) None None)).1
  = Raise (OtherError "ZeroDivisionError").
Proof.
  rewrite (uptime_with_zero_hz (sample_kernel 4295017296)
             (Kernel.mkKernelObject Config.fresh (Some 0) None None)
             (mkSymbol "jiffies_64" (mkValue 4295017296 None ""))); reflexivity.
Defined.

(** * Properties of module.py, cpu.py and aarch64.py *)

(** ** Module sections *)

Lemma sections_never_text dbg attrs secs :
  Forall (fun item => item.1 <> ".text") (Modules.sections dbg attrs secs).1
  /\ (length (Modules.sections dbg attrs secs).1 <= length secs)%nat.
Proof.
  induction secs as [|sec rest [IH1 IH2]]; [split; [constructor | done]|].
  cbn [Modules.sections].
  destruct (Modules.section_at dbg attrs sec) as [[item|]|e] eqn:Hsec.
  - destruct (Modules.sections dbg attrs rest) as [items ending]. cbn [fst] in *.
    split; [|cbn; lia]. constructor; [|done].
    unfold Modules.section_at in Hsec.
    destruct (Modules.getitem dbg attrs "attrs") as [table|]; [|discriminate Hsec].
    destruct (Modules.getindex dbg table sec) as [attr|]; [|discriminate Hsec].
    destruct (Modules.getitem dbg attr "name") as [nv|]; [|discriminate Hsec].
    destruct (Modules.string_of dbg nv) as [name|]; [|discriminate Hsec].
    destruct (String.eqb_spec name ".text") as [|Hne]; [discriminate Hsec|].
    destruct (Modules.getitem dbg attr "address"); [|discriminate Hsec].
    by inversion Hsec.
  - split; [done | cbn; lia].
  - split; [constructor | cbn; lia].
Qed.

(** X24. [for_each_module_section] never yields a section called
    [.text], whatever the image holds, and yields no more sections than
    [nsections] says. *)
Theorem module_sections_skip_text (dbg : Modules.Debugger) (module : Value) :
  Forall (fun item => item.1 <> ".text") (Modules.for_each_module_section dbg module).1
  /\ forall attrs nsections,
       Modules.getitem dbg module "sect_attrs" = Ok attrs ->
       Modules.getitem dbg attrs "nsections" = Ok nsections ->
       (length (Modules.for_each_module_section dbg module).1
        <= Z.to_nat (val_int nsections))%nat.
Proof.
  unfold Modules.for_each_module_section. split.
  - destruct (Modules.getitem dbg module "sect_attrs") as [attrs|]; [|constructor].
    destruct (Modules.getitem dbg attrs "nsections") as [n|]; [|constructor].
    apply sections_never_text.
  - intros attrs n Ha Hn. rewrite Ha, Hn.
    pose proof (sections_never_text dbg attrs (seqZ 0 (val_int n))) as [_ H].
    by rewrite length_seqZ in H.
Qed.

Lemma module_sections_skip_text_witness :
  (length (Modules.for_each_module_section sample_module null_value).1 <= 3)%nat.
Proof.
  destruct (module_sections_skip_text sample_module null_value) as [_ H].
  apply (H null_value (mkValue 3 None "3")); reflexivity.
Defined.

Lemma sections_all_readable dbg attrs (name : Z -> string) (address : Z -> Z) secs :
  (forall i, i ∈ secs ->
     Modules.section_at dbg attrs i
     = Ok (if String.eqb (name i) ".text" then None else Some (name i, address i))) ->
  Modules.sections dbg attrs secs
  = ((fun i => (name i, address i)) <$> filter (fun i => name i <> ".text") secs, None).
Proof.
  induction secs as [|sec rest IH]; intros H; [done|].
  cbn [Modules.sections]. rewrite (H sec) by left.
  rewrite IH by (intros i Hi; apply H; by right).
  rewrite filter_cons.
  destruct (String.eqb_spec (name sec) ".text") as [Heq|Hne].
  - by rewrite decide_False by (by intros ?).
  - by rewrite decide_True by done.
Qed.

(** X25. With the section table readable, the sections are yielded in
    the order of the table, each with its name and [int()] of its
    address, those called [.text] left out; the address of a [.text]
    section is not read. The generator then finishes without raising. *)
Theorem module_sections_in_order (dbg : Modules.Debugger)
    (module attrs nsections table : Value)
    (attr : Z -> Value) (name : Z -> string) (address : Z -> Z) :
  Modules.getitem dbg module "sect_attrs" = Ok attrs ->
  Modules.getitem dbg attrs "nsections" = Ok nsections ->
  Modules.getitem dbg attrs "attrs" = Ok table ->
  (forall i, 0 <= i < val_int nsections ->
     Modules.getindex dbg table i = Ok (attr i)
     /\ (exists v, Modules.getitem dbg (attr i) "name" = Ok v
                   /\ Modules.string_of dbg v = Ok (name i))
     /\ (name i <> ".text" ->
         exists a, Modules.getitem dbg (attr i) "address" = Ok a
                   /\ val_int a = address i)) ->
  Modules.for_each_module_section dbg module
  = ((fun i => (name i, address i))
       <$> filter (fun i => name i <> ".text") (seqZ 0 (val_int nsections)), None).
Proof.
  intros Ha Hn Ht Hall. unfold Modules.for_each_module_section. rewrite Ha, Hn.
  apply sections_all_readable. intros i Hi.
  apply elem_of_seqZ in Hi. destruct (Hall i) as (Hidx & (v & Hv & Hs) & Haddr); [lia|].
  unfold Modules.section_at. rewrite Ht, Hidx, Hv, Hs.
  destruct (String.eqb_spec (name i) ".text") as [|Hne]; [done|].
  destruct (Haddr Hne) as (a & Hga & <-). by rewrite Hga.
Qed.

Lemma module_sections_in_order_witness :
  Modules.for_each_module_section sample_module null_value
  = ([(".init", 4096); (".data", 4098)], None).
Proof.
  rewrite (module_sections_in_order sample_module null_value null_value
             (mkValue 3 None "3") null_value (fun i => mkValue i None "")
             (fun i => if i =? 1 then ".text" else if i =? 0 then ".init" else ".data")
             (fun i => 4096 + i)); try reflexivity.
  intros i Hi. split; [reflexivity|]. split.
  - eexists. split; reflexivity.
  - intros _. eexists. split; reflexivity.
Defined.

(** ** CPU masks *)

Lemma last_of_ascending (l : list Z) (h : Z) :
  Cpu.ascending l -> last l = Some h -> forall cpu, cpu ∈ l -> cpu <= h.
Proof.
  intros Hasc Hlast cpu Hin. rewrite last_lookup in Hlast.
  apply list_elem_of_lookup in Hin as [i Hi].
  apply (Hasc i (pred (length l)) cpu h Hi Hlast).
  apply lookup_lt_Some in Hi. lia.
Qed.

(** X26. After [_setup_online_mask] (resp. [_setup_possible_mask]) has
    run to its end, the online (possible) CPUs are the set bits of the
    mask as [for_each_set_bit] enumerates them, the lists and mask of the
    other kind are untouched, and [highest_online_cpu_nr] is the last of
    them -- the highest when the enumeration is ascending -- or
    [DelayedAttributeError] when no bit is set. *)
Theorem cpu_lists_after_setup (dbg : Cpu.Debugger) (symbol : Symbol) (bits : Value)
    (cpus : list Z) (c : Cpu.TypesCPUClass) :
  Cpu.getitem dbg (sym_value symbol) "bits" = Ok bits ->
  Cpu.for_each_set_bit dbg bits = Ok cpus ->
  (let c' := Cpu.mkTypesCPUClass cpus (Cpu.cpus_possible c) (Some (sym_value symbol))
               (Cpu.cpu_possible_mask c) in
   Cpu._setup_online_mask dbg symbol c = (Ok tt, c')
   /\ Cpu.for_each_online_cpu c' = cpus
   /\ Cpu.highest_online_cpu_nr c'
      = match last cpus with
        | Some cpu => Ok cpu
        | None => Raise (Cpu.DelayedAttributeError "cpus_online")
        end
   /\ (Cpu.ascending cpus ->
       forall h cpu, Cpu.highest_online_cpu_nr c' = Ok h -> cpu ∈ cpus -> cpu <= h))
  /\ (let c' := Cpu.mkTypesCPUClass (Cpu.cpus_online c) cpus (Cpu.cpu_online_mask c)
                  (Some (sym_value symbol)) in
      Cpu._setup_possible_mask dbg symbol c = (Ok tt, c')
      /\ Cpu.for_each_possible_cpu c' = cpus
      /\ Cpu.highest_possible_cpu_nr c'
         = match last cpus with
           | Some cpu => Ok cpu
           | None => Raise (Cpu.DelayedAttributeError "cpus_possible")
           end
      /\ (Cpu.ascending cpus ->
          forall h cpu, Cpu.highest_possible_cpu_nr c' = Ok h -> cpu ∈ cpus -> cpu <= h)).
Proof.
  intros Hbits Hcpus. split; cbv zeta.
  - split.
    { unfold Cpu._setup_online_mask, bind at 1, modify. unfold bind at 1, lift_result at 1.
      rewrite Hbits. unfold bind at 1, lift_result at 1. by rewrite Hcpus. }
    split; [done|]. split; [done|].
    intros Hsorted h cpu Hh Hin. unfold Cpu.highest_online_cpu_nr, Cpu.last_cpu in Hh.
    cbn [Cpu.cpus_online] in Hh. destruct (last cpus) as [x|] eqn:Hl; [|done].
    inversion Hh; subst. by apply (last_of_ascending cpus).
  - split.
    { unfold Cpu._setup_possible_mask, bind at 1, modify. unfold bind at 1, lift_result at 1.
      rewrite Hbits. unfold bind at 1, lift_result at 1. by rewrite Hcpus. }
    split; [done|]. split; [done|].
    intros Hsorted h cpu Hh Hin. unfold Cpu.highest_possible_cpu_nr, Cpu.last_cpu in Hh.
    cbn [Cpu.cpus_possible] in Hh. destruct (last cpus) as [x|] eqn:Hl; [|done].
    inversion Hh; subst. by apply (last_of_ascending cpus).
Qed.

Lemma cpu_lists_after_setup_witness :
  Cpu.highest_online_cpu_nr
    (Cpu._setup_online_mask sample_cpus (mkSymbol "cpu_online_mask" null_value)
       Cpu.initial).2 = Ok 3.
Proof.
  destruct (cpu_lists_after_setup sample_cpus (mkSymbol "cpu_online_mask" null_value)
              null_value [0; 1; 3] Cpu.initial eq_refl eq_refl) as [(H1 & _ & H2 & _) _].
  rewrite H1. cbn [snd]. rewrite H2. reflexivity.
Defined.

(** X27. A setup that fails half way leaves the class inconsistent: the
    mask attribute already holds the new value, while the list of CPUs
    is still the one of the previous setup (or empty), so that
    [highest_online_cpu_nr] goes on answering from the old list. *)
Theorem failed_cpu_setup_keeps_old_list (dbg : Cpu.Debugger) (symbol : Symbol)
    (c : Cpu.TypesCPUClass) (e : exn) :
  Cpu.getitem dbg (sym_value symbol) "bits" = Raise e
  \/ (exists bits, Cpu.getitem dbg (sym_value symbol) "bits" = Ok bits
                   /\ Cpu.for_each_set_bit dbg bits = Raise e) ->
  exists c',
    Cpu._setup_online_mask dbg symbol c = (Raise e, c')
    /\ Cpu.cpu_online_mask c' = Some (sym_value symbol)
    /\ Cpu.cpus_online c' = Cpu.cpus_online c
    /\ Cpu.highest_online_cpu_nr c' = Cpu.highest_online_cpu_nr c.
Proof.
  intros H. eexists. split.
  - unfold Cpu._setup_online_mask, bind at 1, modify. unfold bind at 1, lift_result at 1.
    destruct H as [H | (bits & Hb & H)].
    + rewrite H. reflexivity.
    + rewrite Hb. unfold bind at 1, lift_result at 1. rewrite H. reflexivity.
  - done.
Qed.

Lemma failed_cpu_setup_keeps_old_list_witness :
  exists c',
    Cpu._setup_online_mask
      (Cpu.mkDebugger (fun _ _ => Raise NotAvailableError) (fun _ => Ok []))
      (mkSymbol "cpu_online_mask" sample_object)
      (Cpu.mkTypesCPUClass [0; 1] [] (Some null_value) None)
    = (Raise NotAvailableError, c')
    /\ Cpu.cpu_online_mask c' = Some sample_object
    /\ Cpu.cpus_online c' = [0; 1].
Proof.
  destruct (failed_cpu_setup_keeps_old_list
              (Cpu.mkDebugger (fun _ _ => Raise NotAvailableError) (fun _ => Ok []))
              (mkSymbol "cpu_online_mask" sample_object)
              (Cpu.mkTypesCPUClass [0; 1] [] (Some null_value) None) NotAvailableError)
    as (c' & H1 & H2 & H3 & _).
  - left. reflexivity.
  - exists c'. split; [exact H1|]. split; [exact H2 | exact H3].
Defined.

(** ** Register callbacks of aarch64 *)

Lemma fetch_active_loop (l : list (string * Value)) (t : Aarch64.Thread) :
  for_each l
    (fun entry =>
       try_except (Aarch64.set_register entry.1 entry.2)
         (fun e => match e with
                   | KeyError => ret tt
                   | _ => raise e
                   end)) t
  = (Ok tt,
     Aarch64.set_registers
       (foldl (fun R entry => match R !! entry.1 with
                              | Some _ => <[entry.1 := Some entry.2]> R
                              | None => R
                              end) (Aarch64.registers t) l) t).
Proof.
  revert t. induction l as [|[k v] l IH]; intros t.
  - by destruct t.
  - cbn [for_each foldl fst snd]. unfold bind at 1, try_except.
    unfold Aarch64.set_register at 1, bind at 1, get. cbn [fst snd].
    destruct (Aarch64.registers t !! k) as [old|] eqn:Hk.
    + unfold modify. rewrite IH. by destruct t.
    + unfold raise, ret. rewrite IH. by destruct t.
Qed.

Lemma fetch_active_lookup (l : list (string * Value)) (R : gmap string (option Value)) r :
  NoDup l.*1 ->
  foldl (fun R entry => match R !! entry.1 with
                        | Some _ => <[entry.1 := Some entry.2]> R
                        | None => R
                        end) R l !! r
  = match R !! r with
    | None => None
    | Some old => Some (match (list_to_map l : gmap string Value) !! r with
                        | Some v => Some v
                        | None => old
                        end)
    end.
Proof.
  revert R. induction l as [|[k v] l IH]; intros R Hnd.
  - cbn. by destruct (R !! r).
  - apply NoDup_cons in Hnd as [Hk Hnd]. cbn [foldl fst snd]. rewrite IH by done.
    cbn [list_to_map foldr fst snd uncurry]. destruct (decide (r = k)) as [->|Hne].
    + rewrite lookup_insert_eq. rewrite (not_elem_of_list_to_map_1 _ _ Hk).
      destruct (R !! k) as [old|] eqn:HR; [by rewrite lookup_insert_eq | by rewrite HR].
    + rewrite (lookup_insert_ne _ k r) by done.
      destruct (R !! k); [by rewrite lookup_insert_ne | done].
Qed.

(** X28. [fetch_active] copies the saved registers into the registers
    the thread has: a register that is among the saved ones gets the
    saved value, every other register keeps what it held, and a saved
    register the thread does not have is passed over silently -- the
    call never raises and the thread gains no register. *)
Theorem fetch_active_copies_known_registers (t : Aarch64.Thread) :
  NoDup (Aarch64.regs t).*1 ->
  exists R,
    Aarch64.fetch_active t = (Ok tt, Aarch64.set_registers R t)
    /\ (forall r, R !! r
                  = match Aarch64.registers t !! r with
                    | None => None
                    | Some old => Some (match Aarch64.saved_register t r with
                                        | Some v => Some v
                                        | None => old
                                        end)
                    end)
    /\ dom R = dom (Aarch64.registers t).
Proof.
  intros Hnd. eexists. split; [|split].
  - unfold Aarch64.fetch_active, bind, get. cbn [fst snd]. apply fetch_active_loop.
  - intros r. by apply fetch_active_lookup.
  - apply set_eq. intros r. rewrite !elem_of_dom, fetch_active_lookup by done.
    destruct (Aarch64.registers t !! r); [split; eauto | done].
Qed.

Lemma fetch_active_copies_known_registers_witness :
  (Aarch64.registers (Aarch64.fetch_active sample_thread).2) !! "x19"
  = Some (Some (mkValue 19 None ""))
  /\ (Aarch64.registers (Aarch64.fetch_active sample_thread).2) !! "x0" = None.
Proof.
  destruct (fetch_active_copies_known_registers sample_thread) as (R & H1 & H2 & _).
  - compute_done.
  - rewrite H1. cbn [snd Aarch64.set_registers Aarch64.registers].
    split; rewrite H2; reflexivity.
Defined.

Lemma scheduled_loop_ok getitem task (ctx : string -> Value) l t :
  (forall entry, entry ∈ l -> Aarch64.cpu_context getitem task entry.2 = Ok (ctx entry.2)) ->
  (forall entry, entry ∈ l -> is_Some (Aarch64.registers t !! entry.1)) ->
  for_each l (Aarch64.assign_scheduled getitem task) t
  = (Ok tt,
     Aarch64.set_registers
       (foldl (fun R entry => <[entry.1 := Some (ctx entry.2)]> R)
              (Aarch64.registers t) l) t).
Proof.
  revert t. induction l as [|[reg field] l IH]; intros t Hctx Hregs.
  - by destruct t.
  - pose proof (Hctx (reg, field) ltac:(left)) as Hfield. cbn [snd] in Hfield.
    cbn [for_each foldl fst snd].
    unfold bind at 1, Aarch64.assign_scheduled at 1, bind at 1, lift_result at 1.
    cbn [fst snd]. rewrite Hfield.
    unfold Aarch64.set_register, bind at 1, get. cbn [fst snd].
    destruct (Hregs (reg, field)) as [old Hold]; [left|]. cbn [fst] in Hold.
    rewrite Hold. unfold modify. rewrite IH.
    + by destruct t.
    + intros e He. apply Hctx. by right.
    + intros e He. cbn [Aarch64.set_registers Aarch64.registers].
      destruct (decide (e.1 = reg)) as [->|Hne].
      * rewrite lookup_insert_eq. eauto.
      * rewrite lookup_insert_ne by done. apply Hregs. by right.
Qed.

Lemma scheduled_loop_keeps getitem task l t r t' :
  for_each l (Aarch64.assign_scheduled getitem task) t = (r, t') ->
  Aarch64.valid_stack t' = Aarch64.valid_stack t
  /\ Aarch64.stack_pointer t' = Aarch64.stack_pointer t
  /\ Aarch64.task_struct t' = Aarch64.task_struct t
  /\ forall reg, Aarch64.registers t !! reg = None -> Aarch64.registers t' !! reg = None.
Proof.
  revert t. induction l as [|[reg field] l IH]; intros t H.
  - cbn in H. by inversion H.
  - cbn [for_each fst snd] in H.
    unfold bind at 1, Aarch64.assign_scheduled at 1, bind at 1, lift_result at 1 in H.
    cbn [fst snd] in H.
    destruct (Aarch64.cpu_context getitem task field) as [value|e].
    2:{ inversion H; by subst. }
    unfold Aarch64.set_register, bind at 1, get in H. cbn [fst snd] in H.
    destruct (Aarch64.registers t !! reg) as [old|] eqn:Hold.
    2:{ inversion H; by subst. }
    unfold modify in H. apply IH in H as (H1 & H2 & H3 & H4).
    repeat split; try done.
    intros r' Hr'. apply H4. cbn [Aarch64.set_registers Aarch64.registers].
    rewrite lookup_insert_ne; [done|]. intros ->. by rewrite Hold in Hr'.
Qed.

Lemma scheduled_loop_missing getitem task l t :
  (exists entry, entry ∈ l /\ Aarch64.registers t !! entry.1 = None) ->
  exists e t', for_each l (Aarch64.assign_scheduled getitem task) t = (Raise e, t').
Proof.
  revert t. induction l as [|[reg field] l IH]; intros t (entry & Hin & Hnone).
  - by apply not_elem_of_nil in Hin.
  - cbn [for_each fst snd].
    unfold bind at 1, Aarch64.assign_scheduled at 1, bind at 1, lift_result at 1.
    cbn [fst snd].
    destruct (Aarch64.cpu_context getitem task field) as [value|e]; [|by eauto].
    unfold Aarch64.set_register, bind at 1, get. cbn [fst snd].
    destruct (Aarch64.registers t !! reg) as [old|] eqn:Hold; [|by eauto].
    unfold modify.
    apply elem_of_cons in Hin as [->|Hin]; [cbn in Hnone; congruence|].
    destruct (IH (Aarch64.set_registers (<[reg := Some value]> (Aarch64.registers t)) t))
      as (e & t' & H).
    + exists entry. split; [done|]. cbn [Aarch64.set_registers Aarch64.registers].
      rewrite lookup_insert_ne; [done|]. intros Heq. congruence.
    + rewrite H. eauto.
Qed.

Lemma scheduled_lookup (ctx : string -> Value) (l : list (string * string))
    (R : gmap string (option Value)) r :
  NoDup l.*1 ->
  foldl (fun R entry => <[entry.1 := Some (ctx entry.2)]> R) R l !! r
  = match (list_to_map l : gmap string string) !! r with
    | Some field => Some (Some (ctx field))
    | None => R !! r
    end.
Proof.
  revert R. induction l as [|[reg field] l IH]; intros R Hnd; [done|].
  apply NoDup_cons in Hnd as [Hk Hnd]. cbn [foldl fst snd]. rewrite IH by done.
  cbn [list_to_map foldr fst snd uncurry]. destruct (decide (r = reg)) as [->|Hne].
  - rewrite lookup_insert_eq, (not_elem_of_list_to_map_1 _ _ Hk).
    by rewrite lookup_insert_eq.
  - by rewrite !lookup_insert_ne by done.
Qed.

(** X29. [fetch_scheduled] on a thread that has the thirteen registers
    and a task whose saved context is readable: [x19] to [x28], [sp] and
    [pc] get the field of [cpu_context] of their own name, [x29] gets
    [fp], and every other register keeps what it held; [stack_pointer]
    is the saved [sp], the same value the register [sp] gets and whose
    [int()] [get_stack_pointer] returns; and [valid_stack] is set. *)
Theorem fetch_scheduled_loads_saved_context (getitem : Value -> string -> result Value)
    (ctx : string -> Value) (t : Aarch64.Thread) :
  (forall field, Aarch64.cpu_context getitem (Aarch64.task_struct t) field = Ok (ctx field)) ->
  (forall entry, entry ∈ Aarch64.scheduled_registers ->
                 is_Some (Aarch64.registers t !! entry.1)) ->
  exists R,
    Aarch64.fetch_scheduled getitem t
    = (Ok tt, Aarch64.mkThread R (Aarch64.regs t) (Aarch64.task_struct t)
                (Some (ctx "sp")) true)
    /\ (forall r, R !! r = match Aarch64.scheduled_field r with
                           | Some field => Some (Some (ctx field))
                           | None => Aarch64.registers t !! r
                           end)
    /\ R !! "x29" = Some (Some (ctx "fp"))
    /\ R !! "sp" = Some (Some (ctx "sp"))
    /\ (forall thread, getitem (Aarch64.task_struct t) "thread" = Ok thread ->
                       Aarch64.get_stack_pointer getitem thread = Ok (val_int (ctx "sp"))).
Proof.
  intros Hctx Hregs.
  assert (Hlookup : forall r,
            foldl (fun R entry => <[entry.1 := Some (ctx entry.2)]> R)
                  (Aarch64.registers t) Aarch64.scheduled_registers !! r
            = match Aarch64.scheduled_field r with
              | Some field => Some (Some (ctx field))
              | None => Aarch64.registers t !! r
              end).
  { intros r. apply scheduled_lookup. compute_done. }
  eexists. split; [|split; [exact Hlookup|split; [|split]]].
  - unfold Aarch64.fetch_scheduled, bind at 1, get. cbn [fst snd].
    unfold bind at 1.
    rewrite (scheduled_loop_ok getitem (Aarch64.task_struct t) ctx) by auto.
    unfold bind at 1, lift_result at 1. rewrite Hctx. reflexivity.
  - by rewrite Hlookup.
  - by rewrite Hlookup.
  - intros thread Hthread. specialize (Hctx "sp").
    unfold Aarch64.cpu_context in Hctx. rewrite Hthread in Hctx.
    unfold Aarch64.get_stack_pointer.
    destruct (getitem thread "cpu_context") as [context|]; [|done]. by rewrite Hctx.
Qed.

Lemma fetch_scheduled_loads_saved_context_witness :
  Aarch64.valid_stack (Aarch64.fetch_scheduled sample_context full_thread).2 = true
  /\ Aarch64.registers (Aarch64.fetch_scheduled sample_context full_thread).2 !! "x29"
     = Some (Some (mkValue 0 None "fp")).
Proof.
  destruct (fetch_scheduled_loads_saved_context sample_context
              (fun field => mkValue 0 None field) full_thread)
    as (R & H & _ & Hfp & _).
  - reflexivity.
  - intros entry Hin.
    assert (H : Forall (fun entry => is_Some (Aarch64.registers full_thread !! entry.1))
                  Aarch64.scheduled_registers) by (repeat constructor; by eexists).
    rewrite Forall_forall in H. by apply H.
  - rewrite H. by split.
Defined.

(** X30. [valid_stack] is set only by a [fetch_scheduled] that ran to
    its end: when it raises, [valid_stack] and [stack_pointer] are as
    they were. It does raise when the thread lacks one of the thirteen
    registers (with [KeyError], unless a read failed before). *)
Theorem fetch_scheduled_sets_valid_stack_last
    (getitem : Value -> string -> result Value) (t : Aarch64.Thread) :
  match Aarch64.fetch_scheduled getitem t with
  | (Ok _, t') => Aarch64.valid_stack t' = true /\ is_Some (Aarch64.stack_pointer t')
  | (Raise _, t') =>
      Aarch64.valid_stack t' = Aarch64.valid_stack t
      /\ Aarch64.stack_pointer t' = Aarch64.stack_pointer t
  end
  /\ ((exists entry, entry ∈ Aarch64.scheduled_registers
                     /\ Aarch64.registers t !! entry.1 = None) ->
      exists e t', Aarch64.fetch_scheduled getitem t = (Raise e, t')).
Proof.
  split.
  - unfold Aarch64.fetch_scheduled, bind at 1, get. cbn [fst snd]. unfold bind at 1.
    destruct (for_each Aarch64.scheduled_registers
                (Aarch64.assign_scheduled getitem (Aarch64.task_struct t)) t) as [[u|e] t1] eqn:Hloop;
      apply scheduled_loop_keeps in Hloop as (H1 & H2 & _); [|done].
    unfold bind at 1, lift_result at 1.
    destruct (Aarch64.cpu_context getitem (Aarch64.task_struct t) "sp"); [|done].
    cbn. eauto.
  - intros Hmissing.
    destruct (scheduled_loop_missing getitem (Aarch64.task_struct t)
                Aarch64.scheduled_registers t Hmissing) as (e & t' & H).
    exists e, t'. unfold Aarch64.fetch_scheduled, bind at 1, get. cbn [fst snd].
    unfold bind at 1. by rewrite H.
Qed.

Lemma fetch_scheduled_sets_valid_stack_last_witness :
  exists e t',
    Aarch64.fetch_scheduled sample_context sample_thread = (Raise e, t')
    /\ Aarch64.valid_stack t' = false.
Proof.
  destruct (fetch_scheduled_sets_valid_stack_last sample_context sample_thread)
    as [Hkeep Hraise].
  destruct Hraise as (e & t' & H).
  - exists ("x20", "x20"). split; [compute_done | reflexivity].
  - exists e, t'. split; [exact H|]. rewrite H in Hkeep. by destruct Hkeep as [-> _].
Defined.
